(** * Compliance reconciliation of the CloudWatch Config widgets

    A shallow embedding of the data-processing core of
    [src/lambda/configRulesWidget.js] and
    [src/lambda/configComplianceWidget.js]: the compliance lookup map
    built from the summary feed, its reconciliation with per-rule
    evaluation details, the filter chain of [processConfigData], the
    tri-state status shown for each rule, the summary statistics, and the
    fault-isolated prefetch loop of the two handlers.

    Modelling conventions.
    - Resource counts are natural numbers (the upstream counts and
      [Array.length] are non-negative integers).
    - A JS field that may be [undefined] is an [option]; [x || 0] and
      [x || []] become [default].
    - The plain objects used as lookup tables ([complianceMap],
      [detailedComplianceData], [guidanceMap]) are [gmap string _] for
      their own entries; reading [obj[name]] also finds what the object
      inherits: the members of [Object.prototype] ([inherited]) and, once
      [obj['__proto__']] was assigned, the fields of that value
      ([inheritedFrom], [member]).  Where the code only tests an entry
      for [NonCompliantResourceCount] and [TotalResourceCount] behind a
      truthiness guard, an inherited member behaves like a missing entry
      and the own entries are read directly (section [OtherWidgets]).
    - [Array.filter], [Array.map], [Array.some] and [Array.includes] are
      [List.filter], [fmap], [existsb]; none of them mutates its receiver.
    - A promise is its outcome: [Resolved v] or [Rejected message]. *)

From stdpp Require Import gmap strings list fin_maps.
From Stdlib Require Import ZArith.

(** ** Data model *)

(** [rule.Scope], with its optional [ComplianceResourceTypes] array. *)
Record RuleScope := {
  ComplianceResourceTypes : option (list string)
}.

(** An element of [rulesResponse.ConfigRules]. *)
Record ConfigRule := {
  ConfigRuleName : string;
  Description : option string;
  Scope : option RuleScope
}.

(** [item.ComplianceSummary] as served upstream: any count may be missing. *)
Record ComplianceSummary := {
  summaryCompliantResourceCount : option nat;
  summaryNonCompliantResourceCount : option nat;
  summaryTotalResourceCount : option nat
}.

(** An element of [complianceResponse.ComplianceSummaryByConfigRule]. *)
Record SummaryItem := {
  itemConfigRuleName : string;
  itemComplianceSummary : ComplianceSummary
}.

(** A value stored in [complianceMap]. *)
Record ComplianceCount := {
  CompliantResourceCount : nat;
  NonCompliantResourceCount : nat;
  TotalResourceCount : nat
}.

(** An element of [details.EvaluationResults]. *)
Record EvaluationResult := {
  ResourceId : string;
  ComplianceType : string
}.

(** The recognised fields of [event.params]. *)
Record Params := {
  ruleNames : option (list string);
  resourceTypes : option (list string);
  complianceStatus : option string;
  ruleName : option string
}.

Record RulesResponse := {
  ConfigRules : option (list ConfigRule)
}.

Record ComplianceResponse := {
  ComplianceSummaryByConfigRule : option (list SummaryItem)
}.

Record DetailsResponse := {
  EvaluationResults : option (list EvaluationResult)
}.

(** The status shown for a rule. *)
Inductive Classification := COMPLIANT | NON_COMPLIANT | INSUFFICIENT_DATA.

(** The literal default [{ Compliant: 0, NonCompliant: 0, Total: 0 }]. *)
Definition zeroCount : ComplianceCount :=
  {| CompliantResourceCount := 0;
     NonCompliantResourceCount := 0;
     TotalResourceCount := 0 |}.

(** ** JS helpers *)

(** [arr.includes(x)] on an array of strings. *)
Definition includes (arr : list string) (x : string) : bool :=
  existsb (String.eqb x) arr.

(** Truthiness of an optional string: [undefined] and [''] are falsy. *)
Definition truthyString (s : option string) : bool :=
  match s with
  | Some v => negb (String.eqb v ""%string)
  | None => false
  end.

(** [arr && arr.length > 0]. *)
Definition nonEmptyArray {A} (arr : option (list A)) : bool :=
  match arr with
  | Some l => 0 <? length l
  | None => false
  end.

(** The property names a plain object inherits from [Object.prototype]. *)
Definition objectPrototypeMembers : list string :=
  ["constructor"; "__defineGetter__"; "__defineSetter__"; "hasOwnProperty";
   "__lookupGetter__"; "__lookupSetter__"; "isPrototypeOf"; "propertyIsEnumerable";
   "toString"; "valueOf"; "__proto__"; "toLocaleString"]%string.

(** [name] is found on every plain object, own entry or not. *)
Definition inherited (name : string) : bool :=
  includes objectPrototypeMembers name.

(** Assigning [obj['__proto__'] = v] does not create an own entry: it
    makes [v] the prototype of [obj], and [obj['__proto__']] then reads
    [v].  The map keeps [v] under that key; the three count fields of [v]
    are then found on [obj] under their own names, as numbers. *)
Definition inheritedField (obj : gmap string ComplianceCount) (name : string)
    : option nat :=
  match obj !! "__proto__"%string with
  | Some v =>
      if String.eqb name "CompliantResourceCount" then Some (CompliantResourceCount v)
      else if String.eqb name "NonCompliantResourceCount"
           then Some (NonCompliantResourceCount v)
      else if String.eqb name "TotalResourceCount" then Some (TotalResourceCount v)
      else None
  | None => None
  end.

(** Without an own entry, [obj[name]] is truthy: a member of
    [Object.prototype], or a count field of an assigned prototype that is
    not 0. *)
Definition inheritedFrom (obj : gmap string ComplianceCount) (name : string) : bool :=
  inherited name
  || match inheritedField obj name with
     | Some n => 0 <? n
     | None => false
     end.

(** A truthy value of [complianceMap[name]]: an own count, or an
    inherited member (a function, [Object.prototype] or a number), which
    has none of the count fields. *)
Inductive Attached :=
  | Counts (c : ComplianceCount)
  | InheritedMember.

(** [complianceMap[name]] as far as the code looks at it; [None] is a
    falsy value ([undefined], or an inherited 0). *)
Definition member (obj : gmap string ComplianceCount) (name : string) : option Attached :=
  match obj !! name with
  | Some c => Some (Counts c)
  | None => if inheritedFrom obj name then Some InheritedMember else None
  end.

(** The count fields of an attached value; [None] is [undefined]. *)
Definition compliantOf (a : Attached) : option nat :=
  match a with
  | Counts c => Some (CompliantResourceCount c)
  | InheritedMember => None
  end.
Definition nonCompliantOf (a : Attached) : option nat :=
  match a with
  | Counts c => Some (NonCompliantResourceCount c)
  | InheritedMember => None
  end.
Definition totalOf (a : Attached) : option nat :=
  match a with
  | Counts c => Some (TotalResourceCount c)
  | InheritedMember => None
  end.

(** [x === 0] and [x > 0]; both are false of [undefined]. *)
Definition isZero (x : option nat) : bool :=
  match x with
  | Some n => n =? 0
  | None => false
  end.
Definition isPositive (x : option nat) : bool :=
  match x with
  | Some n => 0 <? n
  | None => false
  end.

(** ** Reconciliation shared by the widgets *)

(** The object literal built from one summary item ([count || 0]). *)
Definition summaryCount (s : ComplianceSummary) : ComplianceCount :=
  {| CompliantResourceCount := default 0 (summaryCompliantResourceCount s);
     NonCompliantResourceCount := default 0 (summaryNonCompliantResourceCount s);
     TotalResourceCount := default 0 (summaryTotalResourceCount s) |}.

(** [compliance.forEach(item => complianceMap[item.ConfigRuleName] = ...)]
    starting from the empty object. *)
Definition summaryMap (compliance : list SummaryItem) : gmap string ComplianceCount :=
  foldl (λ m item, <[itemConfigRuleName item := summaryCount (itemComplianceSummary item)]> m)
        ∅ compliance.

(** [evaluationResults.filter(r => r.ComplianceType === t).length]. *)
Definition countType (t : string) (evaluationResults : list EvaluationResult) : nat :=
  length (List.filter (λ r, String.eqb (ComplianceType r) t) evaluationResults).

(** The count derived from the evaluation results of one rule. *)
Definition detailCount (evaluationResults : list EvaluationResult) : ComplianceCount :=
  {| CompliantResourceCount := countType "COMPLIANT" evaluationResults;
     NonCompliantResourceCount := countType "NON_COMPLIANT" evaluationResults;
     TotalResourceCount := length evaluationResults |}.

(** Body of the [Object.keys(detailed).forEach] callback. *)
Definition applyDetail (ruleName : string) (evaluationResults : list EvaluationResult)
    (complianceMap : gmap string ComplianceCount) : gmap string ComplianceCount :=
  if 0 <? length evaluationResults
  then <[ruleName := detailCount evaluationResults]> complianceMap
  else complianceMap.

(** The whole [forEach] over the keys of the detail object.  Each key is
    visited once and writes only its own entry, so the visiting order is
    immaterial. *)
Definition mergeDetailed (detailed : gmap string (list EvaluationResult))
    (complianceMap : gmap string ComplianceCount) : gmap string ComplianceCount :=
  map_fold applyDetail complianceMap detailed.

(** The three flags computed by [generateRuleItemHTML] and
    [generateRuleSummaryItemHTML]. *)
Definition isCompliant (c : ComplianceCount) : bool :=
  (NonCompliantResourceCount c =? 0) && (0 <? TotalResourceCount c).
Definition isNonCompliant (c : ComplianceCount) : bool :=
  0 <? NonCompliantResourceCount c.
Definition isInsufficient (c : ComplianceCount) : bool :=
  (TotalResourceCount c =? 0) && (NonCompliantResourceCount c =? 0).

(** The [if (isCompliant) ... else if (isNonCompliant) ...] cascade over
    the default "insufficient" status. *)
Definition classify (c : ComplianceCount) : Classification :=
  if isCompliant c then COMPLIANT
  else if isNonCompliant c then NON_COMPLIANT
  else INSUFFICIENT_DATA.

(** The text placed in the status badge. *)
Definition statusText (s : Classification) : string :=
  match s with
  | COMPLIANT => "Compliant"
  | NON_COMPLIANT => "Non-Compliant"
  | INSUFFICIENT_DATA => "Insufficient Data"
  end%string.

(** The value of [params.complianceStatus] naming a classification. *)
Definition statusName (s : Classification) : string :=
  match s with
  | COMPLIANT => "COMPLIANT"
  | NON_COMPLIANT => "NON_COMPLIANT"
  | INSUFFICIENT_DATA => "INSUFFICIENT_DATA"
  end%string.

(** ** Upstream reads *)

(** The settled state of an awaited promise. *)
Inductive Outcome (A : Type) :=
  | Resolved (value : A)
  | Rejected (message : string).
Arguments Resolved {A} value.
Arguments Rejected {A} message.

(** The four read operations the handlers await. *)
Record Upstream := {
  getCallerIdentity : Outcome string;
  describeConfigRules : Outcome RulesResponse;
  getComplianceSummaryByConfigRule : Outcome ComplianceResponse;
  getComplianceDetailsByConfigRule : string → Outcome DetailsResponse
}.

(** The fixed allow-list of account-level rule names. *)
Definition accountLevelRules : list string :=
  ["iam-password-policy"; "root-account-mfa-enabled"; "iam-user-mfa-enabled"]%string.

(** [rulesResponse.ConfigRules?.some(r => r.ConfigRuleName === ruleName)]
    used as a condition. *)
Definition ruleExists (rulesResponse : RulesResponse) (ruleName : string) : bool :=
  match ConfigRules rulesResponse with
  | Some rs => existsb (λ r, String.eqb (ConfigRuleName r) ruleName) rs
  | None => false
  end.

(** State threaded through the prefetch loop: the detail object being
    filled and the lines written with [console.log] in a [catch]. *)
Record Prefetch := {
  detailedComplianceData : gmap string (list EvaluationResult);
  logged : list string
}.

Definition emptyPrefetch : Prefetch :=
  {| detailedComplianceData := ∅; logged := [] |}.

(** What a handler hands to the presentation layer. *)
Inductive Rendered (A : Type) :=
  | Widget (data : A)
  | ErrorHTML (message : string).
Arguments Widget {A} data.
Arguments ErrorHTML {A} message.

(** ** The rules widget ([configRulesWidget.js]) *)

Module RulesWidget.

(** A rule with its [compliance] field, as built by the final [map]. *)
Record ProcessedRule := {
  rule : ConfigRule;
  compliance : Attached
}.

Record Summary := {
  total : nat;
  compliant : nat;
  nonCompliant : nat;
  insufficientData : nat
}.

Record ProcessedData := {
  rules : list ProcessedRule;
  summary : Summary;
  accountId : option string
}.

(** The reconciled lookup map of [processConfigData]. *)
Definition complianceMap (compliance : list SummaryItem)
    (detailed : gmap string (list EvaluationResult)) : gmap string ComplianceCount :=
  mergeDetailed detailed (summaryMap compliance).

(** Callback of the [ruleNames] filter. *)
Definition ruleNamesFilter (names : list string) (r : ConfigRule) : bool :=
  includes names (ConfigRuleName r).

(** Callback of the [complianceStatus] filter. *)
Definition complianceStatusFilter (status : string)
    (cmap : gmap string ComplianceCount) (r : ConfigRule) : bool :=
  match member cmap (ConfigRuleName r) with
  | None => false
  | Some compliance =>
      if String.eqb status "COMPLIANT" then
        isZero (nonCompliantOf compliance) && isPositive (totalOf compliance)
      else if String.eqb status "NON_COMPLIANT" then
        isPositive (nonCompliantOf compliance)
      else if String.eqb status "INSUFFICIENT_DATA" then
        isZero (totalOf compliance)
      else true
  end.

(** Callback of the [resourceTypes] filter. *)
Definition resourceTypesFilter (types : list string) (r : ConfigRule) : bool :=
  match Scope r with
  | None => false
  | Some scope =>
      match ComplianceResourceTypes scope with
      | None => false
      | Some ts => existsb (λ type, includes types type) ts
      end
  end.

(** The three guarded filter statements, in source order. *)
Definition filterRules (params : Params) (cmap : gmap string ComplianceCount)
    (rs : list ConfigRule) : list ConfigRule :=
  let filteredRules := rs in
  let filteredRules :=
    if nonEmptyArray (ruleNames params)
    then List.filter (ruleNamesFilter (default [] (ruleNames params))) rs
    else filteredRules in
  let filteredRules :=
    if truthyString (complianceStatus params)
    then List.filter
           (complianceStatusFilter (default ""%string (complianceStatus params)) cmap)
           filteredRules
    else filteredRules in
  let filteredRules :=
    if nonEmptyArray (resourceTypes params)
    then List.filter (resourceTypesFilter (default [] (resourceTypes params))) filteredRules
    else filteredRules in
  filteredRules.

(** [{ ...rule, compliance: complianceMap[name] || zero }]. *)
Definition addCompliance (cmap : gmap string ComplianceCount) (r : ConfigRule) : ProcessedRule :=
  {| rule := r;
     compliance := default (Counts zeroCount) (member cmap (ConfigRuleName r)) |}.

(** The [summary] object literal. *)
Definition summarize (processedRules : list ProcessedRule) : Summary :=
  {| total := length processedRules;
     compliant := length (List.filter
       (λ p, isZero (nonCompliantOf (compliance p))
             && isPositive (totalOf (compliance p))) processedRules);
     nonCompliant := length (List.filter
       (λ p, isPositive (nonCompliantOf (compliance p))) processedRules);
     insufficientData := length (List.filter
       (λ p, isZero (totalOf (compliance p))) processedRules) |}.

Definition processConfigData (rulesResponse : RulesResponse)
    (complianceResponse : ComplianceResponse) (params : Params)
    (detailed : gmap string (list EvaluationResult)) (accountId : option string)
    : ProcessedData :=
  let rs := default [] (ConfigRules rulesResponse) in
  let compliance := default [] (ComplianceSummaryByConfigRule complianceResponse) in
  let cmap := complianceMap compliance detailed in
  let filteredRules := filterRules params cmap rs in
  let processedRules := addCompliance cmap <$> filteredRules in
  {| rules := processedRules;
     summary := summarize processedRules;
     accountId := accountId |}.

(** The [isCompliant] / [isNonCompliant] cascade of [generateRuleItemHTML]
    on an attached value; on an own count it is [classify]. *)
Definition classifyAttached (a : Attached) : Classification :=
  if isZero (nonCompliantOf a) && isPositive (totalOf a) then COMPLIANT
  else if isPositive (nonCompliantOf a) then NON_COMPLIANT
  else INSUFFICIENT_DATA.

(** The status computed by [generateRuleItemHTML] for a displayed rule. *)
Definition ruleItemStatus (p : ProcessedRule) : Classification :=
  classifyAttached (compliance p).

(** One iteration of the [for (const ruleName of accountLevelRules)]
    loop with its [try]/[catch]. *)
Definition prefetchStep (up : Upstream) (rulesResponse : RulesResponse)
    (st : Prefetch) (ruleName : string) : Prefetch :=
  if ruleExists rulesResponse ruleName then
    match getComplianceDetailsByConfigRule up ruleName with
    | Resolved details =>
        {| detailedComplianceData :=
             <[ruleName := default [] (EvaluationResults details)]>
               (detailedComplianceData st);
           logged := logged st |}
    | Rejected message =>
        {| detailedComplianceData := detailedComplianceData st;
           logged := logged st ++
             [("Error getting detailed compliance for " +:+ ruleName +:+ ": " +:+ message)%string] |}
    end
  else st.

Definition prefetch (up : Upstream) (rulesResponse : RulesResponse) : Prefetch :=
  foldl (prefetchStep up rulesResponse) emptyPrefetch accountLevelRules.

(** [exports.handler] up to the data it renders: the three initial reads
    reject into the outer [catch]; the prefetch loop does not. *)
Definition handler (up : Upstream) (params : Params) : Rendered ProcessedData :=
  match getCallerIdentity up with
  | Rejected message => ErrorHTML message
  | Resolved account =>
      match describeConfigRules up, getComplianceSummaryByConfigRule up with
      | Rejected message, _ => ErrorHTML message
      | Resolved _, Rejected message => ErrorHTML message
      | Resolved rulesResponse, Resolved complianceResponse =>
          let st := prefetch up rulesResponse in
          Widget (processConfigData rulesResponse complianceResponse params
                    (detailedComplianceData st) (Some account))
      end
  end.

End RulesWidget.

(** ** The compliance widget ([configComplianceWidget.js]) *)

Module ComplianceWidget.

(** The object returned by the summary branch of
    [getDetailedComplianceData]. *)
Record SummaryData := {
  rules : list ConfigRule;
  compliance : list SummaryItem;
  detailedCompliance : gmap string (list EvaluationResult);
  accountId : string
}.

(** The two shapes of [complianceData], told apart by [type]. *)
Inductive ComplianceData :=
  | RuleDetails (name : string) (complianceDetails : list EvaluationResult)
  | ComplianceSummaryData (data : SummaryData).

(** One iteration of the prefetch loop: the direct read when the rule is
    listed, the speculative read (kept only when non-empty, with its own
    [try]/[catch]) when it is not. *)
Definition prefetchStep (up : Upstream) (rulesResponse : RulesResponse)
    (st : Prefetch) (ruleName : string) : Prefetch :=
  if ruleExists rulesResponse ruleName then
    match getComplianceDetailsByConfigRule up ruleName with
    | Resolved details =>
        {| detailedComplianceData :=
             <[ruleName := default [] (EvaluationResults details)]>
               (detailedComplianceData st);
           logged := logged st |}
    | Rejected message =>
        {| detailedComplianceData := detailedComplianceData st;
           logged := logged st ++
             [("Error getting detailed compliance for " +:+ ruleName +:+ ": " +:+ message)%string] |}
    end
  else
    match getComplianceDetailsByConfigRule up ruleName with
    | Resolved details =>
        if nonEmptyArray (EvaluationResults details) then
          {| detailedComplianceData :=
               <[ruleName := default [] (EvaluationResults details)]>
                 (detailedComplianceData st);
             logged := logged st |}
        else st
    | Rejected message =>
        {| detailedComplianceData := detailedComplianceData st;
           logged := logged st ++
             [("Direct call for " +:+ ruleName +:+ " failed: " +:+ message)%string] |}
    end.

Definition prefetch (up : Upstream) (rulesResponse : RulesResponse) : Prefetch :=
  foldl (prefetchStep up rulesResponse) emptyPrefetch accountLevelRules.

(** [getDetailedComplianceData]: a rejected read outside the prefetch
    loop rejects the whole call. *)
Definition getDetailedComplianceData (up : Upstream) (params : Params)
    : Outcome ComplianceData :=
  if truthyString (ruleName params) then
    let name := default ""%string (ruleName params) in
    match getComplianceDetailsByConfigRule up name with
    | Rejected message => Rejected message
    | Resolved details =>
        Resolved (RuleDetails name (default [] (EvaluationResults details)))
    end
  else
    match getCallerIdentity up with
    | Rejected message => Rejected message
    | Resolved account =>
        match describeConfigRules up, getComplianceSummaryByConfigRule up with
        | Rejected message, _ => Rejected message
        | Resolved _, Rejected message => Rejected message
        | Resolved rulesResponse, Resolved complianceResponse =>
            let st := prefetch up rulesResponse in
            Resolved (ComplianceSummaryData
              {| rules := default [] (ConfigRules rulesResponse);
                 compliance :=
                   default [] (ComplianceSummaryByConfigRule complianceResponse);
                 detailedCompliance := detailedComplianceData st;
                 accountId := account |})
        end
    end.

(** The default entry added for a listed ["iam-password-policy"] rule
    that is still missing from the map. *)
Definition addPasswordPolicyDefault (rs : list ConfigRule)
    (cmap : gmap string ComplianceCount) : gmap string ComplianceCount :=
  if existsb (λ r, String.eqb (ConfigRuleName r) "iam-password-policy") rs then
    match cmap !! "iam-password-policy"%string with
    | None => <["iam-password-policy"%string := zeroCount]> cmap
    | Some _ => cmap
    end
  else cmap.

(** The reconciled lookup map of [generateComplianceSummaryHTML]. *)
Definition complianceMap (data : SummaryData) : gmap string ComplianceCount :=
  addPasswordPolicyDefault (rules data)
    (mergeDetailed (detailedCompliance data) (summaryMap (compliance data))).

(** The status computed by [generateRuleSummaryItemHTML], whose
    [compliance] argument may be [undefined]; an inherited member is
    given the same status and detail line as the zero count. *)
Definition ruleSummaryItemStatus (compliance : option ComplianceCount) : Classification :=
  classify (default zeroCount compliance).

Record RuleItemView := {
  itemRule : ConfigRule;
  itemCompliance : ComplianceCount;
  itemStatus : Classification
}.

Record SummaryView := {
  totalRules : Z;
  compliantRules : Z;
  nonCompliantRules : Z;
  insufficientDataRules : Z;
  items : list RuleItemView
}.

(** [comp && comp.NonCompliantResourceCount === 0 && comp.TotalResourceCount > 0];
    false on an inherited member, whose counts are [undefined]. *)
Definition countsAsCompliant (cmap : gmap string ComplianceCount) (r : ConfigRule) : bool :=
  match cmap !! ConfigRuleName r with
  | Some comp => (NonCompliantResourceCount comp =? 0) && (0 <? TotalResourceCount comp)
  | None => false
  end.

(** [comp && comp.NonCompliantResourceCount > 0]; false on an inherited
    member, whose counts are [undefined]. *)
Definition countsAsNonCompliant (cmap : gmap string ComplianceCount) (r : ConfigRule) : bool :=
  match cmap !! ConfigRuleName r with
  | Some comp => 0 <? NonCompliantResourceCount comp
  | None => false
  end.

(** The statistics and the per-rule items of
    [generateComplianceSummaryHTML]. *)
Definition generateComplianceSummary (data : SummaryData) : SummaryView :=
  let cmap := complianceMap data in
  let totalRules := Z.of_nat (length (rules data)) in
  let compliantRules :=
    Z.of_nat (length (List.filter (countsAsCompliant cmap) (rules data))) in
  let nonCompliantRules :=
    Z.of_nat (length (List.filter (countsAsNonCompliant cmap) (rules data))) in
  let insufficientDataRules := (totalRules - compliantRules - nonCompliantRules)%Z in
  {| totalRules := totalRules;
     compliantRules := compliantRules;
     nonCompliantRules := nonCompliantRules;
     insufficientDataRules := insufficientDataRules;
     items := (λ r,
       {| itemRule := r;
          itemCompliance := default zeroCount (cmap !! ConfigRuleName r);
          itemStatus := ruleSummaryItemStatus (cmap !! ConfigRuleName r) |}) <$> rules data |}.

(** What [exports.handler] renders. *)
Inductive View :=
  | RuleDetailsView (name : string) (complianceDetails : list EvaluationResult)
  | ComplianceSummaryView (view : SummaryView).

Definition handler (up : Upstream) (params : Params) : Rendered View :=
  match getDetailedComplianceData up params with
  | Rejected message => ErrorHTML message
  | Resolved (RuleDetails name details) => Widget (RuleDetailsView name details)
  | Resolved (ComplianceSummaryData data) =>
      Widget (ComplianceSummaryView (generateComplianceSummary data))
  end.

End ComplianceWidget.

(** ** Scenarios

    Concrete catalogues, summaries and detail objects used to run the
    definitions: the scenarios of the specification and a summary entry
    that reports non-compliant resources without a total. *)

Module Scenario.

Definition mkRule (name : string) (types : option (list string)) : ConfigRule :=
  {| ConfigRuleName := name;
     Description := None;
     Scope := (λ ts, {| ComplianceResourceTypes := Some ts |}) <$> types |}.

Definition mkItem (name : string) (c n t : option nat) : SummaryItem :=
  {| itemConfigRuleName := name;
     itemComplianceSummary :=
       {| summaryCompliantResourceCount := c;
          summaryNonCompliantResourceCount := n;
          summaryTotalResourceCount := t |} |}.

Definition mkResult (id type : string) : EvaluationResult :=
  {| ResourceId := id; ComplianceType := type |}.

Definition noParams : Params :=
  {| ruleNames := None; resourceTypes := None;
     complianceStatus := None; ruleName := None |}.

Definition withStatus (status : string) : Params :=
  {| ruleNames := None; resourceTypes := None;
     complianceStatus := Some status; ruleName := None |}.

Definition withTypes (types : list string) : Params :=
  {| ruleNames := None; resourceTypes := Some types;
     complianceStatus := None; ruleName := None |}.

Definition r1 : ConfigRule := mkRule "r1" (Some ["AWS::S3::Bucket"%string]).
Definition r2 : ConfigRule := mkRule "r2" None.
Definition r3 : ConfigRule := mkRule "r3" (Some ["AWS::EC2::Instance"%string]).
Definition passwordPolicy : ConfigRule := mkRule "iam-password-policy" None.

(** A rule named like a member of [Object.prototype]. *)
Definition constructorRule : ConfigRule := mkRule "constructor" None.

(** A catalogue whose second rule is named like a member every object
    inherits; neither feed mentions it. *)
Definition inheritedNameCatalog : RulesResponse :=
  {| ConfigRules := Some [r2; constructorRule] |}.

Definition catalog : RulesResponse :=
  {| ConfigRules := Some [r1; r2; r3; passwordPolicy] |}.

(** [r1] is non-compliant, [r3] compliant; [r2] and the password policy
    have no summary entry. *)
Definition summaryFeed : ComplianceResponse :=
  {| ComplianceSummaryByConfigRule :=
       Some [mkItem "r1" (Some 5) (Some 2) (Some 7);
             mkItem "r3" (Some 3) (Some 0) (Some 3)] |}.

Definition threeFindings : list EvaluationResult :=
  [mkResult "a" "NON_COMPLIANT"; mkResult "b" "NON_COMPLIANT";
   mkResult "c" "NOT_APPLICABLE"].

Definition detailFeed : gmap string (list EvaluationResult) :=
  {[ "iam-password-policy"%string := threeFindings ]}.

(** A summary entry with non-compliant resources and no total. *)
Definition untotalled : ComplianceResponse :=
  {| ComplianceSummaryByConfigRule :=
       Some [mkItem "r1" None (Some 1) None] |}.

Definition singleRule : RulesResponse := {| ConfigRules := Some [r1] |}.

(** An upstream whose detail read of the password policy is rejected
    while every other read resolves. *)
Definition throttled : Upstream :=
  {| getCallerIdentity := Resolved "123456789012"%string;
     describeConfigRules := Resolved catalog;
     getComplianceSummaryByConfigRule := Resolved summaryFeed;
     getComplianceDetailsByConfigRule := λ n,
       if String.eqb n "iam-password-policy"
       then Rejected "Rate exceeded"%string
       else Resolved {| EvaluationResults := Some [mkResult "root" "COMPLIANT"] |} |}.

(** Name, reconciled count and displayed status of every rule output
    by [processConfigData]. *)
Definition run (catalogue : list ConfigRule) (feed : list SummaryItem)
    (params : Params) (detailed : gmap string (list EvaluationResult))
    : list (string * Attached * Classification) :=
  (λ p, (ConfigRuleName (RulesWidget.rule p), RulesWidget.compliance p,
         RulesWidget.ruleItemStatus p))
    <$> RulesWidget.rules
          (RulesWidget.processConfigData {| ConfigRules := Some catalogue |}
             {| ComplianceSummaryByConfigRule := Some feed |} params detailed None).

End Scenario.

(** ** Vocabulary of the statements *)

(** The tri-state law relating a status to the counts it is derived from. *)
Definition triState (s : Classification) (c : ComplianceCount) : Prop :=
  (s = NON_COMPLIANT ↔ 0 < NonCompliantResourceCount c) ∧
  (s = COMPLIANT ↔ NonCompliantResourceCount c = 0 ∧ 0 < TotalResourceCount c) ∧
  (s = INSUFFICIENT_DATA ↔ TotalResourceCount c = 0 ∧ NonCompliantResourceCount c = 0).

(** [params] with the [complianceStatus] field left out. *)
Definition withoutStatus (params : Params) : Params :=
  {| ruleNames := ruleNames params;
     resourceTypes := resourceTypes params;
     complianceStatus := None;
     ruleName := ruleName params |}.

(** [params] with the [resourceTypes] field left out. *)
Definition withoutTypes (params : Params) : Params :=
  {| ruleNames := ruleNames params;
     resourceTypes := None;
     complianceStatus := complianceStatus params;
     ruleName := ruleName params |}.

(** No filter field of [params] is in force. *)
Definition unfiltered (params : Params) : Prop :=
  nonEmptyArray (ruleNames params) = false
  ∧ truthyString (complianceStatus params) = false
  ∧ nonEmptyArray (resourceTypes params) = false.

(** A rule carries no resource-type scope: [Scope] is missing, or its
    [ComplianceResourceTypes] is missing or empty. *)
Definition unscoped (r : ConfigRule) : Prop :=
  match Scope r with
  | None => True
  | Some scope =>
      match ComplianceResourceTypes scope with
      | None => True
      | Some ts => ts = []
      end
  end.

(** The resource types a rule is scoped to. *)
Definition scopedTypes (r : ConfigRule) : list string :=
  match Scope r with
  | None => []
  | Some scope => default [] (ComplianceResourceTypes scope)
  end.

(** The same upstream, except that the detail read of [name] settles as
    [outcome]. *)
Definition withDetailRead (up : Upstream) (name : string)
    (outcome : Outcome DetailsResponse) : Upstream :=
  {| getCallerIdentity := getCallerIdentity up;
     describeConfigRules := describeConfigRules up;
     getComplianceSummaryByConfigRule := getComplianceSummaryByConfigRule up;
     getComplianceDetailsByConfigRule := λ n,
       if String.eqb n name then outcome else getComplianceDetailsByConfigRule up n |}.

(** What one iteration of the rules widget's prefetch loop stores under
    its rule name, if anything. *)
Definition storedByRulesWidget (up : Upstream) (rulesResponse : RulesResponse)
    (name : string) : option (list EvaluationResult) :=
  if ruleExists rulesResponse name then
    match getComplianceDetailsByConfigRule up name with
    | Resolved details => Some (default [] (EvaluationResults details))
    | Rejected _ => None
    end
  else None.

(** The same for the compliance widget, whose speculative read of an
    unlisted rule is kept only when it is non-empty. *)
Definition storedByComplianceWidget (up : Upstream) (rulesResponse : RulesResponse)
    (name : string) : option (list EvaluationResult) :=
  match getComplianceDetailsByConfigRule up name with
  | Resolved details =>
      if ruleExists rulesResponse name
      then Some (default [] (EvaluationResults details))
      else if nonEmptyArray (EvaluationResults details)
           then Some (default [] (EvaluationResults details))
           else None
  | Rejected _ => None
  end.

(** The rules shown as Insufficient Data by the compliance widget. *)
Definition shownInsufficient (cmap : gmap string ComplianceCount) (r : ConfigRule) : bool :=
  match ComplianceWidget.ruleSummaryItemStatus (cmap !! ConfigRuleName r) with
  | INSUFFICIENT_DATA => true
  | _ => false
  end.

(** ** Rendering of the rules widget ([configRulesWidget.js])

    The HTML templates are kept as the values they interpolate.  The
    rounded percentage of [generateRuleItemHTML] is floating-point
    arithmetic and is left out of the detail line. *)

Module RulesRender.

(** The three texts of the [rule-details] line. *)
Inductive DetailLine :=
  | ResourcesCompliant (compliantCount totalCount : nat)
  | AccountNonCompliant (nonCompliantCount : nat)
  | NoResourcesEvaluated.

(** The nested conditional that picks the detail line; on an inherited
    member both comparisons are false. *)
Definition ruleDetailLine (a : Attached) : DetailLine :=
  match a with
  | Counts c =>
      if 0 <? TotalResourceCount c
      then ResourcesCompliant (CompliantResourceCount c) (TotalResourceCount c)
      else if 0 <? NonCompliantResourceCount c
           then AccountNonCompliant (NonCompliantResourceCount c)
           else NoResourcesEvaluated
  | InheritedMember => NoResourcesEvaluated
  end.

(** [d.substring(0, limit)] followed by ['...'] when [d.length > limit];
    a string stands for the sequence of code units JS indexes. *)
Definition truncate (limit : nat) (d : string) : string :=
  String.substring 0 limit d
    +:+ (if limit <? String.length d then "..."%string else ""%string).

(** The description fragment: nothing for a missing or empty description. *)
Definition descriptionFragment (d : option string) : option string :=
  match d with
  | Some s => if String.eqb s "" then None else Some (truncate 100 s)
  | None => None
  end.

(** The CSS class that goes with a status. *)
Definition statusClass (s : Classification) : string :=
  match s with
  | COMPLIANT => "status-compliant"
  | NON_COMPLIANT => "status-noncompliant"
  | INSUFFICIENT_DATA => "status-insufficient"
  end%string.

(** [params.showRemediation !== false]. *)
Definition remediationEnabled (showRemediation : option bool) : bool :=
  match showRemediation with
  | Some false => false
  | _ => true
  end.

(** What [generateRuleItemHTML] interpolates for one rule. *)
Record RuleItem := {
  shownName : string;
  shownStatus : Classification;
  shownDetail : DetailLine;
  shownDescription : option string;
  shownRemediate : bool
}.

Definition generateRuleItem (showRemediation : option bool)
    (p : RulesWidget.ProcessedRule) : RuleItem :=
  let compliance := RulesWidget.compliance p in
  {| shownName := ConfigRuleName (RulesWidget.rule p);
     shownStatus := RulesWidget.classifyAttached compliance;
     shownDetail := ruleDetailLine compliance;
     shownDescription := descriptionFragment (Description (RulesWidget.rule p));
     shownRemediate :=
       isPositive (nonCompliantOf compliance) && remediationEnabled showRemediation |}.

(** The [rules-list] block: the no-data message or one item per rule. *)
Inductive RulesList :=
  | NoRulesFound
  | RuleItems (items : list RuleItem).

(** What [generateConfigWidgetHTML] interpolates. *)
Record ConfigWidget := {
  headerTotal : nat;
  statCompliant : nat;
  statNonCompliant : nat;
  statInsufficient : nat;
  rulesList : RulesList
}.

Definition generateConfigWidget (showRemediation : option bool)
    (data : RulesWidget.ProcessedData) : ConfigWidget :=
  let summary := RulesWidget.summary data in
  {| headerTotal := RulesWidget.total summary;
     statCompliant := RulesWidget.compliant summary;
     statNonCompliant := RulesWidget.nonCompliant summary;
     statInsufficient := RulesWidget.insufficientData summary;
     rulesList :=
       if length (RulesWidget.rules data) =? 0 then NoRulesFound
       else RuleItems (generateRuleItem showRemediation <$> RulesWidget.rules data) |}.

(** The message shown by [generateErrorHTML]: [error.message || default]. *)
Definition errorMessage (message : string) : string :=
  if String.eqb message ""
  then "An unknown error occurred while fetching Config rules data."%string
  else message.

End RulesRender.

(** ** Rendering of the compliance widget ([configComplianceWidget.js])

    The arcs of the pie chart are floating-point trigonometry; the chart
    is kept as the slices that are pushed and the number in its centre. *)

Module ComplianceRender.

Inductive Slice := CompliantSlice | NonCompliantSlice | InsufficientSlice.

Record Chart := {
  slices : list Slice;
  centre : Z
}.

(** [generateOverallComplianceChart]: the empty string when the three
    counts add up to zero, otherwise one slice per positive count. *)
Definition generateOverallComplianceChart (compliant nonCompliant insufficient : Z)
    : option Chart :=
  let total := (compliant + nonCompliant + insufficient)%Z in
  if (total =? 0)%Z then None
  else Some
    {| slices :=
         (if (0 <? compliant)%Z then [CompliantSlice] else [])
         ++ (if (0 <? nonCompliant)%Z then [NonCompliantSlice] else [])
         ++ (if (0 <? insufficient)%Z then [InsufficientSlice] else []);
       centre := total |}.

(** The chart drawn by [generateComplianceSummaryHTML]. *)
Definition summaryChart (v : ComplianceWidget.SummaryView) : option Chart :=
  generateOverallComplianceChart (ComplianceWidget.compliantRules v)
    (ComplianceWidget.nonCompliantRules v) (ComplianceWidget.insufficientDataRules v).

(** The CSS class chosen by [generateResourceItemHTML]. *)
Inductive ResourceClass := ResourceCompliant | ResourceNonCompliant | ResourceInsufficient.

Definition resourceClass (resource : EvaluationResult) : ResourceClass :=
  if String.eqb (ComplianceType resource) "COMPLIANT" then ResourceCompliant
  else if String.eqb (ComplianceType resource) "INSUFFICIENT_DATA" then ResourceInsufficient
  else ResourceNonCompliant.

(** [ResourceId || 'Unknown']. *)
Definition shownResourceId (resource : EvaluationResult) : string :=
  if String.eqb (ResourceId resource) "" then "Unknown"%string else ResourceId resource.

(** One resource row; its resource type column is not modelled. *)
Record ResourceItem := {
  itemClass : ResourceClass;
  itemResourceId : string
}.

Definition generateResourceItem (resource : EvaluationResult) : ResourceItem :=
  {| itemClass := resourceClass resource; itemResourceId := shownResourceId resource |}.

(** The [resources-list] block of the rule details view. *)
Inductive ResourcesList :=
  | AccountLevelNote
  | NoComplianceData
  | ResourceItems (items : list ResourceItem).

(** What [generateRuleDetailsHTML] interpolates. *)
Record RuleDetailsPage := {
  pageRule : string;
  pageChart : option Chart;
  statCompliantResources : nat;
  statNonCompliantResources : nat;
  statInsufficientResources : nat;
  statTotalResources : nat;
  pageResources : ResourcesList
}.

Definition generateRuleDetails (name : string)
    (complianceDetails : list EvaluationResult) : RuleDetailsPage :=
  let compliantResources :=
    List.filter (λ r, String.eqb (ComplianceType r) "COMPLIANT") complianceDetails in
  let nonCompliantResources :=
    List.filter (λ r, String.eqb (ComplianceType r) "NON_COMPLIANT") complianceDetails in
  let insufficientDataResources :=
    List.filter (λ r, String.eqb (ComplianceType r) "INSUFFICIENT_DATA") complianceDetails in
  {| pageRule := name;
     pageChart :=
       generateOverallComplianceChart (Z.of_nat (length compliantResources))
         (Z.of_nat (length nonCompliantResources))
         (Z.of_nat (length insufficientDataResources));
     statCompliantResources := length compliantResources;
     statNonCompliantResources := length nonCompliantResources;
     statInsufficientResources := length insufficientDataResources;
     statTotalResources := length complianceDetails;
     pageResources :=
       if length complianceDetails =? 0 then
         if (0 <? length nonCompliantResources) || (0 <? length insufficientDataResources)
         then AccountLevelNote else NoComplianceData
       else ResourceItems (generateResourceItem <$> complianceDetails) |}.

End ComplianceRender.

(** ** The remediation widget ([configRemediationWidget.js]) *)

Module RemediationWidget.

(** [rule.Source], of which only [Owner] is read. *)
Record RuleSource := {
  Owner : option string
}.

(** A rule as returned by [describeConfigRules({ ConfigRuleNames })]. *)
Record DescribedRule := {
  describedRule : ConfigRule;
  Source : option RuleSource
}.

Record DescribeResponse := {
  DescribedConfigRules : option (list DescribedRule)
}.

(** The reads of this widget: those shared with the other widgets, the
    lookup of one rule by name, and the NON_COMPLIANT-only detail read of
    [getRemediationStatus], whose rule name is passed on unchecked. *)
Record Reads := {
  shared : Upstream;
  describeConfigRulesNamed : string → Outcome DescribeResponse;
  getNonCompliantDetails : option string → Outcome DetailsResponse
}.

(** The steps listed by [getRemediationGuidance] for the rules it knows. *)
Definition guidanceMap : gmap string (list string) :=
  list_to_map
    [("s3-bucket-public-read-prohibited",
      ["Remove public read access from the S3 bucket";
       "Update bucket policy to deny public read access";
       "Consider using bucket ACLs to restrict access";
       "Verify bucket is not used for public content hosting"]);
     ("s3-bucket-public-write-prohibited",
      ["Remove public write access from the S3 bucket";
       "Update bucket policy to deny public write access";
       "Review bucket permissions and remove unnecessary public access";
       "Consider using IAM roles for controlled access"]);
     ("iam-password-policy",
      ["Configure IAM password policy in AWS Console";
       "Set minimum password length (recommended: 12 characters)";
       "Enable password complexity requirements";
       "Set password expiration and prevent reuse"]);
     ("rds-instance-public-access-check",
      ["Modify RDS instance to disable public access";
       "Update security groups to restrict access";
       "Use VPC endpoints for private connectivity";
       "Consider using RDS Proxy for connection management"]);
     ("vpc-sg-open-only-to-authorized-ports",
      ["Review security group rules and remove unnecessary open ports";
       "Restrict access to specific IP ranges where possible";
       "Use least privilege principle for port access";
       "Consider using security group references instead of 0.0.0.0/0"])]%string.

Definition genericGuidance : list string :=
  ["Review the AWS Config rule documentation";
   "Identify the specific compliance requirements";
   "Manually fix the non-compliant resources";
   "Re-run the Config rule evaluation to verify compliance"]%string.

(** The [steps] of [guidanceMap[ruleName] || generic]: [None] is the
    [undefined] read off an inherited member, which is truthy. *)
Definition getRemediationGuidance (name : string) : option (list string) :=
  match guidanceMap !! name with
  | Some steps => Some steps
  | None => if inherited name then None else Some genericGuidance
  end.

(** One resource row of the rule details view. *)
Record ResourceRow := {
  rowResourceId : string;
  rowCompliant : bool
}.

Record RuleDetails := {
  detailsRule : string;
  detailsDescription : string;
  detailsCompliant : nat;
  detailsNonCompliant : nat;
  detailsTotal : nat;
  detailsResources : list ResourceRow
}.

Record DashboardItem := {
  attentionRule : string;
  attentionCount : nat;
  attentionDescription : string
}.

Record Dashboard := {
  needAttention : nat;
  dashboardAccount : string;
  dashboardItems : list DashboardItem
}.

(** The pages the widget can return. *)
Inductive Page :=
  | ErrorPage (message : string)
  | NotAvailablePage (name : string)
  | GuidancePage (name : string) (steps : list string)
  | StatusPage (name : option string) (nonCompliantCount : nat) (resources : list string)
  | DetailsPage (details : RuleDetails)
  | DashboardPage (dashboard : Dashboard).

(** [generateErrorHTML]: [error.message || default]. *)
Definition generateErrorHTML (message : string) : Page :=
  ErrorPage (if String.eqb message ""
             then "An unknown error occurred while processing remediation action."%string
             else message).

(** The messages of the [TypeError]s raised by reading [ConfigRules[0]]
    of a response without [ConfigRules], [steps.map] of a guidance
    without steps, and [NonCompliantResourceCount] of a missing map
    entry. *)
Definition noConfigRulesMessage : string :=
  "Cannot read properties of undefined (reading '0')".
Definition noStepsMessage : string :=
  "Cannot read properties of undefined (reading 'map')".
Definition noComplianceMessage : string :=
  "Cannot read properties of undefined (reading 'NonCompliantResourceCount')".

(** [!rule.Source || !rule.Source.Owner || rule.Source.Owner !== 'AWS']. *)
Definition notManagedByAWS (rule : DescribedRule) : bool :=
  match Source rule with
  | None => true
  | Some source =>
      match Owner source with
      | None => true
      | Some owner => String.eqb owner "" || negb (String.eqb owner "AWS")
      end
  end.

(** [generateRemediationGuidanceHTML]; [None] when [steps.map] throws. *)
Definition generateRemediationGuidance (rule : DescribedRule) : option Page :=
  let name := ConfigRuleName (describedRule rule) in
  steps ← getRemediationGuidance name;
  Some (GuidancePage name steps).

Definition handleRemediationAction (reads : Reads) (params : Params) : Page :=
  if truthyString (ruleName params) then
    let name := default ""%string (ruleName params) in
    match describeConfigRulesNamed reads name with
    | Rejected message => generateErrorHTML message
    | Resolved ruleDetails =>
        match DescribedConfigRules ruleDetails with
        | None => generateErrorHTML noConfigRulesMessage
        | Some [] => generateErrorHTML ("Rule " +:+ name +:+ " not found")
        | Some (rule :: _) =>
            if notManagedByAWS rule then NotAvailablePage name
            else match generateRemediationGuidance rule with
                 | Some page => page
                 | None => generateErrorHTML noStepsMessage
                 end
        end
    end
  else generateErrorHTML "Rule name is required for remediation".

(** [generateRuleDetailsHTML] of this widget. *)
Definition generateRuleDetails (rule : DescribedRule)
    (evaluationResults : list EvaluationResult) : RuleDetails :=
  let nonCompliantCount := countType "NON_COMPLIANT" evaluationResults in
  let compliantCount := countType "COMPLIANT" evaluationResults in
  let totalCount := length evaluationResults in
  {| detailsRule := ConfigRuleName (describedRule rule);
     detailsDescription :=
       match Description (describedRule rule) with
       | Some d => if String.eqb d "" then "No description available"%string else d
       | None => "No description available"%string
       end;
     detailsCompliant := compliantCount;
     detailsNonCompliant := nonCompliantCount;
     detailsTotal := totalCount;
     detailsResources :=
       if 0 <? totalCount then
         (λ resource,
            {| rowResourceId := ComplianceRender.shownResourceId resource;
               rowCompliant := String.eqb (ComplianceType resource) "COMPLIANT" |})
           <$> evaluationResults
       else [] |}.

(** [showRuleDetails]; of two rejected reads the rule lookup is reported. *)
Definition showRuleDetails (reads : Reads) (params : Params) : Page :=
  if truthyString (ruleName params) then
    let name := default ""%string (ruleName params) in
    match describeConfigRulesNamed reads name,
          getComplianceDetailsByConfigRule (shared reads) name with
    | Rejected message, _ => generateErrorHTML message
    | Resolved _, Rejected message => generateErrorHTML message
    | Resolved ruleDetails, Resolved complianceDetails =>
        match DescribedConfigRules ruleDetails with
        | None => generateErrorHTML noConfigRulesMessage
        | Some [] => generateErrorHTML ("Rule " +:+ name +:+ " not found")
        | Some (rule :: _) =>
            DetailsPage
              (generateRuleDetails rule (default [] (EvaluationResults complianceDetails)))
        end
    end
  else generateErrorHTML "Rule name is required".

(** [getRemediationStatus] with [generateRemediationStatusHTML]. *)
Definition getRemediationStatus (reads : Reads) (params : Params) : Page :=
  match getNonCompliantDetails reads (ruleName params) with
  | Rejected message => generateErrorHTML message
  | Resolved complianceDetails =>
      let evaluationResults := default [] (EvaluationResults complianceDetails) in
      let nonCompliantCount := length evaluationResults in
      StatusPage (ruleName params) nonCompliantCount
        (if 0 <? nonCompliantCount
         then ComplianceRender.shownResourceId <$> evaluationResults
         else [])
  end.

(** The lookup map of [getRemediationDashboard]. *)
Definition complianceMap (complianceResponse : ComplianceResponse)
    (detailed : gmap string (list EvaluationResult)) : gmap string ComplianceCount :=
  mergeDetailed detailed
    (summaryMap (default [] (ComplianceSummaryByConfigRule complianceResponse))).

(** Callback of the filter that keeps the rules needing attention:
    [compliance && compliance.NonCompliantResourceCount > 0], false on an
    inherited member. *)
Definition needsAttention (cmap : gmap string ComplianceCount) (rule : ConfigRule) : bool :=
  match cmap !! ConfigRuleName rule with
  | Some compliance => 0 <? NonCompliantResourceCount compliance
  | None => false
  end.

(** [generateRemediationRuleItemHTML]; reading the count of a missing
    entry throws. *)
Definition generateRemediationRuleItem (rule : ConfigRule)
    (compliance : option ComplianceCount) : option DashboardItem :=
  match compliance with
  | None => None
  | Some c =>
      Some {| attentionRule := ConfigRuleName rule;
              attentionCount := NonCompliantResourceCount c;
              attentionDescription :=
                match Description rule with
                | Some d =>
                    if String.eqb d "" then "No description available"%string
                    else RulesRender.truncate 120 d
                | None => "No description available"%string
                end |}
  end.

(** [generateRemediationDashboardHTML]: [None] when an item throws. *)
Definition generateRemediationDashboard (rules : list ConfigRule)
    (cmap : gmap string ComplianceCount) (account : string) : option Dashboard :=
  items ← mapM (λ rule, generateRemediationRuleItem rule (cmap !! ConfigRuleName rule)) rules;
  Some {| needAttention := length rules;
          dashboardAccount := account;
          dashboardItems := items |}.

(** [getRemediationDashboard]; its prefetch loop is the one of the rules
    widget. *)
Definition getRemediationDashboard (reads : Reads) : Page :=
  match getCallerIdentity (shared reads) with
  | Rejected message => generateErrorHTML message
  | Resolved account =>
      match describeConfigRules (shared reads),
            getComplianceSummaryByConfigRule (shared reads) with
      | Rejected message, _ => generateErrorHTML message
      | Resolved _, Rejected message => generateErrorHTML message
      | Resolved rulesResponse, Resolved complianceResponse =>
          let st := RulesWidget.prefetch (shared reads) rulesResponse in
          let cmap := complianceMap complianceResponse (detailedComplianceData st) in
          let nonCompliantRules :=
            List.filter (needsAttention cmap) (default [] (ConfigRules rulesResponse)) in
          match generateRemediationDashboard nonCompliantRules cmap account with
          | Some dashboard => DashboardPage dashboard
          | None => generateErrorHTML noComplianceMessage
          end
      end
  end.

(** [exports.handler]: dispatch on [params.action]. *)
Definition handler (reads : Reads) (action : option string) (params : Params) : Page :=
  match action with
  | Some a =>
      if String.eqb a "remediateRule" then handleRemediationAction reads params
      else if String.eqb a "getRemediationStatus" then getRemediationStatus reads params
      else if String.eqb a "showRuleDetails" then showRuleDetails reads params
      else getRemediationDashboard reads
  | None => getRemediationDashboard reads
  end.

End RemediationWidget.

(** ** Vocabulary of the further properties *)

(** The conjunction of the filter predicates whose guard is on. *)
Definition keeps (params : Params) (cmap : gmap string ComplianceCount)
    (r : ConfigRule) : bool :=
  (if nonEmptyArray (ruleNames params)
   then RulesWidget.ruleNamesFilter (default [] (ruleNames params)) r else true)
  && (if truthyString (complianceStatus params)
      then RulesWidget.complianceStatusFilter
             (default ""%string (complianceStatus params)) cmap r
      else true)
  && (if nonEmptyArray (resourceTypes params)
      then RulesWidget.resourceTypesFilter (default [] (resourceTypes params)) r
      else true).

(** A rule whose count reports non-compliant resources and no total. *)
Definition untotalledNonCompliant (p : RulesWidget.ProcessedRule) : bool :=
  isPositive (nonCompliantOf (RulesWidget.compliance p))
  && isZero (totalOf (RulesWidget.compliance p)).

(** A rule to which an inherited member is attached instead of a count. *)
Definition carriesInheritedMember (p : RulesWidget.ProcessedRule) : bool :=
  match RulesWidget.compliance p with
  | Counts _ => false
  | InheritedMember => true
  end.

(** [status] is one of the three recognised [complianceStatus] values. *)
Definition recognisedStatus (status : string) : bool :=
  String.eqb status "COMPLIANT" || String.eqb status "NON_COMPLIANT"
  || String.eqb status "INSUFFICIENT_DATA".

(** An evaluation result whose type none of the three groups of the rule
    details view takes. *)
Definition ungrouped (r : EvaluationResult) : bool :=
  negb (String.eqb (ComplianceType r) "COMPLIANT")
  && negb (String.eqb (ComplianceType r) "NON_COMPLIANT")
  && negb (String.eqb (ComplianceType r) "INSUFFICIENT_DATA").

(** The summary data of the compliance widget for given reads and detail
    object. *)
Definition summaryDataOf (rulesResponse : RulesResponse)
    (complianceResponse : ComplianceResponse)
    (detailed : gmap string (list EvaluationResult)) (account : string)
    : ComplianceWidget.SummaryData :=
  {| ComplianceWidget.rules := default [] (ConfigRules rulesResponse);
     ComplianceWidget.compliance :=
       default [] (ComplianceSummaryByConfigRule complianceResponse);
     ComplianceWidget.detailedCompliance := detailed;
     ComplianceWidget.accountId := account |}.

(** Filter fields that are present but empty. *)
Definition emptyFields : Params :=
  {| ruleNames := Some []; resourceTypes := Some [];
     complianceStatus := Some ""%string; ruleName := None |}.

(** Reads of the remediation widget in which the named lookup of
    ["s3-bucket-public-read-prohibited"] returns an AWS managed rule. *)
Definition managedRuleReads : RemediationWidget.Reads :=
  {| RemediationWidget.shared := Scenario.throttled;
     RemediationWidget.describeConfigRulesNamed := λ n,
       Resolved
         {| RemediationWidget.DescribedConfigRules :=
              Some [{| RemediationWidget.describedRule :=
                         Scenario.mkRule "s3-bucket-public-read-prohibited" None;
                       RemediationWidget.Source :=
                         Some {| RemediationWidget.Owner := Some "AWS"%string |} |}] |};
     RemediationWidget.getNonCompliantDetails := λ _,
       Resolved {| EvaluationResults := None |} |}.

(** ** Reconciliation lemmas *)

Section Reconciliation.

Implicit Types (m : gmap string ComplianceCount)
               (detailed : gmap string (list EvaluationResult))
               (results : list EvaluationResult)
               (compliance : list SummaryItem).

Lemma filter_length_le {A} (f : A → bool) (l : list A) :
  length (List.filter f l) ≤ length l.
Proof.
  induction l as [|x l IH]; simpl; [lia|].
  destruct (f x); simpl; lia.
Qed.

(** Three pairwise exclusive filters. *)
Lemma filter_disjoint3_length {A} (f g h : A → bool) (l : list A) :
  (∀ x, f x = true → g x = true → False) →
  (∀ x, f x = true → h x = true → False) →
  (∀ x, g x = true → h x = true → False) →
  length (List.filter f l) + length (List.filter g l)
    + length (List.filter h l) ≤ length l.
Proof.
  intros Hfg Hfh Hgh. induction l as [|x l IH]; simpl; [lia|].
  destruct (f x) eqn:Hf, (g x) eqn:Hg, (h x) eqn:Hh; simpl; try lia;
    exfalso; eauto.
Qed.

Lemma countType_le t results : countType t results ≤ length results.
Proof. apply filter_length_le. Qed.

(** What the [forEach] over the detail object leaves under each key. *)
Lemma mergeDetailed_lookup detailed m k :
  mergeDetailed detailed m !! k =
    match detailed !! k with
    | Some results => if 0 <? length results then Some (detailCount results) else m !! k
    | None => m !! k
    end.
Proof.
  unfold mergeDetailed. revert k.
  apply (map_fold_weak_ind
           (λ r d, ∀ k, r !! k = match d !! k with
                                 | Some results =>
                                     if 0 <? length results
                                     then Some (detailCount results) else m !! k
                                 | None => m !! k
                                 end)).
  - intros k. by rewrite lookup_empty.
  - intros i x d r Hfresh IH k. unfold applyDetail.
    destruct (decide (i = k)) as [->|Hne].
    + rewrite lookup_insert_eq.
      destruct (0 <? length x) eqn:Hlen.
      * by rewrite lookup_insert_eq.
      * rewrite IH, Hfresh. done.
    + rewrite (lookup_insert_ne d) by done.
      destruct (0 <? length x); [rewrite lookup_insert_ne by done|]; apply IH.
Qed.

Lemma mergeDetailed_nonempty detailed m k results :
  detailed !! k = Some results → results ≠ [] →
  mergeDetailed detailed m !! k = Some (detailCount results).
Proof.
  intros Hk Hne. rewrite mergeDetailed_lookup, Hk.
  destruct results; [done|]. reflexivity.
Qed.

Lemma mergeDetailed_empty detailed m k :
  detailed !! k = Some [] → mergeDetailed detailed m !! k = m !! k.
Proof. intros Hk. by rewrite mergeDetailed_lookup, Hk. Qed.

Lemma mergeDetailed_absent detailed m k :
  detailed !! k = None → mergeDetailed detailed m !! k = m !! k.
Proof. intros Hk. by rewrite mergeDetailed_lookup, Hk. Qed.

(** The summary loop started from any map. *)
Lemma summary_fold_lookup_notin compliance m k :
  k ∉ itemConfigRuleName <$> compliance →
  foldl (λ m item, <[itemConfigRuleName item := summaryCount (itemComplianceSummary item)]> m)
        m compliance !! k = m !! k.
Proof.
  revert m. induction compliance as [|item l IH]; intros m Hk; simpl in *; [done|].
  apply not_elem_of_cons in Hk as [Hne Hk].
  rewrite IH by done. by rewrite lookup_insert_ne.
Qed.

Lemma summaryMap_absent compliance k :
  k ∉ itemConfigRuleName <$> compliance → summaryMap compliance !! k = None.
Proof.
  intros Hk. unfold summaryMap. rewrite summary_fold_lookup_notin by done.
  apply lookup_empty.
Qed.

(** The last summary item of a name is the one that is kept. *)
Lemma summaryMap_last compliance item rest :
  itemConfigRuleName item ∉ itemConfigRuleName <$> rest →
  summaryMap (compliance ++ item :: rest) !! itemConfigRuleName item
    = Some (summaryCount (itemComplianceSummary item)).
Proof.
  intros Hk. unfold summaryMap. rewrite foldl_app. simpl.
  rewrite summary_fold_lookup_notin by done. apply lookup_insert_eq.
Qed.

Lemma addPasswordPolicyDefault_Some rs m k c :
  m !! k = Some c → ComplianceWidget.addPasswordPolicyDefault rs m !! k = Some c.
Proof.
  intros Hk. unfold ComplianceWidget.addPasswordPolicyDefault.
  destruct (existsb _ rs); [|done].
  destruct (m !! "iam-password-policy"%string) eqn:Hp; [done|].
  rewrite lookup_insert_ne; [done|]. intros <-. congruence.
Qed.

(** Every result is counted in the total, at most one bucket takes it. *)
Lemma detail_buckets_le results :
  countType "NOT_APPLICABLE" results + countType "COMPLIANT" results
    + countType "NON_COMPLIANT" results ≤ length results.
Proof.
  unfold countType. apply filter_disjoint3_length; intros x H1 H2;
    apply String.eqb_eq in H1; apply String.eqb_eq in H2;
    rewrite H1 in H2; discriminate H2.
Qed.

End Reconciliation.

(** ** Classification *)

Lemma classify_triState c : triState (classify c) c.
Proof.
  unfold triState, classify, isCompliant, isNonCompliant.
  destruct (NonCompliantResourceCount c =? 0) eqn:Hn;
    destruct (0 <? TotalResourceCount c) eqn:Ht; simpl;
    try destruct (0 <? NonCompliantResourceCount c) eqn:Hp;
    repeat match goal with
           | H : (_ =? _) = true |- _ => apply Nat.eqb_eq in H
           | H : (_ =? _) = false |- _ => apply Nat.eqb_neq in H
           | H : (_ <? _) = true |- _ => apply Nat.ltb_lt in H
           | H : (_ <? _) = false |- _ => apply Nat.ltb_ge in H
           end;
    repeat split; intros; try discriminate; try lia; try done.
Qed.

(** C1: the status derived by [generateRuleItemHTML] and by
    [generateRuleSummaryItemHTML] from counts (compliant, nonCompliant,
    total) is NON_COMPLIANT exactly when nonCompliant > 0 whatever the
    total, COMPLIANT exactly when nonCompliant = 0 and total > 0, and
    INSUFFICIENT_DATA exactly when total = 0 and nonCompliant = 0. *)
Theorem C1_classification_is_tristate (r : ConfigRule) (c : ComplianceCount) :
  triState (RulesWidget.ruleItemStatus
              {| RulesWidget.rule := r; RulesWidget.compliance := Counts c |}) c
  ∧ triState (ComplianceWidget.ruleSummaryItemStatus (Some c)) c.
Proof. split; exact (classify_triState c). Qed.

(** ** Precedence of detail over summary *)

(** C2: a rule name whose detail entry is a non-empty list of evaluation
    results is reconciled to (number of COMPLIANT results, number of
    NON_COMPLIANT results, length of the list) in both widgets, whatever
    the summary said; an empty detail list leaves the summary-derived
    count, if any, as it was. *)
Theorem C2_detail_overrides_summary
    (rs : list ConfigRule) (compliance : list SummaryItem)
    (detailed : gmap string (list EvaluationResult)) (account : string)
    (name : string) (results : list EvaluationResult) :
  detailed !! name = Some results →
  let data := {| ComplianceWidget.rules := rs;
                 ComplianceWidget.compliance := compliance;
                 ComplianceWidget.detailedCompliance := detailed;
                 ComplianceWidget.accountId := account |} in
  let derived :=
    {| CompliantResourceCount :=
         length (List.filter (λ e, String.eqb (ComplianceType e) "COMPLIANT") results);
       NonCompliantResourceCount :=
         length (List.filter (λ e, String.eqb (ComplianceType e) "NON_COMPLIANT") results);
       TotalResourceCount := length results |} in
  (results ≠ [] →
     RulesWidget.complianceMap compliance detailed !! name = Some derived
     ∧ ComplianceWidget.complianceMap data !! name = Some derived)
  ∧ (results = [] →
     RulesWidget.complianceMap compliance detailed !! name = summaryMap compliance !! name
     ∧ ∀ c, summaryMap compliance !! name = Some c →
            ComplianceWidget.complianceMap data !! name = Some c).
Proof.
  intros Hk data derived. split.
  - intros Hne.
    assert (mergeDetailed detailed (summaryMap compliance) !! name = Some derived) as Hm
      by (by apply mergeDetailed_nonempty).
    split; [exact Hm|].
    by apply addPasswordPolicyDefault_Some.
  - intros ->.
    assert (mergeDetailed detailed (summaryMap compliance) !! name
              = summaryMap compliance !! name) as Hm
      by (by apply mergeDetailed_empty).
    split; [exact Hm|].
    intros c Hc. apply addPasswordPolicyDefault_Some.
    unfold ComplianceWidget.compliance, ComplianceWidget.detailedCompliance, data.
    by rewrite Hm.
Qed.

Lemma C2_detail_overrides_summary_witness :
  Scenario.detailFeed !! "iam-password-policy"%string = Some Scenario.threeFindings
  ∧ RulesWidget.complianceMap
      [Scenario.mkItem "iam-password-policy" (Some 1) (Some 0) (Some 1)]
      Scenario.detailFeed !! "iam-password-policy"%string
    = Some {| CompliantResourceCount := 0;
              NonCompliantResourceCount := 2;
              TotalResourceCount := 3 |}.
Proof.
  split; [reflexivity|].
  destruct (C2_detail_overrides_summary [Scenario.passwordPolicy]
              [Scenario.mkItem "iam-password-policy" (Some 1) (Some 0) (Some 1)]
              Scenario.detailFeed "123456789012" "iam-password-policy"
              Scenario.threeFindings) as [Hfull _]; [reflexivity|].
  destruct Hfull as [Hrules _]; [discriminate|]. exact Hrules.
Defined.

(** C10: a count derived from evaluation details has
    compliant + nonCompliant ≤ total, hence total ≥ compliant: every
    result adds to the total, only COMPLIANT and NON_COMPLIANT results add
    to a bucket, and NOT_APPLICABLE results add to the total alone. *)
Theorem C10_detail_count_bounded
    (rs : list ConfigRule) (compliance : list SummaryItem)
    (detailed : gmap string (list EvaluationResult)) (account : string)
    (name : string) (results : list EvaluationResult) :
  detailed !! name = Some results → results ≠ [] →
  let data := {| ComplianceWidget.rules := rs;
                 ComplianceWidget.compliance := compliance;
                 ComplianceWidget.detailedCompliance := detailed;
                 ComplianceWidget.accountId := account |} in
  ∃ c, RulesWidget.complianceMap compliance detailed !! name = Some c
       ∧ ComplianceWidget.complianceMap data !! name = Some c
       ∧ CompliantResourceCount c + NonCompliantResourceCount c ≤ TotalResourceCount c
       ∧ CompliantResourceCount c ≤ TotalResourceCount c
       ∧ countType "NOT_APPLICABLE" results
           + CompliantResourceCount c + NonCompliantResourceCount c
         ≤ TotalResourceCount c.
Proof.
  intros Hk Hne data. exists (detailCount results).
  assert (mergeDetailed detailed (summaryMap compliance) !! name
            = Some (detailCount results)) as Hm
    by (by apply mergeDetailed_nonempty).
  split; [exact Hm|]. split; [by apply addPasswordPolicyDefault_Some|].
  pose proof (detail_buckets_le results) as Hb. simpl. lia.
Qed.

Lemma C10_detail_count_bounded_witness :
  Scenario.detailFeed !! "iam-password-policy"%string = Some Scenario.threeFindings
  ∧ Scenario.threeFindings ≠ []
  ∧ ∃ c, RulesWidget.complianceMap [] Scenario.detailFeed !! "iam-password-policy"%string
           = Some c
         ∧ CompliantResourceCount c + NonCompliantResourceCount c ≤ TotalResourceCount c.
Proof.
  split; [reflexivity|]. split; [discriminate|].
  destruct (C10_detail_count_bounded [] [] Scenario.detailFeed "123456789012"
              "iam-password-policy" Scenario.threeFindings)
    as (c & Hc & _ & Hle & _); [reflexivity | discriminate |].
  exists c. split; [exact Hc | exact Hle].
Defined.

(** ** The filter chain *)

Section FilterEngine.

Implicit Types (params : Params) (cmap : gmap string ComplianceCount)
               (rs : list ConfigRule) (r : ConfigRule).

Lemma List_filter_sublist {A} (f : A → bool) (l : list A) :
  List.filter f l `sublist_of` l.
Proof.
  induction l as [|x l IH]; simpl; [apply sublist_nil|].
  destruct (f x); [by apply sublist_skip | by apply sublist_cons].
Qed.

Lemma elem_of_List_filter {A} (f : A → bool) (l : list A) (x : A) :
  x ∈ List.filter f l ↔ x ∈ l ∧ f x = true.
Proof. rewrite !list_elem_of_In. apply filter_In. Qed.

Lemma includes_elem (arr : list string) (x : string) :
  includes arr x = true ↔ x ∈ arr.
Proof.
  unfold includes. rewrite existsb_exists. split.
  - intros (y & Hy & Heq). apply String.eqb_eq in Heq. subst.
    by apply list_elem_of_In.
  - intros Hx. exists x. split; [by apply list_elem_of_In | apply String.eqb_refl].
Qed.

Lemma nonEmptyArray_Some {A} (l : list A) :
  l ≠ [] → nonEmptyArray (Some l) = true.
Proof. by destruct l. Qed.

Lemma truthyString_Some (s : string) :
  s ≠ ""%string → truthyString (Some s) = true.
Proof.
  intros Hs. simpl. destruct (String.eqb_spec s ""); [done | reflexivity].
Qed.

Lemma resourceTypesFilter_true (types : list string) r :
  RulesWidget.resourceTypesFilter types r = true
  ↔ ∃ t, t ∈ scopedTypes r ∧ t ∈ types.
Proof.
  unfold RulesWidget.resourceTypesFilter, scopedTypes.
  destruct (Scope r) as [scope|]; [|split; [done | by intros (t & Ht & _); inversion Ht]].
  destruct (ComplianceResourceTypes scope) as [ts|]; simpl;
    [|split; [done | by intros (t & Ht & _); inversion Ht]].
  rewrite existsb_exists. split.
  - intros (t & Ht & Hin). exists t. split; [by apply list_elem_of_In|].
    by apply includes_elem.
  - intros (t & Ht & Hin). exists t. split; [by apply list_elem_of_In|].
    by apply includes_elem.
Qed.

Lemma unscoped_no_types r : unscoped r → scopedTypes r = [].
Proof.
  unfold unscoped, scopedTypes. destruct (Scope r) as [scope|]; [|done].
  destruct (ComplianceResourceTypes scope); simpl; by intros.
Qed.

Lemma filterRules_sublist params cmap rs :
  RulesWidget.filterRules params cmap rs `sublist_of` rs.
Proof.
  unfold RulesWidget.filterRules.
  destruct (nonEmptyArray (ruleNames params)),
           (truthyString (complianceStatus params)),
           (nonEmptyArray (resourceTypes params));
    repeat (etrans; [apply List_filter_sublist|]); done.
Qed.

(** Membership in the filtered list: membership in the catalogue and
    every predicate whose guard is on. *)
Lemma filterRules_elem params cmap rs r :
  r ∈ RulesWidget.filterRules params cmap rs ↔
    r ∈ rs
    ∧ (nonEmptyArray (ruleNames params) = true →
       RulesWidget.ruleNamesFilter (default [] (ruleNames params)) r = true)
    ∧ (truthyString (complianceStatus params) = true →
       RulesWidget.complianceStatusFilter
         (default ""%string (complianceStatus params)) cmap r = true)
    ∧ (nonEmptyArray (resourceTypes params) = true →
       RulesWidget.resourceTypesFilter (default [] (resourceTypes params)) r = true).
Proof.
  unfold RulesWidget.filterRules.
  destruct (nonEmptyArray (ruleNames params)),
           (truthyString (complianceStatus params)),
           (nonEmptyArray (resourceTypes params));
    rewrite ?elem_of_List_filter; intuition (try discriminate).
Qed.

(** Forgetting the [compliance] field of the output gives back the
    filtered catalogue. *)
Lemma processConfigData_rules rulesResponse complianceResponse params detailed accountId :
  RulesWidget.rule <$>
    RulesWidget.rules
      (RulesWidget.processConfigData rulesResponse complianceResponse params
         detailed accountId)
  = RulesWidget.filterRules params
      (RulesWidget.complianceMap
         (default [] (ComplianceSummaryByConfigRule complianceResponse)) detailed)
      (default [] (ConfigRules rulesResponse)).
Proof.
  unfold RulesWidget.processConfigData; simpl.
  rewrite <- list_fmap_compose. apply list_fmap_id.
Qed.

End FilterEngine.

(** C4: whatever the rule list and the filter specification, the rules
    kept by the filter chain of [processConfigData] form a subsequence of
    the catalogue: each kept rule occurs in the input, order is preserved,
    nothing is duplicated, and the input list itself is only read. *)
Theorem C4_filter_output_is_subsequence
    (rulesResponse : RulesResponse) (complianceResponse : ComplianceResponse)
    (params : Params) (detailed : gmap string (list EvaluationResult))
    (accountId : option string) :
  let input := default [] (ConfigRules rulesResponse) in
  let output :=
    RulesWidget.rule <$>
      RulesWidget.rules
        (RulesWidget.processConfigData rulesResponse complianceResponse params
           detailed accountId) in
  output `sublist_of` input
  ∧ (∀ r, r ∈ output → r ∈ input)
  ∧ (NoDup input → NoDup output)
  ∧ length output ≤ length input.
Proof.
  intros input output.
  assert (output `sublist_of` input) as Hsub.
  { unfold output. rewrite processConfigData_rules. apply filterRules_sublist. }
  split; [exact Hsub|]. split; [|split].
  - intros r Hr. by eapply elem_of_sublist.
  - intros Hnd. by eapply sublist_NoDup.
  - by apply sublist_length.
Qed.

(** C5: when a non-empty [resourceTypes] filter is supplied, a rule whose
    scope is absent or empty fails the predicate and is not in the output;
    a scoped rule passes exactly when one of its scoped resource types is
    in the filter set, and the output is exactly what the other filters
    keep among the rules that pass. *)
Theorem C5_resource_types_fail_closed
    (rulesResponse : RulesResponse) (complianceResponse : ComplianceResponse)
    (params : Params) (detailed : gmap string (list EvaluationResult))
    (accountId : option string) (types : list string) :
  resourceTypes params = Some types → types ≠ [] →
  let cmap :=
    RulesWidget.complianceMap
      (default [] (ComplianceSummaryByConfigRule complianceResponse)) detailed in
  let output :=
    RulesWidget.rule <$>
      RulesWidget.rules
        (RulesWidget.processConfigData rulesResponse complianceResponse params
           detailed accountId) in
  (∀ r, unscoped r → RulesWidget.resourceTypesFilter types r = false ∧ r ∉ output)
  ∧ (∀ r, RulesWidget.resourceTypesFilter types r = true
          ↔ ∃ t, t ∈ scopedTypes r ∧ t ∈ types)
  ∧ (∀ r, r ∈ output
          ↔ r ∈ RulesWidget.filterRules (withoutTypes params) cmap
                  (default [] (ConfigRules rulesResponse))
            ∧ ∃ t, t ∈ scopedTypes r ∧ t ∈ types).
Proof.
  intros Htypes Hne cmap output.
  assert (∀ r, r ∈ output
               ↔ r ∈ RulesWidget.filterRules (withoutTypes params) cmap
                       (default [] (ConfigRules rulesResponse))
                 ∧ RulesWidget.resourceTypesFilter types r = true) as Hout.
  { intros r. unfold output. rewrite processConfigData_rules.
    rewrite !filterRules_elem.
    cbn [withoutTypes ruleNames resourceTypes complianceStatus].
    rewrite Htypes, (nonEmptyArray_Some types Hne).
    change (default [] (Some types)) with types.
    change (@nonEmptyArray string None) with false.
    intuition (try discriminate). }
  assert (∀ r, unscoped r → RulesWidget.resourceTypesFilter types r = false) as Hclosed.
  { intros r Hr. destruct (RulesWidget.resourceTypesFilter types r) eqn:Hf; [|done].
    apply resourceTypesFilter_true in Hf as (t & Ht & _).
    rewrite (unscoped_no_types r Hr) in Ht. inversion Ht. }
  split; [|split].
  - intros r Hr. split; [by apply Hclosed|].
    intros Hin. apply Hout in Hin as [_ Hpass].
    rewrite (Hclosed r Hr) in Hpass. discriminate.
  - apply resourceTypesFilter_true.
  - intros r. rewrite Hout. by rewrite resourceTypesFilter_true.
Qed.

Lemma C5_resource_types_fail_closed_witness :
  resourceTypes (Scenario.withTypes ["AWS::S3::Bucket"%string])
    = Some ["AWS::S3::Bucket"%string]
  ∧ ["AWS::S3::Bucket"%string] ≠ []
  ∧ unscoped Scenario.r2
  ∧ Scenario.r2 ∉
      RulesWidget.rule <$>
        RulesWidget.rules
          (RulesWidget.processConfigData Scenario.catalog Scenario.summaryFeed
             (Scenario.withTypes ["AWS::S3::Bucket"%string]) Scenario.detailFeed None).
Proof.
  split; [reflexivity|]. split; [discriminate|]. split; [exact I|].
  apply (C5_resource_types_fail_closed Scenario.catalog Scenario.summaryFeed
           (Scenario.withTypes ["AWS::S3::Bucket"%string]) Scenario.detailFeed None
           ["AWS::S3::Bucket"%string]); [reflexivity | discriminate | exact I].
Defined.

(** ** The compliance-status filter *)

Section StatusFilter.

Implicit Types (cmap : gmap string ComplianceCount) (r : ConfigRule)
               (c : ComplianceCount) (s : Classification).

Lemma member_own cmap (name : string) c :
  cmap !! name = Some c → member cmap name = Some (Counts c).
Proof. intros Hk. unfold member. by rewrite Hk. Qed.

Lemma member_missing cmap (name : string) :
  cmap !! name = None → inheritedFrom cmap name = false → member cmap name = None.
Proof. intros Hk Hin. unfold member. by rewrite Hk, Hin. Qed.

Lemma member_inherited cmap (name : string) :
  cmap !! name = None → inheritedFrom cmap name = true →
  member cmap name = Some InheritedMember.
Proof. intros Hk Hin. unfold member. by rewrite Hk, Hin. Qed.

(** On an object whose prototype was never assigned, the inherited
    names are those of [Object.prototype]. *)
Lemma inheritedFrom_plain cmap (name : string) :
  cmap !! "__proto__"%string = None → inheritedFrom cmap name = inherited name.
Proof.
  intros Hproto. unfold inheritedFrom, inheritedField. rewrite Hproto.
  apply orb_false_r.
Qed.

Lemma inheritedFrom_member cmap (name : string) :
  inherited name = true → inheritedFrom cmap name = true.
Proof. intros Hin. unfold inheritedFrom. by rewrite Hin. Qed.

(** Without an own entry a rule passes none of the three recognised
    status tests: the object is undefined, or an inherited member on
    which every comparison is false. *)
Lemma statusFilter_unmapped_recognised (status : string) cmap r :
  recognisedStatus status = true →
  cmap !! ConfigRuleName r = None →
  RulesWidget.complianceStatusFilter status cmap r = false.
Proof.
  intros Hrec Hk. unfold RulesWidget.complianceStatusFilter, member. rewrite Hk.
  destruct (inheritedFrom cmap (ConfigRuleName r)); [|done]. simpl.
  unfold recognisedStatus in Hrec.
  destruct (String.eqb status "COMPLIANT"); [done|].
  destruct (String.eqb status "NON_COMPLIANT"); [done|].
  destruct (String.eqb status "INSUFFICIENT_DATA"); [done | discriminate].
Qed.

Lemma statusFilter_unmapped s cmap r :
  cmap !! ConfigRuleName r = None →
  RulesWidget.complianceStatusFilter (statusName s) cmap r = false.
Proof. apply statusFilter_unmapped_recognised. by destruct s. Qed.


Lemma statusFilter_compliant cmap r c :
  cmap !! ConfigRuleName r = Some c →
  RulesWidget.complianceStatusFilter "COMPLIANT" cmap r = isCompliant c.
Proof.
  intros Hk. unfold RulesWidget.complianceStatusFilter. by rewrite (member_own _ _ _ Hk).
Qed.

Lemma statusFilter_non_compliant cmap r c :
  cmap !! ConfigRuleName r = Some c →
  RulesWidget.complianceStatusFilter "NON_COMPLIANT" cmap r = isNonCompliant c.
Proof.
  intros Hk. unfold RulesWidget.complianceStatusFilter. by rewrite (member_own _ _ _ Hk).
Qed.

Lemma statusFilter_insufficient cmap r c :
  cmap !! ConfigRuleName r = Some c →
  RulesWidget.complianceStatusFilter "INSUFFICIENT_DATA" cmap r
    = (TotalResourceCount c =? 0).
Proof.
  intros Hk. unfold RulesWidget.complianceStatusFilter. by rewrite (member_own _ _ _ Hk).
Qed.

Lemma ruleItemStatus_mapped cmap r c :
  cmap !! ConfigRuleName r = Some c →
  RulesWidget.ruleItemStatus (RulesWidget.addCompliance cmap r) = classify c.
Proof.
  intros Hk. unfold RulesWidget.ruleItemStatus, RulesWidget.addCompliance; simpl.
  by rewrite (member_own _ _ _ Hk).
Qed.

(** A rule without an own entry is shown as Insufficient Data; what is
    attached to it is the zero count, unless its name is inherited. *)
Lemma ruleItemStatus_unmapped cmap r :
  cmap !! ConfigRuleName r = None →
  RulesWidget.ruleItemStatus (RulesWidget.addCompliance cmap r) = INSUFFICIENT_DATA
  ∧ (inheritedFrom cmap (ConfigRuleName r) = false →
     RulesWidget.compliance (RulesWidget.addCompliance cmap r) = Counts zeroCount)
  ∧ (inheritedFrom cmap (ConfigRuleName r) = true →
     RulesWidget.compliance (RulesWidget.addCompliance cmap r) = InheritedMember).
Proof.
  intros Hk. unfold RulesWidget.ruleItemStatus, RulesWidget.addCompliance, member; simpl.
  rewrite Hk. by destruct (inheritedFrom cmap (ConfigRuleName r)).
Qed.

Lemma isCompliant_true c :
  isCompliant c = true
  ↔ NonCompliantResourceCount c = 0 ∧ 0 < TotalResourceCount c.
Proof.
  unfold isCompliant. rewrite andb_true_iff, Nat.eqb_eq, Nat.ltb_lt. done.
Qed.

Lemma isNonCompliant_true c :
  isNonCompliant c = true ↔ 0 < NonCompliantResourceCount c.
Proof. unfold isNonCompliant. apply Nat.ltb_lt. Qed.

(** On a rule that has a map entry the filter agrees with the displayed
    status, except that the INSUFFICIENT_DATA test looks at the total
    alone. *)
Lemma statusFilter_agrees cmap r c s :
  cmap !! ConfigRuleName r = Some c →
  (s = INSUFFICIENT_DATA →
   ¬ (0 < NonCompliantResourceCount c ∧ TotalResourceCount c = 0)) →
  RulesWidget.complianceStatusFilter (statusName s) cmap r = true
  ↔ classify c = s.
Proof.
  intros Hk Hside. destruct (classify_triState c) as (Hn & Hc & Hi).
  destruct s; simpl.
  - rewrite (statusFilter_compliant _ _ _ Hk), isCompliant_true. by rewrite Hc.
  - rewrite (statusFilter_non_compliant _ _ _ Hk), isNonCompliant_true. by rewrite Hn.
  - rewrite (statusFilter_insufficient _ _ _ Hk), Nat.eqb_eq, Hi.
    specialize (Hside eq_refl). lia.
Qed.

(** A rule that passes a recognised status test has an own entry. *)
Lemma statusFilter_recognised_own (status : string) cmap r :
  recognisedStatus status = true →
  RulesWidget.complianceStatusFilter status cmap r = true →
  ∃ c, cmap !! ConfigRuleName r = Some c.
Proof.
  intros Hrec Hpass. destruct (cmap !! ConfigRuleName r) as [c|] eqn:Hk; [by eexists|].
  by rewrite (statusFilter_unmapped_recognised status cmap r Hrec Hk) in Hpass.
Qed.

(** What is attached to a rule that has an own entry. *)
Lemma addCompliance_own cmap r c :
  cmap !! ConfigRuleName r = Some c →
  RulesWidget.compliance (RulesWidget.addCompliance cmap r) = Counts c.
Proof.
  intros Hk. unfold RulesWidget.addCompliance. simpl. by rewrite (member_own _ _ _ Hk).
Qed.

(** Where an output rule comes from. *)
Lemma processed_rule_origin rulesResponse complianceResponse params detailed accountId p :
  p ∈ RulesWidget.rules
        (RulesWidget.processConfigData rulesResponse complianceResponse params
           detailed accountId) →
  ∃ r, p = RulesWidget.addCompliance
             (RulesWidget.complianceMap
                (default [] (ComplianceSummaryByConfigRule complianceResponse)) detailed) r
       ∧ r ∈ RulesWidget.filterRules params
               (RulesWidget.complianceMap
                  (default [] (ComplianceSummaryByConfigRule complianceResponse)) detailed)
               (default [] (ConfigRules rulesResponse)).
Proof.
  intros Hp. unfold RulesWidget.processConfigData in Hp. simpl in Hp.
  apply list_elem_of_fmap in Hp as (r & -> & Hr). by exists r.
Qed.

End StatusFilter.

(** ** Inherited members in the other widgets *)

Section OtherWidgets.

Implicit Types (cmap : gmap string ComplianceCount) (r : ConfigRule).

(** The tests of the compliance and remediation widgets read
    [complianceMap[name]] like the rules widget does; on an inherited
    member they come out as on a missing entry. *)
Lemma countsAsCompliant_member cmap r :
  ComplianceWidget.countsAsCompliant cmap r
  = match member cmap (ConfigRuleName r) with
    | Some comp => isZero (nonCompliantOf comp) && isPositive (totalOf comp)
    | None => false
    end.
Proof.
  unfold ComplianceWidget.countsAsCompliant, member.
  destruct (cmap !! ConfigRuleName r); [done|].
  by destruct (inheritedFrom cmap (ConfigRuleName r)).
Qed.

Lemma countsAsNonCompliant_member cmap r :
  ComplianceWidget.countsAsNonCompliant cmap r
  = match member cmap (ConfigRuleName r) with
    | Some comp => isPositive (nonCompliantOf comp)
    | None => false
    end.
Proof.
  unfold ComplianceWidget.countsAsNonCompliant, member.
  destruct (cmap !! ConfigRuleName r); [done|].
  by destruct (inheritedFrom cmap (ConfigRuleName r)).
Qed.

Lemma needsAttention_member cmap r :
  RemediationWidget.needsAttention cmap r
  = match member cmap (ConfigRuleName r) with
    | Some compliance => isPositive (nonCompliantOf compliance)
    | None => false
    end.
Proof.
  unfold RemediationWidget.needsAttention, member.
  destruct (cmap !! ConfigRuleName r); [done|].
  by destruct (inheritedFrom cmap (ConfigRuleName r)).
Qed.

Lemma ruleSummaryItemStatus_member cmap r :
  ComplianceWidget.ruleSummaryItemStatus (cmap !! ConfigRuleName r)
  = RulesWidget.classifyAttached
      (default (Counts zeroCount) (member cmap (ConfigRuleName r))).
Proof.
  unfold ComplianceWidget.ruleSummaryItemStatus, member.
  destruct (cmap !! ConfigRuleName r); [done|].
  by destruct (inheritedFrom cmap (ConfigRuleName r)).
Qed.

End OtherWidgets.

(** C6, as stated, fails: a listed rule with no entry in the reconciled
    map is shown as Insufficient Data, yet it does not pass the
    INSUFFICIENT_DATA filter and the filtered output is empty. *)
Lemma C6_unmapped_rule_counterexample :
  let cmap := RulesWidget.complianceMap [] ∅ in
  RulesWidget.ruleItemStatus (RulesWidget.addCompliance cmap Scenario.r2)
    = INSUFFICIENT_DATA
  ∧ RulesWidget.complianceStatusFilter "INSUFFICIENT_DATA" cmap Scenario.r2 = false
  ∧ RulesWidget.rules
      (RulesWidget.processConfigData {| ConfigRules := Some [Scenario.r2] |}
         {| ComplianceSummaryByConfigRule := Some [] |}
         (Scenario.withStatus "INSUFFICIENT_DATA") ∅ None) = []
  ∧ ¬ (RulesWidget.complianceStatusFilter "INSUFFICIENT_DATA" cmap Scenario.r2 = true
       ↔ RulesWidget.ruleItemStatus (RulesWidget.addCompliance cmap Scenario.r2)
           = INSUFFICIENT_DATA).
Proof.
  intros cmap. repeat split; try reflexivity.
  intros [_ Hback].
  assert (RulesWidget.complianceStatusFilter "INSUFFICIENT_DATA" cmap Scenario.r2 = true)
    as Hpass by (by apply Hback).
  vm_compute in Hpass. discriminate Hpass.
Qed.

(** C6, amended: for a supplied complianceStatus value among COMPLIANT,
    NON_COMPLIANT and INSUFFICIENT_DATA, a rule with no entry in the
    reconciled map never passes the predicate; a rule with an entry passes
    COMPLIANT or NON_COMPLIANT exactly when that is its classification
    and, unless its entry has nonCompliant > 0 with total = 0, passes
    INSUFFICIENT_DATA exactly when its classification is
    INSUFFICIENT_DATA; filtering by COMPLIANT returns only rules with
    nonCompliant = 0 and total > 0. *)
Theorem C6_status_filter_on_mapped_rules
    (cmap : gmap string ComplianceCount) (r : ConfigRule) (s : Classification) :
  (cmap !! ConfigRuleName r = None →
   RulesWidget.complianceStatusFilter (statusName s) cmap r = false)
  ∧ (∀ c, cmap !! ConfigRuleName r = Some c →
       (s = INSUFFICIENT_DATA →
        ¬ (0 < NonCompliantResourceCount c ∧ TotalResourceCount c = 0)) →
       (RulesWidget.complianceStatusFilter (statusName s) cmap r = true
        ↔ RulesWidget.ruleItemStatus (RulesWidget.addCompliance cmap r) = s))
  ∧ (∀ rulesResponse complianceResponse params detailed accountId,
       complianceStatus params = Some "COMPLIANT"%string →
       Forall (λ p, ∃ c, RulesWidget.compliance p = Counts c
                         ∧ NonCompliantResourceCount c = 0
                         ∧ 0 < TotalResourceCount c)
         (RulesWidget.rules
            (RulesWidget.processConfigData rulesResponse complianceResponse params
               detailed accountId))).
Proof.
  split; [apply statusFilter_unmapped|]. split.
  - intros c Hk Hside. rewrite (ruleItemStatus_mapped _ _ _ Hk).
    by apply statusFilter_agrees.
  - intros rulesResponse complianceResponse params detailed accountId Hstatus.
    apply Forall_forall. intros p Hp.
    apply processed_rule_origin in Hp as (r' & -> & Hr').
    apply filterRules_elem in Hr' as (_ & _ & Hpass & _).
    rewrite Hstatus in Hpass. specialize (Hpass eq_refl).
    change (default ""%string (Some "COMPLIANT"%string)) with "COMPLIANT"%string in Hpass.
    destruct (statusFilter_recognised_own "COMPLIANT" _ _ eq_refl Hpass) as [c Hc].
    rewrite (statusFilter_compliant _ _ _ Hc) in Hpass.
    exists c. split; [by apply addCompliance_own|]. by apply isCompliant_true.
Qed.

Lemma C6_status_filter_on_mapped_rules_witness :
  let cmap := RulesWidget.complianceMap
                [Scenario.mkItem "r1" (Some 5) (Some 2) (Some 7)] ∅ in
  cmap !! ConfigRuleName Scenario.r1
    = Some {| CompliantResourceCount := 5;
              NonCompliantResourceCount := 2;
              TotalResourceCount := 7 |}
  ∧ (RulesWidget.complianceStatusFilter (statusName NON_COMPLIANT) cmap Scenario.r1 = true
     ↔ RulesWidget.ruleItemStatus (RulesWidget.addCompliance cmap Scenario.r1)
         = NON_COMPLIANT).
Proof.
  intros cmap. split; [reflexivity|].
  apply (C6_status_filter_on_mapped_rules cmap Scenario.r1 NON_COMPLIANT)
    with (c := {| CompliantResourceCount := 5;
                  NonCompliantResourceCount := 2;
                  TotalResourceCount := 7 |}); [reflexivity | discriminate].
Defined.



(** ** Rules without any compliance data *)

Section Unmapped.

Implicit Types (m : gmap string ComplianceCount) (rs : list ConfigRule).

(** The password-policy default only ever adds the zero count. *)
Lemma addPasswordPolicyDefault_None rs m k :
  m !! k = None →
  default zeroCount (ComplianceWidget.addPasswordPolicyDefault rs m !! k) = zeroCount.
Proof.
  intros Hk. unfold ComplianceWidget.addPasswordPolicyDefault.
  destruct (existsb _ rs); [|by rewrite Hk].
  destruct (m !! "iam-password-policy"%string) eqn:Hp; [by rewrite Hk|].
  destruct (decide ("iam-password-policy"%string = k)) as [<-|Hne].
  - by rewrite lookup_insert_eq.
  - rewrite lookup_insert_ne by done. by rewrite Hk.
Qed.

Lemma reconciled_unmapped (compliance : list SummaryItem)
    (detailed : gmap string (list EvaluationResult)) k :
  k ∉ itemConfigRuleName <$> compliance → detailed !! k = None →
  mergeDetailed detailed (summaryMap compliance) !! k = None.
Proof.
  intros Hs Hd. rewrite mergeDetailed_absent by done. by apply summaryMap_absent.
Qed.

End Unmapped.

(** A catalogue rule named in neither the summary nor the detail mapping,
    and whose name is not one the map object inherits, is output with
    the synthesized zero count (0, 0, 0) and shown as Insufficient Data,
    in the rules widget (where it is listed whenever no filter is in
    force) and in the compliance widget. *)
Lemma unmapped_plain_rule_gets_zero_count
    (rulesResponse : RulesResponse) (complianceResponse : ComplianceResponse)
    (params : Params) (detailed : gmap string (list EvaluationResult))
    (accountId : option string) (account : string) (r : ConfigRule) :
  ConfigRuleName r ∉
    (itemConfigRuleName <$> default [] (ComplianceSummaryByConfigRule complianceResponse)) →
  detailed !! ConfigRuleName r = None →
  inheritedFrom
    (RulesWidget.complianceMap
       (default [] (ComplianceSummaryByConfigRule complianceResponse)) detailed)
    (ConfigRuleName r) = false →
  let out :=
    RulesWidget.processConfigData rulesResponse complianceResponse params
      detailed accountId in
  let data :=
    {| ComplianceWidget.rules := default [] (ConfigRules rulesResponse);
       ComplianceWidget.compliance :=
         default [] (ComplianceSummaryByConfigRule complianceResponse);
       ComplianceWidget.detailedCompliance := detailed;
       ComplianceWidget.accountId := account |} in
  (∀ p, p ∈ RulesWidget.rules out → RulesWidget.rule p = r →
     RulesWidget.compliance p = Counts zeroCount
     ∧ RulesWidget.ruleItemStatus p = INSUFFICIENT_DATA
     ∧ statusText (RulesWidget.ruleItemStatus p) = "Insufficient Data"%string)
  ∧ (r ∈ default [] (ConfigRules rulesResponse) → unfiltered params →
     {| RulesWidget.rule := r; RulesWidget.compliance := Counts zeroCount |}
       ∈ RulesWidget.rules out)
  ∧ (r ∈ default [] (ConfigRules rulesResponse) →
     {| ComplianceWidget.itemRule := r;
        ComplianceWidget.itemCompliance := zeroCount;
        ComplianceWidget.itemStatus := INSUFFICIENT_DATA |}
       ∈ ComplianceWidget.items (ComplianceWidget.generateComplianceSummary data)).
Proof.
  intros Hs Hd Hplain out data.
  pose proof (reconciled_unmapped _ _ _ Hs Hd) as Hk'.
  assert (RulesWidget.complianceMap
            (default [] (ComplianceSummaryByConfigRule complianceResponse)) detailed
            !! ConfigRuleName r = None) as Hk by exact Hk'.
  split; [|split].
  - intros p Hp Hr. unfold out, RulesWidget.processConfigData in Hp. simpl in Hp.
    apply list_elem_of_fmap in Hp as (r' & -> & _). simpl in Hr. subst r'.
    destruct (ruleItemStatus_unmapped _ _ Hk) as (Hst & Hzero & _).
    split; [exact (Hzero Hplain)|]. split; [exact Hst | by rewrite Hst].
  - intros Hin (Hnames & Hstatus & Htypes).
    unfold out, RulesWidget.processConfigData. simpl.
    apply list_elem_of_fmap. exists r. split.
    + unfold RulesWidget.addCompliance.
      by rewrite (member_missing _ _ Hk Hplain).
    + apply filterRules_elem. rewrite Hnames, Hstatus, Htypes.
      intuition (try discriminate).
  - intros Hin. unfold ComplianceWidget.generateComplianceSummary. simpl.
    apply list_elem_of_fmap. exists r. split; [|exact Hin].
    unfold ComplianceWidget.ruleSummaryItemStatus, ComplianceWidget.complianceMap.
    simpl. by rewrite (addPasswordPolicyDefault_None _ _ _ Hk').
Qed.

(** C7 does not hold in the rules widget for a rule named like a member
    every object inherits: the catalogue rule [constructor], absent from
    the summary and the detail mapping, is output by [processConfigData]
    with the inherited member in place of the zero count (0, 0, 0), and,
    although its item reads Insufficient Data, the summary counts it in
    no bucket, whereas the rule next to it, absent from both mappings
    too, gets the zero count and is counted. *)
Theorem C7_inherited_name_is_not_given_zero_count :
  let data :=
    RulesWidget.processConfigData Scenario.inheritedNameCatalog
      Scenario.summaryFeed Scenario.noParams Scenario.detailFeed None in
  let s := RulesWidget.summary data in
  Forall (λ r : ConfigRule,
            (ConfigRuleName r ∉
               (itemConfigRuleName <$>
                  default [] (ComplianceSummaryByConfigRule Scenario.summaryFeed)))
            ∧ Scenario.detailFeed !! ConfigRuleName r = None)
         (default [] (ConfigRules Scenario.inheritedNameCatalog))
  ∧ RulesWidget.rules data
    = [ {| RulesWidget.rule := Scenario.r2;
           RulesWidget.compliance := Counts zeroCount |};
        {| RulesWidget.rule := Scenario.constructorRule;
           RulesWidget.compliance := InheritedMember |} ]
  ∧ InheritedMember ≠ Counts zeroCount
  ∧ statusText <$> (RulesWidget.ruleItemStatus <$> RulesWidget.rules data)
    = ["Insufficient Data"; "Insufficient Data"]%string
  ∧ RulesWidget.total s = 2
  ∧ RulesWidget.compliant s = 0
  ∧ RulesWidget.nonCompliant s = 0
  ∧ RulesWidget.insufficientData s = 1.
Proof.
  intros data s. split; [|split; [|split]].
  - repeat constructor; try reflexivity;
      apply (bool_decide_unpack _); vm_compute; exact I.
  - vm_compute. reflexivity.
  - discriminate.
  - vm_compute. repeat split; reflexivity.
Qed.

(** ** Summary statistics *)

(** C3 does not hold in the rules widget: a summary entry that reports a
    non-compliant resource and no total makes [processConfigData] count
    its rule, shown as Non-Compliant, both as non-compliant and as
    insufficient-data, so the three buckets add up to 2 for 1 rule. *)
Theorem C3_rules_summary_counts_a_rule_twice :
  let data :=
    RulesWidget.processConfigData Scenario.singleRule Scenario.untotalled
      Scenario.noParams ∅ None in
  let s := RulesWidget.summary data in
  RulesWidget.compliance <$> RulesWidget.rules data
    = [Counts {| CompliantResourceCount := 0;
                 NonCompliantResourceCount := 1;
                 TotalResourceCount := 0 |}]
  ∧ RulesWidget.ruleItemStatus <$> RulesWidget.rules data = [NON_COMPLIANT]
  ∧ RulesWidget.total s = 1
  ∧ RulesWidget.compliant s = 0
  ∧ RulesWidget.nonCompliant s = 1
  ∧ RulesWidget.insufficientData s = 1
  ∧ RulesWidget.compliant s + RulesWidget.nonCompliant s
      + RulesWidget.insufficientData s ≠ RulesWidget.total s.
Proof. vm_compute. repeat split; try reflexivity. discriminate. Qed.

Section Statistics.

(** Three filters of which exactly one accepts each element split the
    list. *)
Lemma filter_partition3_length {A} (f g h : A → bool) (l : list A) :
  (∀ x, (f x, g x, h x) = (true, false, false)
        ∨ (f x, g x, h x) = (false, true, false)
        ∨ (f x, g x, h x) = (false, false, true)) →
  length (List.filter f l) + length (List.filter g l)
    + length (List.filter h l) = length l.
Proof.
  intros Hone. induction l as [|x l IH]; simpl; [done|].
  destruct (Hone x) as [Hx|[Hx|Hx]]; injection Hx as -> -> ->; simpl; lia.
Qed.

Lemma compliance_buckets_exclusive (cmap : gmap string ComplianceCount) (r : ConfigRule) :
  let f := ComplianceWidget.countsAsCompliant cmap r in
  let g := ComplianceWidget.countsAsNonCompliant cmap r in
  let h := shownInsufficient cmap r in
  (f, g, h) = (true, false, false) ∨ (f, g, h) = (false, true, false)
  ∨ (f, g, h) = (false, false, true).
Proof.
  unfold ComplianceWidget.countsAsCompliant, ComplianceWidget.countsAsNonCompliant,
    shownInsufficient, ComplianceWidget.ruleSummaryItemStatus, classify,
    isCompliant, isNonCompliant.
  destruct (cmap !! ConfigRuleName r) as [c|]; simpl; [|auto].
  destruct (NonCompliantResourceCount c) as [|n]; simpl;
    destruct (TotalResourceCount c) as [|t]; simpl; auto.
Qed.

(** The compliance widget takes the insufficient-data figure as the
    remainder, so its three figures partition the rules, and the
    remainder is the number of rules shown as Insufficient Data. *)
Lemma compliance_summary_partitions (data : ComplianceWidget.SummaryData) :
  let v := ComplianceWidget.generateComplianceSummary data in
  (ComplianceWidget.compliantRules v + ComplianceWidget.nonCompliantRules v
     + ComplianceWidget.insufficientDataRules v = ComplianceWidget.totalRules v)%Z
  ∧ ComplianceWidget.insufficientDataRules v
    = Z.of_nat (length (List.filter
                          (shownInsufficient (ComplianceWidget.complianceMap data))
                          (ComplianceWidget.rules data))).
Proof.
  simpl. split; [lia|].
  pose proof (filter_partition3_length
                (ComplianceWidget.countsAsCompliant (ComplianceWidget.complianceMap data))
                (ComplianceWidget.countsAsNonCompliant (ComplianceWidget.complianceMap data))
                (shownInsufficient (ComplianceWidget.complianceMap data))
                (ComplianceWidget.rules data)
                (compliance_buckets_exclusive _)) as Hsum.
  lia.
Qed.

End Statistics.

(** ** The prefetch loop *)

Section PrefetchLoop.

(** Any loop body that, for each name, either stores one list under that
    name or leaves the detail object alone. *)
Context (step : Prefetch → string → Prefetch)
        (stored : string → option (list EvaluationResult)).
Hypothesis step_stores : ∀ st n,
  detailedComplianceData (step st n)
    = match stored n with
      | Some results => <[n := results]> (detailedComplianceData st)
      | None => detailedComplianceData st
      end.

Lemma step_lookup st a n :
  detailedComplianceData (step st a) !! n
    = if decide (a = n)
      then from_option Some (detailedComplianceData st !! n) (stored n)
      else detailedComplianceData st !! n.
Proof.
  rewrite step_stores. destruct (decide (a = n)) as [->|Hne].
  - destruct (stored n); [apply lookup_insert_eq | done].
  - destruct (stored a); [by rewrite lookup_insert_ne | done].
Qed.

(** After the loop, a visited name holds what its iteration stored and
    every other key is as before. *)
Lemma loop_lookup (names : list string) st n :
  detailedComplianceData (foldl step st names) !! n
    = if decide (n ∈ names)
      then from_option Some (detailedComplianceData st !! n) (stored n)
      else detailedComplianceData st !! n.
Proof.
  revert st. induction names as [|a names IH]; intros st; cbn [foldl].
  - destruct (decide (n ∈ [])) as [Hin|_]; [inversion Hin | done].
  - rewrite IH, !step_lookup.
    destruct (decide (n ∈ a :: names)) as [Hin|Hnin];
      destruct (decide (n ∈ names)) as [Hin'|Hnin'];
      destruct (decide (a = n)) as [->|Hne]; try done.
    + by destruct (stored n).
    + apply elem_of_cons in Hin as [->|Hin]; done.
    + exfalso. apply Hnin. by apply list_elem_of_further.
    + exfalso. apply Hnin. by apply list_elem_of_further.
    + exfalso. apply Hnin. apply list_elem_of_here.
Qed.

Lemma loop_from_empty (names : list string) n :
  detailedComplianceData (foldl step emptyPrefetch names) !! n
    = if decide (n ∈ names) then stored n else None.
Proof.
  rewrite loop_lookup. simpl. rewrite lookup_empty.
  destruct (decide (n ∈ names)); [by destruct (stored n) | done].
Qed.

End PrefetchLoop.

Section PrefetchResult.

Context (up : Upstream) (rulesResponse : RulesResponse).

Lemma rules_prefetchStep_stores st n :
  detailedComplianceData (RulesWidget.prefetchStep up rulesResponse st n)
    = match storedByRulesWidget up rulesResponse n with
      | Some results => <[n := results]> (detailedComplianceData st)
      | None => detailedComplianceData st
      end.
Proof.
  unfold RulesWidget.prefetchStep, storedByRulesWidget.
  destruct (ruleExists rulesResponse n); [|done].
  by destruct (getComplianceDetailsByConfigRule up n).
Qed.

Lemma compliance_prefetchStep_stores st n :
  detailedComplianceData (ComplianceWidget.prefetchStep up rulesResponse st n)
    = match storedByComplianceWidget up rulesResponse n with
      | Some results => <[n := results]> (detailedComplianceData st)
      | None => detailedComplianceData st
      end.
Proof.
  unfold ComplianceWidget.prefetchStep, storedByComplianceWidget.
  destruct (ruleExists rulesResponse n);
    destruct (getComplianceDetailsByConfigRule up n) as [details|]; try done.
  by destruct (nonEmptyArray (EvaluationResults details)).
Qed.

Lemma rules_prefetch_lookup n :
  detailedComplianceData (RulesWidget.prefetch up rulesResponse) !! n
    = if decide (n ∈ accountLevelRules)
      then storedByRulesWidget up rulesResponse n else None.
Proof. apply loop_from_empty, rules_prefetchStep_stores. Qed.

Lemma compliance_prefetch_lookup n :
  detailedComplianceData (ComplianceWidget.prefetch up rulesResponse) !! n
    = if decide (n ∈ accountLevelRules)
      then storedByComplianceWidget up rulesResponse n else None.
Proof. apply loop_from_empty, compliance_prefetchStep_stores. Qed.

End PrefetchResult.

Section Isolation.

Context (up : Upstream) (rulesResponse : RulesResponse).
Context (name message : string) (outcome : Outcome DetailsResponse).
Hypothesis read_fails : getComplianceDetailsByConfigRule up name = Rejected message.

Lemma withDetailRead_other n :
  n ≠ name →
  getComplianceDetailsByConfigRule (withDetailRead up name outcome) n
    = getComplianceDetailsByConfigRule up n.
Proof. intros Hne. simpl. by destruct (String.eqb_spec n name). Qed.

(** A rejected read leaves the detail object as if the rule's entry had
    been removed from what any other outcome of that read collects. *)
Lemma rules_prefetch_isolated :
  detailedComplianceData (RulesWidget.prefetch up rulesResponse)
    = delete name
        (detailedComplianceData
           (RulesWidget.prefetch (withDetailRead up name outcome) rulesResponse)).
Proof.
  apply map_eq. intros n. rewrite lookup_delete, !rules_prefetch_lookup.
  unfold storedByRulesWidget. destruct (decide (name = n)) as [<-|Hne].
  - rewrite read_fails.
    destruct (decide (name ∈ accountLevelRules)); [|done].
    by destruct (ruleExists rulesResponse name).
  - by rewrite withDetailRead_other.
Qed.

Lemma compliance_prefetch_isolated :
  detailedComplianceData (ComplianceWidget.prefetch up rulesResponse)
    = delete name
        (detailedComplianceData
           (ComplianceWidget.prefetch (withDetailRead up name outcome) rulesResponse)).
Proof.
  apply map_eq. intros n. rewrite lookup_delete, !compliance_prefetch_lookup.
  unfold storedByComplianceWidget. destruct (decide (name = n)) as [<-|Hne].
  - rewrite read_fails. by destruct (decide (name ∈ accountLevelRules)).
  - by rewrite withDetailRead_other.
Qed.

End Isolation.

(** None of the account-level names is one a map object inherits. *)
Lemma accountLevel_not_inherited (obj : gmap string ComplianceCount) (name : string) :
  name ∈ accountLevelRules → inheritedFrom obj name = false.
Proof.
  unfold accountLevelRules. rewrite !elem_of_cons, elem_of_nil.
  unfold inheritedFrom, inheritedField.
  intros [->|[->|[->|[]]]]; by destruct (obj !! "__proto__"%string).
Qed.

(** The detail object of the rules widget holds no prototype. *)
Lemma rules_prefetch_no_prototype (up : Upstream) (rulesResponse : RulesResponse) :
  detailedComplianceData (RulesWidget.prefetch up rulesResponse) !! "__proto__"%string
    = None.
Proof.
  rewrite rules_prefetch_lookup. rewrite decide_False; [done|].
  apply (bool_decide_unpack _). vm_compute. exact I.
Qed.

(** Where the detail object has neither the name nor a prototype, the
    reconciled map reads like the summary map. *)
Lemma member_mergeDetailed_absent (detailed : gmap string (list EvaluationResult))
    (m : gmap string ComplianceCount) (name : string) :
  detailed !! name = None → detailed !! "__proto__"%string = None →
  member (mergeDetailed detailed m) name = member m name
  ∧ inheritedFrom (mergeDetailed detailed m) name = inheritedFrom m name.
Proof.
  intros Hname Hproto. unfold member, inheritedFrom, inheritedField.
  by rewrite !mergeDetailed_absent.
Qed.

(** C8: when the evaluation-detail read of one account-level rule name is
    rejected, both handlers still return their widget (the rejection is
    not propagated), the entries of the other account-level names are
    stored as their own reads resolve, and the output is the one computed
    with that rule's entry removed from the detail object, so that the
    rule falls back to its summary count or to the zero count. *)
Theorem C8_detail_read_failure_is_isolated
    (up : Upstream) (params : Params) (name message account : string)
    (outcome : Outcome DetailsResponse)
    (rulesResponse : RulesResponse) (complianceResponse : ComplianceResponse) :
  getComplianceDetailsByConfigRule up name = Rejected message →
  getCallerIdentity up = Resolved account →
  describeConfigRules up = Resolved rulesResponse →
  getComplianceSummaryByConfigRule up = Resolved complianceResponse →
  let other := withDetailRead up name outcome in
  let out :=
    RulesWidget.processConfigData rulesResponse complianceResponse params
      (delete name (detailedComplianceData (RulesWidget.prefetch other rulesResponse)))
      (Some account) in
  let data :=
    {| ComplianceWidget.rules := default [] (ConfigRules rulesResponse);
       ComplianceWidget.compliance :=
         default [] (ComplianceSummaryByConfigRule complianceResponse);
       ComplianceWidget.detailedCompliance :=
         delete name
           (detailedComplianceData (ComplianceWidget.prefetch other rulesResponse));
       ComplianceWidget.accountId := account |} in
  RulesWidget.handler up params = Widget out
  ∧ (truthyString (ruleName params) = false →
     ComplianceWidget.handler up params
       = Widget (ComplianceWidget.ComplianceSummaryView
                   (ComplianceWidget.generateComplianceSummary data)))
  ∧ (∀ n details, n ∈ accountLevelRules → ruleExists rulesResponse n = true →
       getComplianceDetailsByConfigRule up n = Resolved details →
       detailedComplianceData (RulesWidget.prefetch up rulesResponse) !! n
         = Some (default [] (EvaluationResults details))
       ∧ detailedComplianceData (ComplianceWidget.prefetch up rulesResponse) !! n
         = Some (default [] (EvaluationResults details)))
  ∧ (∀ p, p ∈ RulesWidget.rules out → ConfigRuleName (RulesWidget.rule p) = name →
       RulesWidget.compliance p
         = default (Counts zeroCount)
             (member
                (summaryMap (default [] (ComplianceSummaryByConfigRule complianceResponse)))
                name)
       ∧ (name ∈ accountLevelRules
          ∨ inheritedFrom
              (summaryMap (default [] (ComplianceSummaryByConfigRule complianceResponse)))
              name = false →
          RulesWidget.compliance p
            = Counts
                (default zeroCount
                   (summaryMap
                      (default [] (ComplianceSummaryByConfigRule complianceResponse))
                      !! name)))).
Proof.
  intros Hfail Hid Hrules Hsummary other out data. split; [|split; [|split]].
  - unfold RulesWidget.handler. rewrite Hid, Hrules, Hsummary.
    unfold out, other.
    by rewrite <- (rules_prefetch_isolated up rulesResponse name message outcome Hfail).
  - intros Hsummaryview.
    unfold ComplianceWidget.handler, ComplianceWidget.getDetailedComplianceData.
    rewrite Hsummaryview, Hid, Hrules, Hsummary. unfold data, other.
    by rewrite <- (compliance_prefetch_isolated up rulesResponse name message outcome Hfail).
  - intros n details Hn Hexists Hread.
    rewrite rules_prefetch_lookup, compliance_prefetch_lookup.
    unfold storedByRulesWidget, storedByComplianceWidget.
    rewrite Hexists, Hread. split; by case_decide.
  - intros p Hp Hname. unfold out, RulesWidget.processConfigData in Hp. simpl in Hp.
    apply list_elem_of_fmap in Hp as (r & -> & _). simpl in Hname. simpl.
    rewrite Hname. unfold RulesWidget.complianceMap.
    destruct (member_mergeDetailed_absent
                (delete name
                   (detailedComplianceData (RulesWidget.prefetch other rulesResponse)))
                (summaryMap (default [] (ComplianceSummaryByConfigRule complianceResponse)))
                name) as [-> _].
    { apply lookup_delete_eq. }
    { apply lookup_delete_None. right. apply rules_prefetch_no_prototype. }
    split; [done|]. intros Hplain. unfold member.
    assert (inheritedFrom
              (summaryMap (default [] (ComplianceSummaryByConfigRule complianceResponse)))
              name = false) as ->.
    { destruct Hplain as [Hacc|]; [|done]. by apply accountLevel_not_inherited. }
    by destruct (summaryMap _ !! name).
Qed.

Lemma C8_detail_read_failure_is_isolated_witness :
  getComplianceDetailsByConfigRule Scenario.throttled "iam-password-policy"
    = Rejected "Rate exceeded"%string
  ∧ getCallerIdentity Scenario.throttled = Resolved "123456789012"%string
  ∧ describeConfigRules Scenario.throttled = Resolved Scenario.catalog
  ∧ getComplianceSummaryByConfigRule Scenario.throttled = Resolved Scenario.summaryFeed
  ∧ RulesWidget.handler Scenario.throttled Scenario.noParams
    = Widget
        (RulesWidget.processConfigData Scenario.catalog Scenario.summaryFeed
           Scenario.noParams
           (delete "iam-password-policy"%string
              (detailedComplianceData
                 (RulesWidget.prefetch
                    (withDetailRead Scenario.throttled "iam-password-policy"
                       (Resolved {| EvaluationResults := Some Scenario.threeFindings |}))
                    Scenario.catalog)))
           (Some "123456789012"%string)).
Proof.
  split; [reflexivity|]. split; [reflexivity|]. split; [reflexivity|].
  split; [reflexivity|].
  apply (C8_detail_read_failure_is_isolated Scenario.throttled Scenario.noParams
           "iam-password-policy" "Rate exceeded" "123456789012"
           (Resolved {| EvaluationResults := Some Scenario.threeFindings |})
           Scenario.catalog Scenario.summaryFeed); reflexivity.
Defined.

(** ** The scenarios of the specification, run on the model *)

Section Scenarios.

(** Scenario A: a summary count alone. *)
Example scenario_A :
  Scenario.run [Scenario.r1] [Scenario.mkItem "r1" (Some 5) (Some 2) (Some 7)]
      Scenario.noParams ∅
  = [("r1"%string,
      Counts {| CompliantResourceCount := 5; NonCompliantResourceCount := 2;
         TotalResourceCount := 7 |},
      NON_COMPLIANT)].
Proof. reflexivity. Qed.

(** Scenario B: three non-compliant findings and no summary entry. *)
Example scenario_B :
  Scenario.run [Scenario.passwordPolicy] [] Scenario.noParams
      {[ "iam-password-policy"%string :=
           [Scenario.mkResult "a" "NON_COMPLIANT";
            Scenario.mkResult "b" "NON_COMPLIANT";
            Scenario.mkResult "c" "NON_COMPLIANT"] ]}
  = [("iam-password-policy"%string,
      Counts {| CompliantResourceCount := 0; NonCompliantResourceCount := 3;
         TotalResourceCount := 3 |},
      NON_COMPLIANT)].
Proof. reflexivity. Qed.

(** Scenario C: an all-zero summary entry. *)
Example scenario_C :
  Scenario.run [Scenario.r2] [Scenario.mkItem "r2" (Some 0) (Some 0) (Some 0)]
      Scenario.noParams ∅
  = [("r2"%string, Counts zeroCount, INSUFFICIENT_DATA)].
Proof. reflexivity. Qed.

(** Scenario D: a rule-name allow-list keeps catalogue order. *)
Example scenario_D :
  RulesWidget.filterRules
    {| ruleNames := Some ["r1"; "r3"]%string; resourceTypes := None;
       complianceStatus := None; ruleName := None |}
    ∅ [Scenario.r1; Scenario.r2; Scenario.r3]
  = [Scenario.r1; Scenario.r3].
Proof. reflexivity. Qed.

(** Scenario E: the COMPLIANT filter on a mixed catalogue. *)
Example scenario_E :
  fst <$> Scenario.run [Scenario.r1; Scenario.r2; Scenario.r3; Scenario.passwordPolicy]
              [Scenario.mkItem "r1" (Some 5) (Some 2) (Some 7);
               Scenario.mkItem "r3" (Some 3) (Some 0) (Some 3)]
              (Scenario.withStatus "COMPLIANT") Scenario.detailFeed
  = [("r3"%string,
      Counts {| CompliantResourceCount := 3; NonCompliantResourceCount := 0;
         TotalResourceCount := 3 |})].
Proof. reflexivity. Qed.

(** The unused [isInsufficient] flag is the default branch of the
    cascade. *)
Lemma classify_insufficient_flag (c : ComplianceCount) :
  classify c = INSUFFICIENT_DATA ↔ isInsufficient c = true.
Proof.
  destruct (classify_triState c) as (_ & _ & ->). unfold isInsufficient.
  by rewrite andb_true_iff, !Nat.eqb_eq.
Qed.

End Scenarios.


(** * Further properties of the widgets *)

(** ** The summary lookup map *)

Section SummaryMap.

Implicit Types (compliance : list SummaryItem) (k : string).

Lemma summaryMap_snoc compliance item :
  summaryMap (compliance ++ [item])
    = <[itemConfigRuleName item := summaryCount (itemComplianceSummary item)]>
        (summaryMap compliance).
Proof. unfold summaryMap. by rewrite foldl_snoc. Qed.

Lemma summaryMap_named compliance k :
  k ∈ itemConfigRuleName <$> compliance → is_Some (summaryMap compliance !! k).
Proof.
  induction compliance as [|item compliance IH] using rev_ind; [by intros Hin; inversion Hin|].
  rewrite fmap_app, elem_of_app, summaryMap_snoc. intros Hin.
  destruct (decide (itemConfigRuleName item = k)) as [<-|Hne].
  - rewrite lookup_insert_eq. by eexists.
  - rewrite lookup_insert_ne by done. destruct Hin as [Hin|Hin]; [by apply IH|].
    simpl in Hin. apply list_elem_of_singleton in Hin. congruence.
Qed.

End SummaryMap.

(** X1: the summary lookup map has an entry for a name exactly when some
    summary item carries that name, and the entry is built from the last
    such item, missing counts read as 0. *)
Theorem X1_summary_map_keeps_last_item (compliance : list SummaryItem) (k : string) :
  (summaryMap compliance !! k = None ↔ k ∉ itemConfigRuleName <$> compliance)
  ∧ (∀ before item after,
       compliance = before ++ item :: after →
       itemConfigRuleName item = k →
       k ∉ itemConfigRuleName <$> after →
       summaryMap compliance !! k
         = Some {| CompliantResourceCount :=
                     default 0 (summaryCompliantResourceCount (itemComplianceSummary item));
                   NonCompliantResourceCount :=
                     default 0 (summaryNonCompliantResourceCount (itemComplianceSummary item));
                   TotalResourceCount :=
                     default 0 (summaryTotalResourceCount (itemComplianceSummary item)) |}).
Proof.
  split.
  - split; [|apply summaryMap_absent].
    intros Hnone Hin. apply summaryMap_named in Hin as [c Hc]. congruence.
  - intros before item after -> <- Hlast. by apply summaryMap_last.
Qed.

Lemma X1_summary_map_keeps_last_item_witness :
  let feed := [Scenario.mkItem "r1" (Some 5) (Some 2) (Some 7);
               Scenario.mkItem "r1" None (Some 1) None;
               Scenario.mkItem "r3" (Some 3) (Some 0) (Some 3)] in
  ("r1"%string ∉ itemConfigRuleName <$> [Scenario.mkItem "r3" (Some 3) (Some 0) (Some 3)])
  ∧ summaryMap feed !! "r1"%string
    = Some {| CompliantResourceCount := 0;
              NonCompliantResourceCount := 1;
              TotalResourceCount := 0 |}.
Proof.
  intros feed.
  assert ("r1"%string ∉ itemConfigRuleName <$>
            [Scenario.mkItem "r3" (Some 3) (Some 0) (Some 3)]) as Hlast.
  { apply (bool_decide_unpack _). vm_compute. exact I. }
  split; [exact Hlast|].
  destruct (X1_summary_map_keeps_last_item feed "r1") as [_ Hkeep].
  apply (Hkeep [Scenario.mkItem "r1" (Some 5) (Some 2) (Some 7)]
           (Scenario.mkItem "r1" None (Some 1) None)
           [Scenario.mkItem "r3" (Some 3) (Some 0) (Some 3)]);
    [reflexivity | reflexivity | exact Hlast].
Defined.

(** ** The filter chain as one predicate *)

Section FilterAlgebra.

Lemma List_filter_filter {A} (f g : A → bool) (l : list A) :
  List.filter f (List.filter g l) = List.filter (λ x, g x && f x) l.
Proof.
  induction l as [|x l IH]; simpl; [done|].
  destruct (g x) eqn:Hg; simpl; [destruct (f x)|]; by rewrite ?IH.
Qed.

Lemma List_filter_ext_in {A} (f g : A → bool) (l : list A) :
  (∀ x, x ∈ l → f x = g x) → List.filter f l = List.filter g l.
Proof.
  intros Hfg. apply filter_ext_in. intros x Hx. apply Hfg. by apply list_elem_of_In.
Qed.

Lemma List_filter_true {A} (l : list A) : List.filter (λ _, true) l = l.
Proof. induction l as [|x l IH]; simpl; by rewrite ?IH. Qed.

Lemma List_filter_all {A} (f : A → bool) (l : list A) :
  (∀ x, x ∈ l → f x = true) → List.filter f l = l.
Proof.
  intros Hf. rewrite <- (List_filter_true l) at 2. by apply List_filter_ext_in.
Qed.

Lemma List_filter_none {A} (f : A → bool) (l : list A) :
  (∀ x, x ∈ l → f x = false) → List.filter f l = [].
Proof.
  intros Hf. induction l as [|x l IH]; simpl; [done|].
  rewrite (Hf x) by apply list_elem_of_here.
  apply IH. intros y Hy. apply Hf. by apply list_elem_of_further.
Qed.

Lemma List_filter_fmap_length {A B} (f : B → bool) (g : A → B) (l : list A) :
  length (List.filter f (g <$> l)) = length (List.filter (λ x, f (g x)) l).
Proof.
  induction l as [|x l IH]; [done|].
  rewrite fmap_cons. cbn [List.filter]. destruct (f (g x)); cbn [length]; by rewrite IH.
Qed.

Lemma filterRules_keeps params cmap rs :
  RulesWidget.filterRules params cmap rs = List.filter (keeps params cmap) rs.
Proof.
  unfold RulesWidget.filterRules, keeps.
  destruct (nonEmptyArray (ruleNames params)),
           (truthyString (complianceStatus params)),
           (nonEmptyArray (resourceTypes params));
    rewrite ?List_filter_filter;
    try (symmetry; by apply List_filter_all);
    apply List_filter_ext_in; intros x _;
    repeat match goal with
           | |- context [RulesWidget.ruleNamesFilter ?a x] =>
               destruct (RulesWidget.ruleNamesFilter a x)
           | |- context [RulesWidget.complianceStatusFilter ?a ?b x] =>
               destruct (RulesWidget.complianceStatusFilter a b x)
           | |- context [RulesWidget.resourceTypesFilter ?a x] =>
               destruct (RulesWidget.resourceTypesFilter a x)
           end; done.
Qed.

End FilterAlgebra.

(** X2: the three guarded filter statements of [processConfigData] amount
    to one filter by the conjunction of the predicates in force; a rule
    is kept exactly when it is in the catalogue and satisfies that
    conjunction, and filtering the output again changes nothing. *)
Theorem X2_filter_chain_is_a_conjunction
    (params : Params) (cmap : gmap string ComplianceCount) (rs : list ConfigRule) :
  RulesWidget.filterRules params cmap rs = List.filter (keeps params cmap) rs
  ∧ RulesWidget.filterRules params cmap (RulesWidget.filterRules params cmap rs)
    = RulesWidget.filterRules params cmap rs
  ∧ (∀ r, r ∈ RulesWidget.filterRules params cmap rs ↔ r ∈ rs ∧ keeps params cmap r = true).
Proof.
  split; [apply filterRules_keeps|]. split.
  - rewrite !filterRules_keeps, List_filter_filter.
    apply List_filter_ext_in. intros x _. by destruct (keeps params cmap x).
  - intros r. rewrite filterRules_keeps. apply elem_of_List_filter.
Qed.

(** X3: filter fields that are missing or empty (an empty [ruleNames] or
    [resourceTypes] array, an empty [complianceStatus] string) constrain
    nothing: every catalogue rule is output, in catalogue order, with
    what [complianceMap[name] || zero] reads for it (its reconciled
    count, or without one the zero count, unless its name is one the map
    object inherits, in which case the inherited member), and
    [summary.total] is the size of the catalogue. *)
Theorem X3_empty_filter_fields_keep_everything
    (rulesResponse : RulesResponse) (complianceResponse : ComplianceResponse)
    (params : Params) (detailed : gmap string (list EvaluationResult))
    (accountId : option string) :
  unfiltered params →
  let cmap :=
    RulesWidget.complianceMap
      (default [] (ComplianceSummaryByConfigRule complianceResponse)) detailed in
  let out :=
    RulesWidget.processConfigData rulesResponse complianceResponse params
      detailed accountId in
  RulesWidget.rules out
    = (λ r, {| RulesWidget.rule := r;
               RulesWidget.compliance :=
                 default (Counts zeroCount) (member cmap (ConfigRuleName r)) |})
        <$> default [] (ConfigRules rulesResponse)
  ∧ RulesWidget.rule <$> RulesWidget.rules out = default [] (ConfigRules rulesResponse)
  ∧ (∀ p, p ∈ RulesWidget.rules out →
       let name := ConfigRuleName (RulesWidget.rule p) in
       (∀ c, cmap !! name = Some c → RulesWidget.compliance p = Counts c)
       ∧ (cmap !! name = None → inheritedFrom cmap name = false →
          RulesWidget.compliance p = Counts zeroCount)
       ∧ (cmap !! name = None → inheritedFrom cmap name = true →
          RulesWidget.compliance p = InheritedMember))
  ∧ RulesWidget.total (RulesWidget.summary out)
    = length (default [] (ConfigRules rulesResponse)).
Proof.
  intros (Hnames & Hstatus & Htypes) cmap out.
  assert (RulesWidget.filterRules params cmap (default [] (ConfigRules rulesResponse))
            = default [] (ConfigRules rulesResponse)) as Hall.
  { unfold RulesWidget.filterRules. by rewrite Hnames, Hstatus, Htypes. }
  unfold out, RulesWidget.processConfigData. simpl. fold cmap. rewrite Hall.
  split; [done|]. split; [|split].
  - rewrite <- list_fmap_compose. rewrite <- (list_fmap_id (default [] _)) at 2.
    by apply list_fmap_ext.
  - intros p Hp. apply list_elem_of_fmap in Hp as (r & -> & _).
    unfold RulesWidget.addCompliance. cbn [RulesWidget.rule RulesWidget.compliance].
    split; [|split].
    + intros c Hc. by rewrite (member_own _ _ _ Hc).
    + intros Hk Hplain. by rewrite (member_missing _ _ Hk Hplain).
    + intros Hk Hin. by rewrite (member_inherited _ _ Hk Hin).
  - by rewrite length_fmap.
Qed.

Lemma X3_empty_filter_fields_keep_everything_witness :
  unfiltered emptyFields
  ∧ RulesWidget.total
      (RulesWidget.summary
         (RulesWidget.processConfigData Scenario.catalog Scenario.summaryFeed
            emptyFields Scenario.detailFeed None))
    = length (default [] (ConfigRules Scenario.catalog)).
Proof.
  assert (unfiltered emptyFields) as Hun by (repeat split).
  split; [exact Hun|].
  apply (X3_empty_filter_fields_keep_everything Scenario.catalog Scenario.summaryFeed
           emptyFields Scenario.detailFeed None Hun).
Defined.

(** With a status other than the three recognised names the callback
    only asks whether [complianceMap[name]] is truthy: an own entry, or
    an inherited member. *)
Lemma statusFilter_unrecognised (status : string) cmap r :
  recognisedStatus status = false →
  RulesWidget.complianceStatusFilter status cmap r = true
  ↔ is_Some (cmap !! ConfigRuleName r) ∨ inheritedFrom cmap (ConfigRuleName r) = true.
Proof.
  unfold recognisedStatus, RulesWidget.complianceStatusFilter, member. intros Hrec.
  destruct (String.eqb status "COMPLIANT"); [done|].
  destruct (String.eqb status "NON_COMPLIANT"); [done|].
  destruct (String.eqb status "INSUFFICIENT_DATA"); [done|].
  destruct (cmap !! ConfigRuleName r) as [c|].
  - split; [by left; eexists | done].
  - destruct (inheritedFrom cmap (ConfigRuleName r)).
    + split; [by right | done].
    + split; [done | by intros [[??]|?]].
Qed.

(** X4: a [complianceStatus] value other than the three recognised names
    keeps exactly the rules for which [complianceMap[name]] is truthy,
    whatever their counts: those with an entry in the reconciled map,
    and those named like a member the map object inherits (each member
    of [Object.prototype] is one). *)
Theorem X4_unrecognised_status_keeps_mapped_rules
    (rulesResponse : RulesResponse) (complianceResponse : ComplianceResponse)
    (params : Params) (detailed : gmap string (list EvaluationResult))
    (accountId : option string) (status : string) :
  complianceStatus params = Some status →
  status ≠ ""%string →
  status ≠ "COMPLIANT"%string → status ≠ "NON_COMPLIANT"%string →
  status ≠ "INSUFFICIENT_DATA"%string →
  let cmap :=
    RulesWidget.complianceMap
      (default [] (ComplianceSummaryByConfigRule complianceResponse)) detailed in
  ∀ r,
    r ∈ RulesWidget.rule <$>
          RulesWidget.rules
            (RulesWidget.processConfigData rulesResponse complianceResponse params
               detailed accountId)
    ↔ r ∈ RulesWidget.filterRules (withoutStatus params) cmap
            (default [] (ConfigRules rulesResponse))
      ∧ (is_Some (cmap !! ConfigRuleName r)
         ∨ inheritedFrom cmap (ConfigRuleName r) = true).
Proof.
  intros Hstatus Hne Hc Hn Hi cmap r.
  rewrite processConfigData_rules, !filterRules_elem.
  cbn [withoutStatus ruleNames resourceTypes complianceStatus].
  rewrite Hstatus, (truthyString_Some status Hne).
  change (truthyString None) with false.
  change (default ""%string (Some status)) with status.
  assert (recognisedStatus status = false) as Hrec.
  { unfold recognisedStatus.
    destruct (String.eqb_spec status "COMPLIANT"); [done|].
    destruct (String.eqb_spec status "NON_COMPLIANT"); [done|].
    by destruct (String.eqb_spec status "INSUFFICIENT_DATA"). }
  fold cmap. rewrite <- (statusFilter_unrecognised status cmap r Hrec).
  intuition (try discriminate).
Qed.

Lemma X4_unrecognised_status_keeps_mapped_rules_witness :
  complianceStatus (Scenario.withStatus "compliant") = Some "compliant"%string
  ∧ (Scenario.constructorRule ∈ RulesWidget.rule <$>
       RulesWidget.rules
         (RulesWidget.processConfigData Scenario.inheritedNameCatalog
            Scenario.summaryFeed
            (Scenario.withStatus "compliant") Scenario.detailFeed None)
     ↔ Scenario.constructorRule
         ∈ RulesWidget.filterRules (withoutStatus (Scenario.withStatus "compliant"))
             (RulesWidget.complianceMap
                (default [] (ComplianceSummaryByConfigRule Scenario.summaryFeed))
                Scenario.detailFeed)
             (default [] (ConfigRules Scenario.inheritedNameCatalog))
       ∧ (is_Some (RulesWidget.complianceMap
                     (default [] (ComplianceSummaryByConfigRule Scenario.summaryFeed))
                     Scenario.detailFeed !! ConfigRuleName Scenario.constructorRule)
          ∨ inheritedFrom
              (RulesWidget.complianceMap
                 (default [] (ComplianceSummaryByConfigRule Scenario.summaryFeed))
                 Scenario.detailFeed)
              (ConfigRuleName Scenario.constructorRule) = true)).
Proof.
  split; [reflexivity|].
  apply (X4_unrecognised_status_keeps_mapped_rules Scenario.inheritedNameCatalog
           Scenario.summaryFeed
           (Scenario.withStatus "compliant") Scenario.detailFeed None "compliant");
    [reflexivity | discriminate | discriminate | discriminate | discriminate].
Defined.

(** ** The summary of the rules widget *)

Section RulesSummary.

Implicit Types (l : list RulesWidget.ProcessedRule).

(** The three bucket counts, the doubly counted rules and the rules
    counted nowhere. *)
Lemma summarize_accounting l :
  let s := RulesWidget.summarize l in
  RulesWidget.compliant s + RulesWidget.nonCompliant s + RulesWidget.insufficientData s
    + length (List.filter carriesInheritedMember l)
    = RulesWidget.total s + length (List.filter untotalledNonCompliant l)
  ∧ RulesWidget.compliant s + RulesWidget.nonCompliant s ≤ RulesWidget.total s.
Proof.
  induction l as [|p l [IH1 IH2]]; [by simpl|].
  unfold RulesWidget.summarize, untotalledNonCompliant, carriesInheritedMember in *.
  cbn [List.filter] in *. simpl in IH1, IH2. simpl.
  destruct (RulesWidget.compliance p) as [c|]; simpl; [|split; lia].
  destruct (NonCompliantResourceCount c) as [|n];
    destruct (TotalResourceCount c) as [|t];
    simpl; split; lia.
Qed.

Lemma filter_length_all {A} (f : A → bool) (xs : list A) :
  Forall (λ x, f x = true) xs → length (List.filter f xs) = length xs.
Proof.
  intros Hall. rewrite List_filter_all; [done|].
  intros x Hx. by eapply Forall_forall in Hall.
Qed.

Lemma filter_length_none {A} (f : A → bool) (xs : list A) :
  Forall (λ x, f x = false) xs → length (List.filter f xs) = 0.
Proof.
  intros Hall. rewrite List_filter_none; [done|].
  intros x Hx. by eapply Forall_forall in Hall.
Qed.

(** Every output rule passed the status callback on its own count. *)
Lemma processed_rules_pass_status rulesResponse complianceResponse params detailed
    accountId (status : string) (test : ComplianceCount → bool) :
  complianceStatus params = Some status → status ≠ ""%string →
  recognisedStatus status = true →
  (∀ cmap r c, cmap !! ConfigRuleName r = Some c →
     RulesWidget.complianceStatusFilter status cmap r = test c) →
  Forall (λ p, ∃ c, RulesWidget.compliance p = Counts c ∧ test c = true)
    (RulesWidget.rules
       (RulesWidget.processConfigData rulesResponse complianceResponse params
          detailed accountId)).
Proof.
  intros Hstatus Hne Hrec Htest. apply Forall_forall. intros p Hp.
  apply processed_rule_origin in Hp as (r & -> & Hr).
  apply filterRules_elem in Hr as (_ & _ & Hpass & _).
  rewrite Hstatus, (truthyString_Some status Hne) in Hpass.
  specialize (Hpass eq_refl). change (default ""%string (Some status)) with status in Hpass.
  destruct (statusFilter_recognised_own _ _ _ Hrec Hpass) as [c Hc].
  exists c. split; [by apply addCompliance_own|].
  by rewrite (Htest _ _ _ Hc) in Hpass.
Qed.

End RulesSummary.

(** X5: in the summary of the rules widget the compliant and
    non-compliant figures never exceed the total together, and the three
    figures, plus the number of output rules that carry an inherited
    member instead of a count (counted in no bucket), add up to the
    total plus the number of output rules whose count has
    nonCompliant > 0 with total = 0 (counted twice); so, when every
    output rule carries a count, the figures partition the output
    exactly when no rule is counted twice. *)
Theorem X5_rules_summary_accounting
    (rulesResponse : RulesResponse) (complianceResponse : ComplianceResponse)
    (params : Params) (detailed : gmap string (list EvaluationResult))
    (accountId : option string) :
  let out :=
    RulesWidget.processConfigData rulesResponse complianceResponse params
      detailed accountId in
  let s := RulesWidget.summary out in
  RulesWidget.total s = length (RulesWidget.rules out)
  ∧ RulesWidget.compliant s + RulesWidget.nonCompliant s ≤ RulesWidget.total s
  ∧ RulesWidget.compliant s + RulesWidget.nonCompliant s + RulesWidget.insufficientData s
      + length (List.filter carriesInheritedMember (RulesWidget.rules out))
    = RulesWidget.total s + length (List.filter untotalledNonCompliant (RulesWidget.rules out))
  ∧ (Forall (λ p, carriesInheritedMember p = false) (RulesWidget.rules out) →
     (RulesWidget.compliant s + RulesWidget.nonCompliant s + RulesWidget.insufficientData s
        = RulesWidget.total s
      ↔ Forall (λ p, untotalledNonCompliant p = false) (RulesWidget.rules out)))
  ∧ (Forall (λ p, inheritedFrom
                    (RulesWidget.complianceMap
                       (default [] (ComplianceSummaryByConfigRule complianceResponse))
                       detailed)
                    (ConfigRuleName (RulesWidget.rule p)) = false)
       (RulesWidget.rules out) →
     Forall (λ p, carriesInheritedMember p = false) (RulesWidget.rules out)).
Proof.
  intros out s.
  destruct (summarize_accounting (RulesWidget.rules out)) as [Hsum Hle].
  change (RulesWidget.summarize (RulesWidget.rules out)) with s in Hsum, Hle.
  split; [done|]. split; [exact Hle|]. split; [exact Hsum|]. split.
  - intros Hcounts. rewrite filter_length_none in Hsum by exact Hcounts. split.
    + intros Hexact. apply Forall_forall. intros p Hp.
      destruct (untotalledNonCompliant p) eqn:Hu; [|done].
      assert (p ∈ List.filter untotalledNonCompliant (RulesWidget.rules out)) as Hin
        by (by apply elem_of_List_filter).
      destruct (List.filter untotalledNonCompliant (RulesWidget.rules out));
        [inversion Hin | simpl in *; lia].
    + intros Hnone. rewrite filter_length_none in Hsum by exact Hnone. lia.
  - rewrite !Forall_forall. intros Hplain p Hp. specialize (Hplain p Hp).
    apply processed_rule_origin in Hp as (r & -> & _).
    unfold carriesInheritedMember, RulesWidget.addCompliance, member in *.
    cbn [RulesWidget.rule RulesWidget.compliance] in *. rewrite Hplain.
    by destruct (_ !! ConfigRuleName r).
Qed.

(** X6: when a [complianceStatus] filter is applied, the summary is
    computed on the filtered rules only: under COMPLIANT every output rule
    is counted compliant and none in the other buckets, under
    NON_COMPLIANT every output rule is counted non-compliant and none
    compliant, under INSUFFICIENT_DATA every output rule is counted
    insufficient-data and none compliant. *)
Theorem X6_status_filter_fills_its_bucket
    (rulesResponse : RulesResponse) (complianceResponse : ComplianceResponse)
    (params : Params) (detailed : gmap string (list EvaluationResult))
    (accountId : option string) :
  let s :=
    RulesWidget.summary
      (RulesWidget.processConfigData rulesResponse complianceResponse params
         detailed accountId) in
  (complianceStatus params = Some "COMPLIANT"%string →
     RulesWidget.compliant s = RulesWidget.total s
     ∧ RulesWidget.nonCompliant s = 0 ∧ RulesWidget.insufficientData s = 0)
  ∧ (complianceStatus params = Some "NON_COMPLIANT"%string →
     RulesWidget.nonCompliant s = RulesWidget.total s ∧ RulesWidget.compliant s = 0)
  ∧ (complianceStatus params = Some "INSUFFICIENT_DATA"%string →
     RulesWidget.insufficientData s = RulesWidget.total s ∧ RulesWidget.compliant s = 0).
Proof.
  intros s. unfold s, RulesWidget.processConfigData, RulesWidget.summarize.
  cbn [RulesWidget.summary RulesWidget.rules RulesWidget.total RulesWidget.compliant
       RulesWidget.nonCompliant RulesWidget.insufficientData].
  split; [|split]; intros Hstatus.
  - pose proof (processed_rules_pass_status rulesResponse complianceResponse params
                  detailed accountId "COMPLIANT" isCompliant Hstatus
                  ltac:(discriminate) eq_refl statusFilter_compliant) as Hall.
    unfold RulesWidget.processConfigData in Hall. simpl in Hall.
    split; [|split].
    + apply filter_length_all. eapply Forall_impl; [exact Hall|].
      intros p (c & -> & Hp). exact Hp.
    + apply filter_length_none. eapply Forall_impl; [exact Hall|].
      intros p (c & -> & Hp). apply isCompliant_true in Hp as [Hn _].
      cbn [nonCompliantOf isPositive]. by rewrite Hn.
    + apply filter_length_none. eapply Forall_impl; [exact Hall|].
      intros p (c & -> & Hp). apply isCompliant_true in Hp as [_ Ht].
      cbn [totalOf isZero]. by apply Nat.eqb_neq; lia.
  - pose proof (processed_rules_pass_status rulesResponse complianceResponse params
                  detailed accountId "NON_COMPLIANT" isNonCompliant Hstatus
                  ltac:(discriminate) eq_refl statusFilter_non_compliant) as Hall.
    unfold RulesWidget.processConfigData in Hall. simpl in Hall.
    split.
    + apply filter_length_all. eapply Forall_impl; [exact Hall|].
      intros p (c & -> & Hp). exact Hp.
    + apply filter_length_none. eapply Forall_impl; [exact Hall|].
      intros p (c & -> & Hp). apply isNonCompliant_true in Hp.
      apply andb_false_iff. left. cbn [nonCompliantOf isZero]. apply Nat.eqb_neq. lia.
  - pose proof (processed_rules_pass_status rulesResponse complianceResponse params
                  detailed accountId "INSUFFICIENT_DATA"
                  (λ c, TotalResourceCount c =? 0) Hstatus
                  ltac:(discriminate) eq_refl statusFilter_insufficient) as Hall.
    unfold RulesWidget.processConfigData in Hall. simpl in Hall.
    split.
    + apply filter_length_all. eapply Forall_impl; [exact Hall|].
      intros p (c & -> & Hp). exact Hp.
    + apply filter_length_none. eapply Forall_impl; [exact Hall|].
      intros p (c & -> & Hp). apply Nat.eqb_eq in Hp.
      apply andb_false_iff. right. cbn [totalOf isPositive]. apply Nat.ltb_ge. lia.
Qed.

Lemma X6_status_filter_fills_its_bucket_witness :
  let s :=
    RulesWidget.summary
      (RulesWidget.processConfigData Scenario.catalog Scenario.summaryFeed
         (Scenario.withStatus "NON_COMPLIANT") Scenario.detailFeed None) in
  complianceStatus (Scenario.withStatus "NON_COMPLIANT") = Some "NON_COMPLIANT"%string
  ∧ RulesWidget.nonCompliant s = RulesWidget.total s ∧ RulesWidget.compliant s = 0.
Proof.
  intros s. split; [reflexivity|].
  destruct (X6_status_filter_fills_its_bucket Scenario.catalog Scenario.summaryFeed
              (Scenario.withStatus "NON_COMPLIANT") Scenario.detailFeed None)
    as (_ & Hnc & _).
  apply Hnc. reflexivity.
Defined.

(** ** The summary view of the compliance widget *)

Section ComplianceSummary.

Implicit Types (data : ComplianceWidget.SummaryData)
               (cmap : gmap string ComplianceCount) (r : ConfigRule).

Lemma countsAsCompliant_default cmap r :
  ComplianceWidget.countsAsCompliant cmap r
    = isCompliant (default zeroCount (cmap !! ConfigRuleName r)).
Proof.
  unfold ComplianceWidget.countsAsCompliant. by destruct (cmap !! ConfigRuleName r).
Qed.

Lemma countsAsNonCompliant_default cmap r :
  ComplianceWidget.countsAsNonCompliant cmap r
    = isNonCompliant (default zeroCount (cmap !! ConfigRuleName r)).
Proof.
  unfold ComplianceWidget.countsAsNonCompliant. by destruct (cmap !! ConfigRuleName r).
Qed.

(** The view reads the map only through the zero-defaulted counts of the
    catalogue rules. *)
Lemma summary_view_by_counts data (count : ConfigRule → ComplianceCount) :
  (∀ r, r ∈ ComplianceWidget.rules data →
     default zeroCount (ComplianceWidget.complianceMap data !! ConfigRuleName r) = count r) →
  let rs := ComplianceWidget.rules data in
  let c := Z.of_nat (length (List.filter (λ r, isCompliant (count r)) rs)) in
  let n := Z.of_nat (length (List.filter (λ r, isNonCompliant (count r)) rs)) in
  ComplianceWidget.generateComplianceSummary data
    = {| ComplianceWidget.totalRules := Z.of_nat (length rs);
         ComplianceWidget.compliantRules := c;
         ComplianceWidget.nonCompliantRules := n;
         ComplianceWidget.insufficientDataRules := (Z.of_nat (length rs) - c - n)%Z;
         ComplianceWidget.items :=
           (λ r, {| ComplianceWidget.itemRule := r;
                    ComplianceWidget.itemCompliance := count r;
                    ComplianceWidget.itemStatus := classify (count r) |}) <$> rs |}.
Proof.
  intros Hcount rs c n. subst c n rs.
  unfold ComplianceWidget.generateComplianceSummary.
  assert (List.filter (ComplianceWidget.countsAsCompliant (ComplianceWidget.complianceMap data))
            (ComplianceWidget.rules data)
          = List.filter (λ r, isCompliant (count r)) (ComplianceWidget.rules data)) as ->.
  { apply List_filter_ext_in. intros r Hr.
    by rewrite countsAsCompliant_default, (Hcount r Hr). }
  assert (List.filter (ComplianceWidget.countsAsNonCompliant (ComplianceWidget.complianceMap data))
            (ComplianceWidget.rules data)
          = List.filter (λ r, isNonCompliant (count r)) (ComplianceWidget.rules data)) as ->.
  { apply List_filter_ext_in. intros r Hr.
    by rewrite countsAsNonCompliant_default, (Hcount r Hr). }
  f_equal. apply list_fmap_ext. intros i r Hr.
  apply list_elem_of_lookup_2 in Hr.
  unfold ComplianceWidget.ruleSummaryItemStatus. by rewrite (Hcount r Hr).
Qed.

Lemma addPasswordPolicyDefault_default rs (m : gmap string ComplianceCount) k :
  default zeroCount (ComplianceWidget.addPasswordPolicyDefault rs m !! k)
    = default zeroCount (m !! k).
Proof.
  destruct (m !! k) as [c|] eqn:Hk.
  - by rewrite (addPasswordPolicyDefault_Some rs m k c Hk).
  - by rewrite (addPasswordPolicyDefault_None rs m k Hk).
Qed.

Lemma ruleExists_listed rulesResponse r :
  r ∈ default [] (ConfigRules rulesResponse) →
  ruleExists rulesResponse (ConfigRuleName r) = true.
Proof.
  unfold ruleExists. destruct (ConfigRules rulesResponse) as [rs|]; simpl;
    [|by intros Hin; inversion Hin].
  intros Hin. apply existsb_exists. exists r.
  split; [by apply list_elem_of_In | apply String.eqb_refl].
Qed.

(** For a listed rule both prefetch loops store the same thing. *)
Lemma prefetch_agree_on_listed up rulesResponse r :
  r ∈ default [] (ConfigRules rulesResponse) →
  detailedComplianceData (ComplianceWidget.prefetch up rulesResponse) !! ConfigRuleName r
    = detailedComplianceData (RulesWidget.prefetch up rulesResponse) !! ConfigRuleName r.
Proof.
  intros Hin. rewrite compliance_prefetch_lookup, rules_prefetch_lookup.
  unfold storedByComplianceWidget, storedByRulesWidget.
  rewrite (ruleExists_listed _ _ Hin).
  destruct (decide _); [|done].
  by destruct (getComplianceDetailsByConfigRule up (ConfigRuleName r)).
Qed.

Lemma mergeDetailed_agree (d1 d2 : gmap string (list EvaluationResult))
    (m : gmap string ComplianceCount) k :
  d1 !! k = d2 !! k → mergeDetailed d1 m !! k = mergeDetailed d2 m !! k.
Proof. intros Hk. by rewrite !mergeDetailed_lookup, Hk. Qed.

End ComplianceSummary.

(** X7: the three figures of the compliance widget partition the
    catalogue: they add up to the number of rules, none is negative, and
    the insufficient-data figure, taken as the remainder, is the number of
    rule items shown as Insufficient Data. *)
Theorem X7_compliance_summary_partitions (data : ComplianceWidget.SummaryData) :
  let v := ComplianceWidget.generateComplianceSummary data in
  (ComplianceWidget.compliantRules v + ComplianceWidget.nonCompliantRules v
     + ComplianceWidget.insufficientDataRules v = ComplianceWidget.totalRules v)%Z
  ∧ ComplianceWidget.totalRules v = Z.of_nat (length (ComplianceWidget.rules data))
  ∧ (0 ≤ ComplianceWidget.compliantRules v)%Z
  ∧ (0 ≤ ComplianceWidget.nonCompliantRules v)%Z
  ∧ (0 ≤ ComplianceWidget.insufficientDataRules v)%Z
  ∧ ComplianceWidget.insufficientDataRules v
    = Z.of_nat (length (List.filter
                          (λ i, match ComplianceWidget.itemStatus i with
                                | INSUFFICIENT_DATA => true
                                | _ => false
                                end)
                          (ComplianceWidget.items v))).
Proof.
  intros v.
  destruct (compliance_summary_partitions data) as [Hsum Hins].
  fold v in Hsum, Hins.
  assert (length (List.filter
                    (λ i, match ComplianceWidget.itemStatus i with
                          | INSUFFICIENT_DATA => true
                          | _ => false
                          end)
                    (ComplianceWidget.items v))
          = length (List.filter (shownInsufficient (ComplianceWidget.complianceMap data))
                      (ComplianceWidget.rules data))) as Hitems.
  { unfold v, ComplianceWidget.generateComplianceSummary.
    cbn [ComplianceWidget.items]. by rewrite List_filter_fmap_length. }
  rewrite Hitems, <- Hins.
  split; [exact Hsum|]. split; [done|].
  assert (0 ≤ ComplianceWidget.insufficientDataRules v)%Z by (rewrite Hins; lia).
  unfold v, ComplianceWidget.generateComplianceSummary in *.
  cbn [ComplianceWidget.compliantRules ComplianceWidget.nonCompliantRules
       ComplianceWidget.insufficientDataRules] in *.
  repeat split; try lia.
Qed.

(** X8: the default entry that [generateComplianceSummaryHTML] adds for a
    listed iam-password-policy rule missing from the map changes nothing
    that is displayed: the statistics and every rule item are those
    computed from the reconciled map without that entry. *)
Theorem X8_password_policy_default_is_unobservable (data : ComplianceWidget.SummaryData) :
  let merged :=
    mergeDetailed (ComplianceWidget.detailedCompliance data)
      (summaryMap (ComplianceWidget.compliance data)) in
  let count r := default zeroCount (merged !! ConfigRuleName r) in
  let rs := ComplianceWidget.rules data in
  let v := ComplianceWidget.generateComplianceSummary data in
  ComplianceWidget.compliantRules v
    = Z.of_nat (length (List.filter (λ r, isCompliant (count r)) rs))
  ∧ ComplianceWidget.nonCompliantRules v
    = Z.of_nat (length (List.filter (λ r, isNonCompliant (count r)) rs))
  ∧ ComplianceWidget.items v
    = (λ r, {| ComplianceWidget.itemRule := r;
               ComplianceWidget.itemCompliance := count r;
               ComplianceWidget.itemStatus := classify (count r) |}) <$> rs.
Proof.
  intros merged count rs v. unfold v.
  rewrite (summary_view_by_counts data count).
  - done.
  - intros r _. apply addPasswordPolicyDefault_default.
Qed.

(** X9: the speculative detail read that the compliance widget makes for
    an account-level name missing from the catalogue has no effect on the
    summary view: the view is the one obtained from the detail object of
    the plain prefetch loop of the rules widget. *)
Theorem X9_speculative_reads_are_unobservable
    (up : Upstream) (rulesResponse : RulesResponse)
    (complianceResponse : ComplianceResponse) (account : string) :
  ComplianceWidget.generateComplianceSummary
    (summaryDataOf rulesResponse complianceResponse
       (detailedComplianceData (ComplianceWidget.prefetch up rulesResponse)) account)
  = ComplianceWidget.generateComplianceSummary
      (summaryDataOf rulesResponse complianceResponse
         (detailedComplianceData (RulesWidget.prefetch up rulesResponse)) account).
Proof.
  set (count r :=
         default zeroCount
           (mergeDetailed (detailedComplianceData (RulesWidget.prefetch up rulesResponse))
              (summaryMap (default [] (ComplianceSummaryByConfigRule complianceResponse)))
              !! ConfigRuleName r)).
  rewrite (summary_view_by_counts _ count), (summary_view_by_counts _ count); [done| |].
  - intros r _. apply addPasswordPolicyDefault_default.
  - intros r Hr. unfold ComplianceWidget.complianceMap.
    rewrite addPasswordPolicyDefault_default. unfold count. f_equal.
    apply mergeDetailed_agree. by apply prefetch_agree_on_listed.
Qed.

(** ** The three widgets on the same reads *)

Section Agreement.

Lemma processConfigData_unfiltered rulesResponse complianceResponse params detailed accountId :
  unfiltered params →
  RulesWidget.rules
    (RulesWidget.processConfigData rulesResponse complianceResponse params
       detailed accountId)
  = RulesWidget.addCompliance
      (RulesWidget.complianceMap
         (default [] (ComplianceSummaryByConfigRule complianceResponse)) detailed)
      <$> default [] (ConfigRules rulesResponse).
Proof.
  intros (Hnames & Hstatus & Htypes).
  unfold RulesWidget.processConfigData, RulesWidget.filterRules. simpl.
  by rewrite Hnames, Hstatus, Htypes.
Qed.

Lemma needsAttention_default (cmap : gmap string ComplianceCount) (r : ConfigRule) :
  RemediationWidget.needsAttention cmap r
    = isNonCompliant (default zeroCount (cmap !! ConfigRuleName r)).
Proof.
  unfold RemediationWidget.needsAttention. by destruct (cmap !! ConfigRuleName r).
Qed.

(** The compliant and non-compliant tests of the rules widget's summary
    come out the same on what is attached to a rule and on its
    zero-defaulted own count: on an inherited member both are false. *)
Lemma compliant_bucket_default (cmap : gmap string ComplianceCount) (r : ConfigRule) :
  isZero (nonCompliantOf (RulesWidget.compliance (RulesWidget.addCompliance cmap r)))
  && isPositive (totalOf (RulesWidget.compliance (RulesWidget.addCompliance cmap r)))
  = isCompliant (default zeroCount (cmap !! ConfigRuleName r)).
Proof.
  unfold RulesWidget.addCompliance, member. cbn [RulesWidget.compliance].
  destruct (cmap !! ConfigRuleName r) as [c|]; [done|].
  by destruct (inheritedFrom cmap (ConfigRuleName r)).
Qed.

Lemma nonCompliant_bucket_default (cmap : gmap string ComplianceCount) (r : ConfigRule) :
  isPositive (nonCompliantOf (RulesWidget.compliance (RulesWidget.addCompliance cmap r)))
  = isNonCompliant (default zeroCount (cmap !! ConfigRuleName r)).
Proof.
  unfold RulesWidget.addCompliance, member. cbn [RulesWidget.compliance].
  destruct (cmap !! ConfigRuleName r) as [c|]; [done|].
  by destruct (inheritedFrom cmap (ConfigRuleName r)).
Qed.

End Agreement.

(** X10: on the same upstream reads and with no filter in force, the
    three widgets agree: the rules widget's total, compliant and
    non-compliant figures are those of the compliance widget, and the
    non-compliant figure is the number of rules the remediation dashboard
    lists. *)
Theorem X10_widgets_agree_on_rule_counts
    (up : Upstream) (rulesResponse : RulesResponse)
    (complianceResponse : ComplianceResponse) (params : Params)
    (accountId : option string) (account : string) :
  unfiltered params →
  let s :=
    RulesWidget.summary
      (RulesWidget.processConfigData rulesResponse complianceResponse params
         (detailedComplianceData (RulesWidget.prefetch up rulesResponse)) accountId) in
  let v :=
    ComplianceWidget.generateComplianceSummary
      (summaryDataOf rulesResponse complianceResponse
         (detailedComplianceData (ComplianceWidget.prefetch up rulesResponse)) account) in
  let attention :=
    List.filter
      (RemediationWidget.needsAttention
         (RemediationWidget.complianceMap complianceResponse
            (detailedComplianceData (RulesWidget.prefetch up rulesResponse))))
      (default [] (ConfigRules rulesResponse)) in
  Z.of_nat (RulesWidget.total s) = ComplianceWidget.totalRules v
  ∧ Z.of_nat (RulesWidget.compliant s) = ComplianceWidget.compliantRules v
  ∧ Z.of_nat (RulesWidget.nonCompliant s) = ComplianceWidget.nonCompliantRules v
  ∧ RulesWidget.nonCompliant s = length attention.
Proof.
  intros Hun s v attention.
  set (merged :=
         mergeDetailed (detailedComplianceData (RulesWidget.prefetch up rulesResponse))
           (summaryMap (default [] (ComplianceSummaryByConfigRule complianceResponse)))).
  set (count r := default zeroCount (merged !! ConfigRuleName r)).
  assert (v = ComplianceWidget.generateComplianceSummary
                (summaryDataOf rulesResponse complianceResponse
                   (detailedComplianceData (RulesWidget.prefetch up rulesResponse)) account))
    as Hv.
  { unfold v. rewrite (summary_view_by_counts _ count), (summary_view_by_counts _ count);
      [done| |].
    - intros r _. apply addPasswordPolicyDefault_default.
    - intros r Hr. unfold ComplianceWidget.complianceMap.
      rewrite addPasswordPolicyDefault_default. unfold count. f_equal.
      apply mergeDetailed_agree. by apply prefetch_agree_on_listed. }
  rewrite Hv, (summary_view_by_counts _ count)
    by (intros r _; apply addPasswordPolicyDefault_default).
  cbn [ComplianceWidget.totalRules ComplianceWidget.compliantRules
       ComplianceWidget.nonCompliantRules ComplianceWidget.rules summaryDataOf].
  assert (s = RulesWidget.summarize
                (RulesWidget.addCompliance
                   (RulesWidget.complianceMap
                      (default [] (ComplianceSummaryByConfigRule complianceResponse))
                      (detailedComplianceData (RulesWidget.prefetch up rulesResponse)))
                   <$> default [] (ConfigRules rulesResponse))) as ->.
  { rewrite <- (processConfigData_unfiltered rulesResponse complianceResponse params
                  (detailedComplianceData (RulesWidget.prefetch up rulesResponse))
                  accountId Hun).
    reflexivity. }
  unfold RulesWidget.summarize.
  cbn [RulesWidget.total RulesWidget.compliant RulesWidget.nonCompliant].
  rewrite length_fmap, !List_filter_fmap_length.
  rewrite (List_filter_ext_in _ (λ r, isCompliant (count r)))
    by (intros r _; apply compliant_bucket_default).
  rewrite (List_filter_ext_in
             (λ r, isPositive (nonCompliantOf (RulesWidget.compliance _)))
             (λ r, isNonCompliant (count r)))
    by (intros r _; apply nonCompliant_bucket_default).
  split; [done|]. split; [done|]. split; [done|].
  unfold attention. apply f_equal. apply List_filter_ext_in. intros r _.
  by rewrite needsAttention_default.
Qed.

Lemma X10_widgets_agree_on_rule_counts_witness :
  unfiltered Scenario.noParams
  ∧ Z.of_nat
      (RulesWidget.nonCompliant
         (RulesWidget.summary
            (RulesWidget.processConfigData Scenario.catalog Scenario.summaryFeed
               Scenario.noParams
               (detailedComplianceData (RulesWidget.prefetch Scenario.throttled Scenario.catalog))
               None)))
    = ComplianceWidget.nonCompliantRules
        (ComplianceWidget.generateComplianceSummary
           (summaryDataOf Scenario.catalog Scenario.summaryFeed
              (detailedComplianceData
                 (ComplianceWidget.prefetch Scenario.throttled Scenario.catalog))
              "123456789012")).
Proof.
  assert (unfiltered Scenario.noParams) as Hun by (repeat split).
  split; [exact Hun|].
  apply (X10_widgets_agree_on_rule_counts Scenario.throttled Scenario.catalog
           Scenario.summaryFeed Scenario.noParams None "123456789012" Hun).
Defined.

(** X11: the prefetch loops store detail only under account-level rule
    names (and, in the rules widget, only for names listed in the
    catalogue), so a rule outside the allow-list is always output with
    what the summary map alone reads for it: its summary count, or
    without one the zero count, unless its name is one the summary map
    inherits, in which case the inherited member. *)
Theorem X11_detail_only_for_account_level_names
    (up : Upstream) (rulesResponse : RulesResponse)
    (complianceResponse : ComplianceResponse) (params : Params)
    (accountId : option string) :
  let detailed := detailedComplianceData (RulesWidget.prefetch up rulesResponse) in
  let summarised :=
    summaryMap (default [] (ComplianceSummaryByConfigRule complianceResponse)) in
  (∀ n, is_Some (detailed !! n) →
     n ∈ accountLevelRules ∧ ruleExists rulesResponse n = true)
  ∧ (∀ n, is_Some (detailedComplianceData (ComplianceWidget.prefetch up rulesResponse) !! n) →
       n ∈ accountLevelRules)
  ∧ Forall
      (λ p, let name := ConfigRuleName (RulesWidget.rule p) in
            name ∉ accountLevelRules →
            RulesWidget.compliance p
              = default (Counts zeroCount) (member summarised name)
            ∧ (inheritedFrom summarised name = false →
               RulesWidget.compliance p
                 = Counts (default zeroCount (summarised !! name)))
            ∧ (inheritedFrom summarised name = true → summarised !! name = None →
               RulesWidget.compliance p = InheritedMember))
      (RulesWidget.rules
         (RulesWidget.processConfigData rulesResponse complianceResponse params
            detailed accountId)).
Proof.
  intros detailed summarised. split; [|split].
  - intros n. unfold detailed. rewrite rules_prefetch_lookup. unfold storedByRulesWidget.
    destruct (decide (n ∈ accountLevelRules)); [|by intros [??]].
    destruct (ruleExists rulesResponse n); [done | by intros [??]].
  - intros n. rewrite compliance_prefetch_lookup.
    destruct (decide (n ∈ accountLevelRules)); [done | by intros [??]].
  - apply Forall_forall. intros p Hp. cbv zeta. intros Hout.
    apply processed_rule_origin in Hp as (r & -> & _).
    unfold RulesWidget.addCompliance in *.
    cbn [RulesWidget.rule RulesWidget.compliance] in *.
    unfold RulesWidget.complianceMap. fold summarised.
    destruct (member_mergeDetailed_absent detailed summarised (ConfigRuleName r))
      as [-> _].
    { unfold detailed. rewrite rules_prefetch_lookup. by rewrite decide_False. }
    { apply rules_prefetch_no_prototype. }
    unfold member. split; [done|]. split.
    + intros ->. by destruct (summarised !! ConfigRuleName r).
    + by intros -> ->.
Qed.

(** ** The rule items of the rules widget *)

(** X12: in a rule item the detail line goes with the status badge:
    "No resources evaluated" is shown exactly on Insufficient Data items,
    the "Account (n non-compliant)" line only on Non-Compliant items
    without a total, a Compliant item always shows its resource ratio, and
    the Remediate action is offered exactly on Non-Compliant items unless
    [showRemediation] is [false]. *)
Theorem X12_rule_item_detail_matches_status
    (showRemediation : option bool) (p : RulesWidget.ProcessedRule) :
  let i := RulesRender.generateRuleItem showRemediation p in
  RulesRender.shownStatus i = RulesWidget.ruleItemStatus p
  ∧ (RulesRender.shownDetail i = RulesRender.NoResourcesEvaluated
     ↔ RulesRender.shownStatus i = INSUFFICIENT_DATA)
  ∧ (∀ n, RulesRender.shownDetail i = RulesRender.AccountNonCompliant n →
       RulesRender.shownStatus i = NON_COMPLIANT
       ∧ ∃ c, RulesWidget.compliance p = Counts c
              ∧ TotalResourceCount c = 0 ∧ n = NonCompliantResourceCount c)
  ∧ (RulesRender.shownStatus i = COMPLIANT →
       ∃ c, RulesWidget.compliance p = Counts c
            ∧ RulesRender.shownDetail i
              = RulesRender.ResourcesCompliant (CompliantResourceCount c)
                  (TotalResourceCount c))
  ∧ (RulesRender.shownRemediate i = true
     ↔ RulesRender.shownStatus i = NON_COMPLIANT ∧ showRemediation ≠ Some false).
Proof.
  intros i. unfold i, RulesRender.generateRuleItem, RulesRender.ruleDetailLine,
    RulesWidget.ruleItemStatus, RulesWidget.classifyAttached.
  cbn [RulesRender.shownStatus RulesRender.shownDetail RulesRender.shownRemediate].
  destruct (RulesWidget.compliance p) as [c|]; cbn [nonCompliantOf totalOf isZero isPositive].
  - destruct (NonCompliantResourceCount c) as [|n] eqn:Hn;
      destruct (TotalResourceCount c) as [|t] eqn:Ht; simpl;
      (split; [done|]); (split; [by split|]).
    + split; [by intros m Hm|]. split; [done|]. split; [done | by intros [??]].
    + split; [by intros m Hm|].
      split; [intros _; exists c; by rewrite Ht|]. split; [done | by intros [??]].
    + split; [intros m [= <-]; split; [done|]; exists c; by rewrite Hn, Ht|].
      split; [done|].
      destruct showRemediation as [[]|]; simpl; split; try done; intros [_ ?]; done.
    + split; [by intros m Hm|]. split; [done|].
      destruct showRemediation as [[]|]; simpl; split; try done; intros [_ ?]; done.
  - simpl. split; [done|]. split; [by split|]. split; [by intros m Hm|].
    split; [done|]. split; [done | by intros [??]].
Qed.

Section Strings.

Lemma string_length_append (a b : string) :
  String.length (a +:+ b) = String.length a + String.length b.
Proof. induction a as [|ch a IH]; simpl; [done | by rewrite IH]. Qed.

Lemma string_append_empty (a : string) : a +:+ "" = a.
Proof.
  induction a as [|ch a IH]; [done|].
  change (String ch (a +:+ "") = String ch a). by rewrite IH.
Qed.

Lemma substring_0_length (n : nat) (s : string) :
  String.length (String.substring 0 n s) = n `min` String.length s.
Proof.
  revert s. induction n as [|n IH]; intros [|ch s]; simpl; try done. by rewrite IH.
Qed.

Lemma substring_0_whole (n : nat) (s : string) :
  String.length s ≤ n → String.substring 0 n s = s.
Proof.
  revert s. induction n as [|n IH]; intros [|ch s]; simpl; try done; [lia|].
  intros Hle. rewrite IH; [done | lia].
Qed.

Lemma substring_0_prefix (n : nat) (s t : string) :
  n ≤ String.length s →
  String.substring 0 n (String.substring 0 n s +:+ t) = String.substring 0 n s.
Proof.
  assert (∀ x, String.substring 0 0 x = ""%string) as Hzero by (by intros []).
  revert s. induction n as [|n IH]; intros s Hle; [by rewrite !Hzero|].
  destruct s as [|ch s]; simpl in *; [lia|].
  rewrite IH; [done | lia].
Qed.

End Strings.

(** X13: a description cut at [limit] characters is the description
    itself when it is no longer than [limit], and otherwise its first
    [limit] characters followed by three dots; either way the result has
    at most [limit + 3] characters and starts like the description.  The
    fragment shown by the rules widget is therefore never empty and never
    longer than 103 characters. *)
Theorem X13_truncated_description_is_bounded (limit : nat) (d : string) :
  String.length (RulesRender.truncate limit d) ≤ limit + 3
  ∧ (String.length d ≤ limit → RulesRender.truncate limit d = d)
  ∧ (limit < String.length d →
     RulesRender.truncate limit d = String.substring 0 limit d +:+ "..."
     ∧ String.length (RulesRender.truncate limit d) = limit + 3)
  ∧ String.substring 0 limit (RulesRender.truncate limit d) = String.substring 0 limit d
  ∧ (∀ shown, RulesRender.descriptionFragment (Some d) = Some shown →
       0 < String.length shown ≤ 103).
Proof.
  unfold RulesRender.truncate.
  destruct (limit <? String.length d) eqn:Hlong.
  - apply Nat.ltb_lt in Hlong.
    assert (String.length (String.substring 0 limit d +:+ "...") = limit + 3) as Hlen.
    { rewrite string_length_append, substring_0_length.
      change (String.length "...") with 3. lia. }
    split; [lia|]. split; [lia|]. split; [done|].
    split; [apply substring_0_prefix; lia|].
    intros shown. unfold RulesRender.descriptionFragment, RulesRender.truncate.
    destruct (String.eqb_spec d ""); [done|]. intros [= <-].
    destruct (100 <? String.length d) eqn:H100.
    + rewrite string_length_append, substring_0_length.
      change (String.length "...") with 3. apply Nat.ltb_lt in H100. lia.
    + apply Nat.ltb_ge in H100. rewrite string_append_empty, substring_0_whole by done.
      destruct d; [done | simpl in *; lia].
  - apply Nat.ltb_ge in Hlong. rewrite string_append_empty, substring_0_whole by done.
    split; [lia|]. split; [done|]. split; [lia|].
    split; [by rewrite ?substring_0_whole|].
    intros shown. unfold RulesRender.descriptionFragment, RulesRender.truncate.
    destruct (String.eqb_spec d ""); [done|]. intros [= <-].
    destruct (100 <? String.length d) eqn:H100.
    + rewrite string_length_append, substring_0_length.
      change (String.length "...") with 3. apply Nat.ltb_lt in H100. lia.
    + apply Nat.ltb_ge in H100. rewrite string_append_empty, substring_0_whole by done.
      destruct d; [done | simpl in *; lia].
Qed.

(** X14: the rules widget's header count is the number of rules kept by
    the filters; the no-data message replaces the list exactly when no
    rule is kept, and otherwise there is one item per kept rule, in
    catalogue order. *)
Theorem X14_rules_list_matches_header
    (rulesResponse : RulesResponse) (complianceResponse : ComplianceResponse)
    (params : Params) (detailed : gmap string (list EvaluationResult))
    (accountId : option string) (showRemediation : option bool) :
  let kept :=
    RulesWidget.filterRules params
      (RulesWidget.complianceMap
         (default [] (ComplianceSummaryByConfigRule complianceResponse)) detailed)
      (default [] (ConfigRules rulesResponse)) in
  let w :=
    RulesRender.generateConfigWidget showRemediation
      (RulesWidget.processConfigData rulesResponse complianceResponse params
         detailed accountId) in
  RulesRender.headerTotal w = length kept
  ∧ (RulesRender.rulesList w = RulesRender.NoRulesFound ↔ kept = [])
  ∧ (∀ items, RulesRender.rulesList w = RulesRender.RuleItems items →
       length items = RulesRender.headerTotal w
       ∧ 0 < RulesRender.headerTotal w
       ∧ RulesRender.shownName <$> items = ConfigRuleName <$> kept).
Proof.
  intros kept w. unfold w, RulesRender.generateConfigWidget, RulesWidget.processConfigData.
  cbn [RulesWidget.summary RulesWidget.rules RulesWidget.summarize RulesWidget.total
       RulesRender.headerTotal RulesRender.rulesList].
  fold kept. rewrite !length_fmap.
  split; [done|].
  destruct kept as [|r kept']; simpl.
  - split; [done|]. intros items Hitems. inversion Hitems.
  - split; [split; intros; discriminate|].
    intros items [= <-]. simpl. rewrite !length_fmap. split; [done|]. split; [lia|].
    f_equal. rewrite <- !list_fmap_compose. by apply list_fmap_ext.
Qed.

(** ** The rule details view of the compliance widget *)

Section RuleDetailsView.

Implicit Types (details : list EvaluationResult).

(** Each result is compliant, non-compliant, insufficient-data typed, or
    of a type no group takes. *)
Lemma details_partition details :
  length details
    = countType "COMPLIANT" details + countType "NON_COMPLIANT" details
      + countType "INSUFFICIENT_DATA" details + length (List.filter ungrouped details).
Proof.
  unfold countType, ungrouped.
  induction details as [|r details IH]; [done|]. cbn [List.filter length].
  destruct (String.eqb_spec (ComplianceType r) "COMPLIANT") as [Hc|Hc];
    destruct (String.eqb_spec (ComplianceType r) "NON_COMPLIANT") as [Hn|Hn];
    destruct (String.eqb_spec (ComplianceType r) "INSUFFICIENT_DATA") as [Hi|Hi];
    try (rewrite Hc in Hn; discriminate Hn);
    try (rewrite Hc in Hi; discriminate Hi);
    try (rewrite Hn in Hi; discriminate Hi);
    cbn [negb andb length]; lia.
Qed.

(** The resources painted non-compliant are the NON_COMPLIANT ones and
    those of a type no group takes. *)
Lemma painted_non_compliant details :
  length (List.filter
            (λ i, match ComplianceRender.itemClass i with
                  | ComplianceRender.ResourceNonCompliant => true
                  | _ => false
                  end)
            (ComplianceRender.generateResourceItem <$> details))
    = countType "NON_COMPLIANT" details + length (List.filter ungrouped details).
Proof.
  rewrite List_filter_fmap_length. unfold countType, ungrouped.
  induction details as [|r details IH]; [done|]. cbn [List.filter length].
  unfold ComplianceRender.generateResourceItem at 1, ComplianceRender.resourceClass at 1.
  cbn [ComplianceRender.itemClass].
  destruct (String.eqb_spec (ComplianceType r) "COMPLIANT") as [Hc|Hc];
    destruct (String.eqb_spec (ComplianceType r) "NON_COMPLIANT") as [Hn|Hn];
    destruct (String.eqb_spec (ComplianceType r) "INSUFFICIENT_DATA") as [Hi|Hi];
    try (rewrite Hc in Hn; discriminate Hn);
    try (rewrite Hc in Hi; discriminate Hi);
    try (rewrite Hn in Hi; discriminate Hi);
    cbn [negb andb length]; lia.
Qed.

Lemma chart_none (c n i : nat) :
  ComplianceRender.generateOverallComplianceChart (Z.of_nat c) (Z.of_nat n) (Z.of_nat i) = None
  ↔ c + n + i = 0.
Proof.
  unfold ComplianceRender.generateOverallComplianceChart.
  destruct (Z.eqb_spec (Z.of_nat c + Z.of_nat n + Z.of_nat i) 0); split; try done; lia.
Qed.

Lemma chart_centre (c n i : Z) ch :
  ComplianceRender.generateOverallComplianceChart c n i = Some ch →
  ComplianceRender.centre ch = (c + n + i)%Z
  ∧ (ComplianceRender.CompliantSlice ∈ ComplianceRender.slices ch ↔ (0 < c)%Z)
  ∧ (ComplianceRender.NonCompliantSlice ∈ ComplianceRender.slices ch ↔ (0 < n)%Z)
  ∧ (ComplianceRender.InsufficientSlice ∈ ComplianceRender.slices ch ↔ (0 < i)%Z).
Proof.
  unfold ComplianceRender.generateOverallComplianceChart.
  destruct (c + n + i =? 0)%Z; [done|]. intros [= <-]. simpl.
  split; [done|].
  destruct (Z.ltb_spec 0 c), (Z.ltb_spec 0 n), (Z.ltb_spec 0 i); simpl;
    rewrite ?elem_of_cons, ?elem_of_nil; repeat split; intros; try lia;
    try done; intuition (try discriminate; try lia).
Qed.

End RuleDetailsView.

(** X15: in the rule details view of the compliance widget the
    "Account-level rule" note is never shown: an empty result list always
    gives "No compliance data available", a non-empty one gives one item
    per result with a non-empty resource id; and the items painted
    non-compliant are the NON_COMPLIANT results together with every result
    whose type is none of COMPLIANT, NON_COMPLIANT and INSUFFICIENT_DATA
    (such as NOT_APPLICABLE). *)
Theorem X15_rule_details_resource_list (name : string) (details : list EvaluationResult) :
  let page := ComplianceRender.generateRuleDetails name details in
  ComplianceRender.pageResources page ≠ ComplianceRender.AccountLevelNote
  ∧ (ComplianceRender.pageResources page = ComplianceRender.NoComplianceData
     ↔ details = [])
  ∧ (details ≠ [] →
     ComplianceRender.pageResources page
       = ComplianceRender.ResourceItems (ComplianceRender.generateResourceItem <$> details))
  ∧ Forall (λ i, ComplianceRender.itemResourceId i ≠ ""%string)
      (ComplianceRender.generateResourceItem <$> details)
  ∧ length (List.filter
              (λ i, match ComplianceRender.itemClass i with
                    | ComplianceRender.ResourceNonCompliant => true
                    | _ => false
                    end)
              (ComplianceRender.generateResourceItem <$> details))
    = ComplianceRender.statNonCompliantResources page
      + length (List.filter ungrouped details).
Proof.
  intros page. unfold page, ComplianceRender.generateRuleDetails.
  cbn [ComplianceRender.pageResources ComplianceRender.statNonCompliantResources].
  split; [|split; [|split; [|split]]].
  - destruct details; simpl; done.
  - destruct details; simpl; split; done.
  - destruct details; [done|]. by intros _.
  - apply Forall_fmap, Forall_forall. intros r _.
    unfold ComplianceRender.generateResourceItem, ComplianceRender.shownResourceId. simpl.
    destruct (String.eqb_spec (ResourceId r) ""); [discriminate | done].
  - apply painted_non_compliant.
Qed.

(** X16: the statistics of the rule details view count disjoint groups:
    compliant + non-compliant + insufficient-data, plus the results of any
    other type, is the total.  The chart is left out exactly when the
    three groups are empty, which can happen although resources are
    listed; when drawn, the number in its centre is the sum of the three
    groups, at most the total, and a slice is drawn for each non-empty
    group. *)
Theorem X16_rule_details_statistics (name : string) (details : list EvaluationResult) :
  let page := ComplianceRender.generateRuleDetails name details in
  let grouped :=
    ComplianceRender.statCompliantResources page
    + ComplianceRender.statNonCompliantResources page
    + ComplianceRender.statInsufficientResources page in
  ComplianceRender.statTotalResources page = length details
  ∧ ComplianceRender.statTotalResources page
    = grouped + length (List.filter ungrouped details)
  ∧ (ComplianceRender.pageChart page = None ↔ grouped = 0)
  ∧ (∀ ch, ComplianceRender.pageChart page = Some ch →
       ComplianceRender.centre ch = Z.of_nat grouped
       ∧ (ComplianceRender.centre ch ≤ Z.of_nat (ComplianceRender.statTotalResources page))%Z
       ∧ (ComplianceRender.CompliantSlice ∈ ComplianceRender.slices ch
          ↔ 0 < ComplianceRender.statCompliantResources page)
       ∧ (ComplianceRender.NonCompliantSlice ∈ ComplianceRender.slices ch
          ↔ 0 < ComplianceRender.statNonCompliantResources page)
       ∧ (ComplianceRender.InsufficientSlice ∈ ComplianceRender.slices ch
          ↔ 0 < ComplianceRender.statInsufficientResources page)).
Proof.
  intros page grouped.
  pose proof (details_partition details) as Hpart. unfold countType in Hpart.
  unfold grouped, page, ComplianceRender.generateRuleDetails.
  cbn [ComplianceRender.statTotalResources ComplianceRender.statCompliantResources
       ComplianceRender.statNonCompliantResources
       ComplianceRender.statInsufficientResources ComplianceRender.pageChart].
  split; [done|]. split; [exact Hpart|]. split; [apply chart_none|].
  intros ch Hch. apply chart_centre in Hch as (Hcentre & Hc & Hn & Hi).
  rewrite Hcentre, Hc, Hn, Hi. repeat split; intros; lia.
Qed.

Lemma X16_rule_details_statistics_witness :
  let page := ComplianceRender.generateRuleDetails "iam-password-policy"
                Scenario.threeFindings in
  ComplianceRender.pageChart page
    = Some {| ComplianceRender.slices := [ComplianceRender.NonCompliantSlice];
              ComplianceRender.centre := 2 |}
  ∧ ComplianceRender.centre
      {| ComplianceRender.slices := [ComplianceRender.NonCompliantSlice];
         ComplianceRender.centre := 2 |}
    = Z.of_nat (ComplianceRender.statCompliantResources page
                + ComplianceRender.statNonCompliantResources page
                + ComplianceRender.statInsufficientResources page).
Proof.
  intros page.
  assert (ComplianceRender.pageChart page
          = Some {| ComplianceRender.slices := [ComplianceRender.NonCompliantSlice];
                    ComplianceRender.centre := 2 |}) as Hch by reflexivity.
  split; [exact Hch|].
  destruct (X16_rule_details_statistics "iam-password-policy" Scenario.threeFindings)
    as (_ & _ & _ & Hdrawn).
  apply (Hdrawn _ Hch).
Defined.

(** X17: the chart of the compliance summary is left out exactly when the
    catalogue is empty; when drawn, the number in its centre is the number
    of rules, and a slice is drawn for each non-zero figure. *)
Theorem X17_summary_chart_counts_the_rules (data : ComplianceWidget.SummaryData) :
  let v := ComplianceWidget.generateComplianceSummary data in
  (ComplianceRender.summaryChart v = None ↔ ComplianceWidget.rules data = [])
  ∧ (∀ ch, ComplianceRender.summaryChart v = Some ch →
       ComplianceRender.centre ch = Z.of_nat (length (ComplianceWidget.rules data))
       ∧ (ComplianceRender.CompliantSlice ∈ ComplianceRender.slices ch
          ↔ (0 < ComplianceWidget.compliantRules v)%Z)
       ∧ (ComplianceRender.NonCompliantSlice ∈ ComplianceRender.slices ch
          ↔ (0 < ComplianceWidget.nonCompliantRules v)%Z)
       ∧ (ComplianceRender.InsufficientSlice ∈ ComplianceRender.slices ch
          ↔ (0 < ComplianceWidget.insufficientDataRules v)%Z)).
Proof.
  intros v. destruct (compliance_summary_partitions data) as [Hsum _]. fold v in Hsum.
  assert (ComplianceWidget.totalRules v = Z.of_nat (length (ComplianceWidget.rules data)))
    as Htotal by done.
  unfold ComplianceRender.summaryChart. split.
  - unfold ComplianceRender.generateOverallComplianceChart. rewrite Hsum, Htotal.
    destruct (ComplianceWidget.rules data); simpl; split; done.
  - intros ch Hch. apply chart_centre in Hch as (Hcentre & Hc & Hn & Hi).
    rewrite Hcentre, Hsum, Htotal. done.
Qed.

(** ** The remediation widget *)

Section Remediation.

Implicit Types (cmap : gmap string ComplianceCount) (rs : list ConfigRule).

(** Rendering the items never throws on rules that have a map entry. *)
Lemma dashboard_items_render cmap rs :
  Forall (λ r, RemediationWidget.needsAttention cmap r = true) rs →
  ∃ items,
    mapM (λ r, RemediationWidget.generateRemediationRuleItem r (cmap !! ConfigRuleName r)) rs
      = Some items
    ∧ RemediationWidget.attentionRule <$> items = ConfigRuleName <$> rs
    ∧ Forall (λ i, 0 < RemediationWidget.attentionCount i) items.
Proof.
  induction rs as [|r rs IH]; intros Hall.
  - exists []. by repeat split.
  - apply Forall_cons in Hall as [Hr Hall]. destruct (IH Hall) as (items & Hitems & Hnames & Hpos).
    unfold RemediationWidget.needsAttention in Hr.
    destruct (cmap !! ConfigRuleName r) as [c|] eqn:Hc; [|done].
    apply Nat.ltb_lt in Hr.
    eexists (_ :: items). split; [|split].
    + apply mapM_Some. constructor; [|by apply mapM_Some].
      rewrite Hc. reflexivity.
    + rewrite !fmap_cons, Hnames. reflexivity.
    + by apply Forall_cons.
Qed.

Lemma needsAttention_is_status_filter cmap r :
  RemediationWidget.needsAttention cmap r
    = RulesWidget.complianceStatusFilter "NON_COMPLIANT" cmap r.
Proof.
  unfold RemediationWidget.needsAttention, RulesWidget.complianceStatusFilter, member.
  destruct (cmap !! ConfigRuleName r); [done|].
  by destruct (inheritedFrom cmap (ConfigRuleName r)).
Qed.

(** None of the five names with guidance of their own is a member of
    [Object.prototype]. *)
Lemma guidance_own_not_inherited (name : string) steps :
  RemediationWidget.guidanceMap !! name = Some steps →
  inherited name = false ∧ length steps = 4.
Proof.
  intros Hsteps. apply elem_of_list_to_map_2 in Hsteps.
  repeat (apply elem_of_cons in Hsteps as [[= -> ->]|Hsteps]; [done|]).
  inversion Hsteps.
Qed.

Lemma guidance_has_four_steps (name : string) steps :
  RemediationWidget.getRemediationGuidance name = Some steps → length steps = 4.
Proof.
  unfold RemediationWidget.getRemediationGuidance.
  destruct (RemediationWidget.guidanceMap !! name) as [own|] eqn:Hown.
  - intros [= <-]. by destruct (guidance_own_not_inherited name own Hown).
  - destruct (inherited name); [done|]. by intros [= <-].
Qed.

Lemma guidance_inherited (name : string) :
  RemediationWidget.getRemediationGuidance name = None ↔ inherited name = true.
Proof.
  unfold RemediationWidget.getRemediationGuidance.
  destruct (RemediationWidget.guidanceMap !! name) as [own|] eqn:Hown.
  - destruct (guidance_own_not_inherited name own Hown) as [-> _]. by split.
  - by destruct (inherited name).
Qed.

End Remediation.

(** X18: when the three initial reads resolve, the remediation dashboard
    is rendered (reading the count of a listed rule never fails): it lists,
    in catalogue order, exactly the rules that the rules widget keeps
    under the NON_COMPLIANT filter, each with a non-compliant count above
    zero, and its "need attention" figure is the number of items. *)
Theorem X18_dashboard_lists_non_compliant_rules
    (reads : RemediationWidget.Reads) (params : Params)
    (account : string) (rulesResponse : RulesResponse)
    (complianceResponse : ComplianceResponse) :
  getCallerIdentity (RemediationWidget.shared reads) = Resolved account →
  describeConfigRules (RemediationWidget.shared reads) = Resolved rulesResponse →
  getComplianceSummaryByConfigRule (RemediationWidget.shared reads)
    = Resolved complianceResponse →
  let detailed :=
    detailedComplianceData
      (RulesWidget.prefetch (RemediationWidget.shared reads) rulesResponse) in
  let kept :=
    RulesWidget.filterRules
      {| ruleNames := None; resourceTypes := None;
         complianceStatus := Some "NON_COMPLIANT"%string; ruleName := None |}
      (RulesWidget.complianceMap
         (default [] (ComplianceSummaryByConfigRule complianceResponse)) detailed)
      (default [] (ConfigRules rulesResponse)) in
  ∃ dashboard,
    RemediationWidget.handler reads None params
      = RemediationWidget.DashboardPage dashboard
    ∧ RemediationWidget.needAttention dashboard
      = length (RemediationWidget.dashboardItems dashboard)
    ∧ RemediationWidget.attentionRule <$> RemediationWidget.dashboardItems dashboard
      = ConfigRuleName <$> kept
    ∧ Forall (λ i, 0 < RemediationWidget.attentionCount i)
        (RemediationWidget.dashboardItems dashboard)
    ∧ RemediationWidget.dashboardAccount dashboard = account.
Proof.
  intros Hid Hrules Hsummary detailed kept.
  set (cmap := RemediationWidget.complianceMap complianceResponse detailed).
  assert (kept = List.filter (RemediationWidget.needsAttention cmap)
                   (default [] (ConfigRules rulesResponse))) as Hkept.
  { unfold kept, RulesWidget.filterRules. simpl.
    apply List_filter_ext_in. intros r _.
    symmetry. exact (needsAttention_is_status_filter cmap r). }
  destruct (dashboard_items_render cmap kept) as (items & Hitems & Hnames & Hpos).
  { rewrite Hkept. apply Forall_forall. intros r Hr.
    by apply elem_of_List_filter in Hr as [_ Hr]. }
  exists {| RemediationWidget.needAttention := length kept;
            RemediationWidget.dashboardAccount := account;
            RemediationWidget.dashboardItems := items |}.
  split; [|split; [|by repeat split]].
  - change (RemediationWidget.handler reads None params)
      with (RemediationWidget.getRemediationDashboard reads).
    unfold RemediationWidget.getRemediationDashboard.
    rewrite Hid, Hrules, Hsummary. fold detailed. fold cmap. rewrite <- Hkept.
    unfold RemediationWidget.generateRemediationDashboard. by rewrite Hitems.
  - simpl. rewrite <- (length_fmap ConfigRuleName kept), <- Hnames. by rewrite length_fmap.
Qed.

Lemma X18_dashboard_lists_non_compliant_rules_witness :
  getCallerIdentity (RemediationWidget.shared managedRuleReads)
    = Resolved "123456789012"%string
  ∧ describeConfigRules (RemediationWidget.shared managedRuleReads)
    = Resolved Scenario.catalog
  ∧ getComplianceSummaryByConfigRule (RemediationWidget.shared managedRuleReads)
    = Resolved Scenario.summaryFeed
  ∧ ∃ dashboard,
      RemediationWidget.handler managedRuleReads None Scenario.noParams
        = RemediationWidget.DashboardPage dashboard
      ∧ RemediationWidget.needAttention dashboard
        = length (RemediationWidget.dashboardItems dashboard).
Proof.
  split; [reflexivity|]. split; [reflexivity|]. split; [reflexivity|].
  destruct (X18_dashboard_lists_non_compliant_rules managedRuleReads Scenario.noParams
              "123456789012" Scenario.catalog Scenario.summaryFeed
              eq_refl eq_refl eq_refl) as (dashboard & Hpage & Hcount & _).
  exists dashboard. split; [exact Hpage | exact Hcount].
Defined.

(** X19: the remediate action shows guidance only for a rule that the
    named lookup returns first and whose [Source.Owner] is ['AWS']; the
    guidance is that of the returned rule's name, which is not a member
    every object inherits, and has four steps.
    Without a rule name the action answers "Rule name is required for
    remediation" whatever the upstream reads would return. *)
Theorem X19_guidance_only_for_aws_managed_rules
    (reads : RemediationWidget.Reads) (params : Params) :
  (∀ name steps,
     RemediationWidget.handler reads (Some "remediateRule"%string) params
       = RemediationWidget.GuidancePage name steps →
     ∃ requested response rule rest source,
       ruleName params = Some requested
       ∧ RemediationWidget.describeConfigRulesNamed reads requested = Resolved response
       ∧ RemediationWidget.DescribedConfigRules response = Some (rule :: rest)
       ∧ RemediationWidget.Source rule = Some source
       ∧ RemediationWidget.Owner source = Some "AWS"%string
       ∧ name = ConfigRuleName (RemediationWidget.describedRule rule)
       ∧ RemediationWidget.getRemediationGuidance name = Some steps
       ∧ inherited name = false
       ∧ length steps = 4)
  ∧ (truthyString (ruleName params) = false →
     RemediationWidget.handler reads (Some "remediateRule"%string) params
       = RemediationWidget.ErrorPage "Rule name is required for remediation").
Proof.
  change (RemediationWidget.handler reads (Some "remediateRule"%string) params)
    with (RemediationWidget.handleRemediationAction reads params).
  unfold RemediationWidget.handleRemediationAction. split.
  - intros name steps.
    destruct (ruleName params) as [requested|] eqn:Hname; simpl; [|done].
    destruct (String.eqb requested ""); simpl; [done|].
    destruct (RemediationWidget.describeConfigRulesNamed reads requested)
      as [response|] eqn:Hread; [|unfold RemediationWidget.generateErrorHTML; done].
    destruct (RemediationWidget.DescribedConfigRules response) as [[|rule rest]|] eqn:Hrules;
      try (unfold RemediationWidget.generateErrorHTML; done).
    unfold RemediationWidget.notManagedByAWS.
    destruct (RemediationWidget.Source rule) as [source|] eqn:Hsource; [|done].
    destruct (RemediationWidget.Owner source) as [owner|] eqn:Howner; [|done].
    destruct (String.eqb owner ""); simpl; [done|].
    destruct (String.eqb_spec owner "AWS") as [Hown|]; simpl; [|done]. subst owner.
    unfold RemediationWidget.generateRemediationGuidance.
    destruct (RemediationWidget.getRemediationGuidance
                (ConfigRuleName (RemediationWidget.describedRule rule)))
      as [found|] eqn:Hfound; simpl; [|unfold RemediationWidget.generateErrorHTML; done].
    intros [= <- <-].
    exists requested, response, rule, rest, source.
    repeat split; try done.
    + destruct (inherited (ConfigRuleName (RemediationWidget.describedRule rule)))
        eqn:Hin; [|done].
      apply guidance_inherited in Hin. congruence.
    + by apply guidance_has_four_steps in Hfound.
  - intros Hmissing. by rewrite Hmissing.
Qed.

Lemma X19_guidance_only_for_aws_managed_rules_witness :
  let params := {| ruleNames := None; resourceTypes := None; complianceStatus := None;
                   ruleName := Some "s3-bucket-public-read-prohibited"%string |} in
  RemediationWidget.handler managedRuleReads (Some "remediateRule"%string) params
    = RemediationWidget.GuidancePage "s3-bucket-public-read-prohibited"
        ["Remove public read access from the S3 bucket";
         "Update bucket policy to deny public read access";
         "Consider using bucket ACLs to restrict access";
         "Verify bucket is not used for public content hosting"]%string
  ∧ ∃ source,
      RemediationWidget.Owner source = Some "AWS"%string.
Proof.
  intros params.
  assert (RemediationWidget.handler managedRuleReads (Some "remediateRule"%string) params
          = RemediationWidget.GuidancePage "s3-bucket-public-read-prohibited"
              ["Remove public read access from the S3 bucket";
               "Update bucket policy to deny public read access";
               "Consider using bucket ACLs to restrict access";
               "Verify bucket is not used for public content hosting"]%string) as Hpage
    by (vm_compute; reflexivity).
  split; [exact Hpage|].
  destruct (X19_guidance_only_for_aws_managed_rules managedRuleReads params) as [Honly _].
  destruct (Honly _ _ Hpage)
    as (requested & response & rule & rest & source & _ & _ & _ & _ & Howner & _).
  exists source. exact Howner.
Defined.

(** X20: for a rule name that is not a member every object inherits,
    [getRemediationGuidance] returns exactly four steps, the generic
    guidance for every such name other than the five it knows; for a
    name that is such a member (constructor, toString, ...) it returns
    what the object inherits, which has no steps, and the remediate
    action on an AWS managed rule of that name answers the error page. *)
Theorem X20_guidance_has_four_steps_unless_inherited (name : string) :
  (inherited name = false →
     ∃ steps, RemediationWidget.getRemediationGuidance name = Some steps
              ∧ length steps = 4)
  ∧ (inherited name = false →
     (name ∉ ["s3-bucket-public-read-prohibited"; "s3-bucket-public-write-prohibited";
              "iam-password-policy"; "rds-instance-public-access-check";
              "vpc-sg-open-only-to-authorized-ports"]%string) →
     RemediationWidget.getRemediationGuidance name
       = Some RemediationWidget.genericGuidance)
  ∧ (RemediationWidget.getRemediationGuidance name = None ↔ inherited name = true)
  ∧ (inherited name = true →
     ∀ reads params requested response rule rest,
       ruleName params = Some requested → requested ≠ ""%string →
       RemediationWidget.describeConfigRulesNamed reads requested = Resolved response →
       RemediationWidget.DescribedConfigRules response = Some (rule :: rest) →
       RemediationWidget.notManagedByAWS rule = false →
       ConfigRuleName (RemediationWidget.describedRule rule) = name →
       RemediationWidget.handler reads (Some "remediateRule"%string) params
         = RemediationWidget.ErrorPage RemediationWidget.noStepsMessage).
Proof.
  split; [|split; [|split]].
  - intros Hplain.
    destruct (RemediationWidget.getRemediationGuidance name) as [steps|] eqn:Hsteps.
    + exists steps. split; [done|]. by apply guidance_has_four_steps in Hsteps.
    + apply guidance_inherited in Hsteps. congruence.
  - intros Hplain Hunknown. unfold RemediationWidget.getRemediationGuidance.
    assert (RemediationWidget.guidanceMap !! name = None) as ->.
    { apply not_elem_of_list_to_map_1. exact Hunknown. }
    by rewrite Hplain.
  - apply guidance_inherited.
  - intros Hin reads params requested response rule rest Hname Hne Hread Hrules
      Hmanaged Hrule.
    change (RemediationWidget.handler reads (Some "remediateRule"%string) params)
      with (RemediationWidget.handleRemediationAction reads params).
    unfold RemediationWidget.handleRemediationAction.
    rewrite Hname, (truthyString_Some requested Hne).
    change (default ""%string (Some requested)) with requested.
    rewrite Hread, Hrules, Hmanaged.
    unfold RemediationWidget.generateRemediationGuidance. rewrite Hrule.
    apply guidance_inherited in Hin. by rewrite Hin.
Qed.

Lemma X20_guidance_has_four_steps_unless_inherited_witness :
  inherited "constructor" = true
  ∧ inherited "s3-bucket-public-read-prohibited" = false
  ∧ RemediationWidget.getRemediationGuidance "constructor" = None
  ∧ ∃ steps,
      RemediationWidget.getRemediationGuidance "s3-bucket-public-read-prohibited"
        = Some steps
      ∧ length steps = 4.
Proof.
  split; [reflexivity|]. split; [reflexivity|].
  destruct (X20_guidance_has_four_steps_unless_inherited "constructor")
    as (_ & _ & Hnone & _).
  split; [apply Hnone; reflexivity|].
  destruct (X20_guidance_has_four_steps_unless_inherited
              "s3-bucket-public-read-prohibited") as (Hfour & _).
  apply Hfour. reflexivity.
Defined.

Section RemediationDetails.

Lemma filter_complement_length {A} (f : A → bool) (l : list A) :
  length (List.filter f l) + length (List.filter (λ x, negb (f x)) l) = length l.
Proof.
  induction l as [|x l IH]; simpl; [done|]. destruct (f x); simpl; lia.
Qed.

Lemma details_rows (rule : RemediationWidget.DescribedRule)
    (results : list EvaluationResult) :
  RemediationWidget.detailsResources (RemediationWidget.generateRuleDetails rule results)
    = (λ resource,
         {| RemediationWidget.rowResourceId := ComplianceRender.shownResourceId resource;
            RemediationWidget.rowCompliant :=
              String.eqb (ComplianceType resource) "COMPLIANT" |}) <$> results.
Proof. by destruct results. Qed.

End RemediationDetails.

(** X21: the rule details view of the remediation widget lists one row
    per evaluation result; the rows labelled Compliant are as many as the
    compliant figure, every other row is labelled Non-Compliant, so that
    these rows number total - compliant, which is at least the
    non-compliant figure; and compliant + non-compliant never exceeds the
    total. *)
Theorem X21_remediation_details_rows
    (rule : RemediationWidget.DescribedRule) (results : list EvaluationResult) :
  let d := RemediationWidget.generateRuleDetails rule results in
  let rows := RemediationWidget.detailsResources d in
  RemediationWidget.detailsTotal d = length results
  ∧ length rows = RemediationWidget.detailsTotal d
  ∧ length (List.filter RemediationWidget.rowCompliant rows)
    = RemediationWidget.detailsCompliant d
  ∧ length (List.filter (λ row, negb (RemediationWidget.rowCompliant row)) rows)
    = RemediationWidget.detailsTotal d - RemediationWidget.detailsCompliant d
  ∧ RemediationWidget.detailsNonCompliant d
    ≤ length (List.filter (λ row, negb (RemediationWidget.rowCompliant row)) rows)
  ∧ RemediationWidget.detailsCompliant d + RemediationWidget.detailsNonCompliant d
    ≤ RemediationWidget.detailsTotal d.
Proof.
  intros d rows. unfold rows, d. rewrite details_rows.
  cbn [RemediationWidget.generateRuleDetails RemediationWidget.detailsTotal
       RemediationWidget.detailsCompliant RemediationWidget.detailsNonCompliant].
  rewrite length_fmap, !List_filter_fmap_length.
  cbn [RemediationWidget.rowCompliant].
  pose proof (filter_complement_length
                (λ r, String.eqb (ComplianceType r) "COMPLIANT") results) as Hcompl.
  pose proof (detail_buckets_le results) as Hle.
  unfold countType in *.
  repeat split; lia.
Qed.

(** X22: the reconciled map has no entry for a name exactly when no
    summary item carries it and its detail list is missing or empty; and
    every entry is either the count derived from that name's non-empty
    detail list or the name's summary count. *)
Theorem X22_reconciled_entries_have_a_source
    (compliance : list SummaryItem) (detailed : gmap string (list EvaluationResult))
    (k : string) :
  (RulesWidget.complianceMap compliance detailed !! k = None
   ↔ (k ∉ itemConfigRuleName <$> compliance)
     ∧ (detailed !! k = None ∨ detailed !! k = Some []))
  ∧ (∀ c, RulesWidget.complianceMap compliance detailed !! k = Some c →
       (∃ results, detailed !! k = Some results ∧ results ≠ []
                   ∧ c = detailCount results)
       ∨ ((detailed !! k = None ∨ detailed !! k = Some [])
          ∧ summaryMap compliance !! k = Some c)).
Proof.
  unfold RulesWidget.complianceMap. rewrite mergeDetailed_lookup.
  assert (summaryMap compliance !! k = None ↔ k ∉ itemConfigRuleName <$> compliance)
    as Hnone.
  { split; [|apply summaryMap_absent].
    intros Hk Hin. apply summaryMap_named in Hin as [c Hc]. congruence. }
  destruct (detailed !! k) as [[|e results]|] eqn:Hd; simpl.
  - rewrite Hnone. split; [split; [by auto | by intros [? _]]|].
    intros c Hc. right. auto.
  - split; [split; [done | by intros [_ [?|?]]]|].
    intros c [= <-]. left. by exists (e :: results).
  - rewrite Hnone. split; [split; [by auto | by intros [? _]]|].
    intros c Hc. right. auto.
Qed.
